(** * KingFoodMart dashboard: aggregation and segmentation engine

    A shallow embedding of [ve_app.py]: the MongoDB aggregation pipeline and
    the row construction of [load_data_optimized], the first classification
    pass [apply_clustering_improved], the date-window recomputation
    [filter_by_date_range_optimized], the percentile classifier
    [categorize_price_segment], the rollup [calculate_segment_analysis] and
    the top-level statements of the script that chain them; further the
    default window of the sidebar, the overview figures, the frame of the
    daily charts and [format_number].

    Modelling choices.
    - Numbers (Python int and float, BSON int and double) are rationals
      [Q], compared with [==].  A double is the rational it denotes, and
      [round_double] rounds a rational to the nearest double.  The functions
      come in two precisions.  The plain ones ([sum_movements],
      [calculate_segment_analysis], ...) compute in exact arithmetic; they
      carry the statements that rounding cannot change: structure, order,
      signs, bounds, tiers.  Those whose name ends in [_double] round every
      floating-point operation of the code; they carry the statements that
      compare two sums or products computed on different paths, and the
      percentages.  Whole numbers up to [2^53] are doubles, and sums and
      products of such numbers that stay within [2^53] are computed without
      rounding ([round_double_exact]).  Infinities, overflow, subnormal
      numbers and NaN quantities are not modelled.  NaN appears only where
      the code tests for it, as the [None] of a price cell (and of the
      revenue cells computed from it).  The quantile fractions 0.25, 0.33,
      0.67 and 0.75 are the rationals 1/4, 33/100, 67/100 and 3/4.
    - A DataFrame is the list of its rows and the columns are record fields;
      the constant columns [stock_history_str] and [source_file] are left
      out.  The frame before and after [apply_clustering_improved] has two
      row types, the second with the three added columns.
    - A movement entry is any BSON value ([pyval]); a document is an
      association list.
    - [datetime.strptime] and [float] applied to a string are library
      functions: the engine is stated for arbitrary ones (section
      variables), and an ASCII model of each serves the concrete examples.
    - A raised exception is [None] in an [option]; the [try]/[except] of the
      code is a [match] on it.
    - The connection to the database, the Streamlit widgets and the charts
      are not modelled: [load_data_optimized] takes the collection as a list
      and [dashboard] takes the sidebar selections as arguments. *)

From Stdlib Require Import ZArith NArith QArith Qround Qminmax Qabs Qpower.
From Stdlib Require Import List Sorted String Ascii Bool Lia Lqa.
From Stdlib Require Import DecimalString DecimalPos DecimalN.
Import ListNotations.
Local Open Scope Q_scope.

(** ** Python and BSON values *)

#[warnings="-register-all"]
Inductive pyval : Type :=
| PNone
| PBool (b : bool)
| PNum (q : Q)
| PStr (s : string)
| PList (l : list pyval)
| PDict (d : list (string * pyval)).

Fixpoint dict_get (k : string) (d : list (string * pyval)) : option pyval :=
  match d with
  | [] => None
  | (k', v) :: d' => if String.eqb k k' then Some v else dict_get k d'
  end.

(** [isinstance(entry, dict) and 'date' in entry], then [entry['date']]. *)
Definition entry_date_field (entry : pyval) : option pyval :=
  match entry with
  | PDict d => dict_get "date" d
  | _ => None
  end.

(** ** Calendar dates ([datetime.date]) *)

Record date : Type := mkdate { year : Z; month : Z; day : Z }.

Definition date_leb (a b : date) : bool :=
  (year a <? year b)%Z
  || ((year a =? year b)%Z
      && ((month a <? month b)%Z
          || ((month a =? month b)%Z && (day a <=? day b)%Z))).

Definition date_min (a b : date) : date := if date_leb a b then a else b.
Definition date_max (a b : date) : date := if date_leb a b then b else a.

(** ** Rounding to 0 decimals

    Mongo's [$round] and Python's [round(x, 0)] both round half to even. *)

Definition round_half_even (q : Q) : Z :=
  let f := Qfloor q in
  match Qcompare (q - inject_Z f) (1 # 2) with
  | Lt => f
  | Gt => (f + 1)%Z
  | Eq => if Z.even f then f else (f + 1)%Z
  end.

Definition round0 (q : Q) : Q := inject_Z (round_half_even q).

(** ** Double precision

    Python's [float] and the float64 columns of pandas hold IEEE 754
    doubles.  [round_double q] is the double nearest to [q], ties going to
    the even significand: [q] is scaled so that its significand has 53 bits,
    rounded to a whole number and scaled back.  The exponent range is taken
    unbounded. *)

(** The exponent of the leading bit: [2 ^ binade q <= |q| < 2 ^ (binade q + 1)]. *)
Definition binade (q : Q) : Z :=
  let e := (Z.log2 (Z.abs (Qnum q)) - Z.log2 (Zpos (Qden q)))%Z in
  if Qlt_le_dec (Qabs q) (2 ^ e) then (e - 1)%Z else e.

Definition round_double (q : Q) : Q :=
  if Qeq_bool q 0 then 0
  else
    let ulp := 2 ^ (binade q - 52) in
    Qred (inject_Z (round_half_even (q / ulp)) * ulp).

(** [2 ^ -53], the largest relative error of one rounding. *)
Definition unit_roundoff : Q := 1 # 9007199254740992.

(** [2 ^ 53]: every whole number up to it is a double. *)
Definition max_exact : Q := 9007199254740992.

(** ** ASCII models of the two library parsers *)

Module AsciiLib.

Definition is_digit (c : ascii) : bool :=
  let n := nat_of_ascii c in ((48 <=? n)%nat && (n <=? 57)%nat)%bool.

Definition digit (c : ascii) : Z := Z.of_nat (nat_of_ascii c) - 48.

Definition is_nonzero_digit (c : ascii) : bool :=
  (is_digit c && negb (Ascii.eqb c "0"))%bool.

Definition is_leap (y : Z) : bool :=
  ((y mod 4 =? 0)%Z && (negb (y mod 100 =? 0)%Z || (y mod 400 =? 0)%Z))%bool.

Definition days_in_month (y m : Z) : Z :=
  if (m =? 2)%Z then (if is_leap y then 29 else 28)%Z
  else if ((m =? 4) || (m =? 6) || (m =? 9) || (m =? 11))%Z then 30%Z
  else 31%Z.

(** The [date(y, m, d)] constructor: year 1..9999, day within the month. *)
Definition make_date (y m d : Z) : option date :=
  if ((1 <=? y) && (1 <=? m) && (m <=? 12) && (1 <=? d)
      && (d <=? days_in_month y m))%Z
  then Some (mkdate y m d) else None.

(** [%d]: [3[0-1]|[1-2]\d|0[1-9]|[1-9]| [1-9]], then nothing may remain. *)
Definition parse_day (cs : list ascii) : option Z :=
  match cs with
  | [a] => if is_nonzero_digit a then Some (digit a) else None
  | [a; b] =>
      if ((Ascii.eqb a "3" && (Ascii.eqb b "0" || Ascii.eqb b "1"))
          || ((Ascii.eqb a "1" || Ascii.eqb a "2") && is_digit b)
          || (Ascii.eqb a "0" && is_nonzero_digit b))%bool
      then Some (10 * digit a + digit b)%Z
      else if (Ascii.eqb a " " && is_nonzero_digit b)%bool
           then Some (digit b) else None
  | _ => None
  end.

(** [%m]: [1[0-2]|0[1-9]|[1-9]], followed by the literal dash. *)
Definition parse_month (cs : list ascii) : option (Z * list ascii) :=
  match cs with
  | a :: "-"%char :: rest =>
      if is_nonzero_digit a then Some (digit a, rest) else None
  | a :: b :: "-"%char :: rest =>
      if ((Ascii.eqb a "1"
           && (Ascii.eqb b "0" || Ascii.eqb b "1" || Ascii.eqb b "2"))
          || (Ascii.eqb a "0" && is_nonzero_digit b))%bool
      then Some (10 * digit a + digit b, rest)%Z else None
  | _ => None
  end.

(** [datetime.strptime(s, '%Y-%m-%d').date()] on ASCII input: four digits,
    a dash, the month, a dash, the day, and nothing after it. *)
Definition strptime_ymd (s : string) : option date :=
  match list_ascii_of_string s with
  | y1 :: y2 :: y3 :: y4 :: "-"%char :: rest =>
      if (is_digit y1 && is_digit y2 && is_digit y3 && is_digit y4)%bool
      then
        match parse_month rest with
        | Some (m, rest') =>
            match parse_day rest' with
            | Some d =>
                make_date (1000 * digit y1 + 100 * digit y2
                           + 10 * digit y3 + digit y4) m d
            | None => None
            end
        | None => None
        end
      else None
  | _ => None
  end.

Fixpoint digits_value (acc : Z) (cs : list ascii) : option Z :=
  match cs with
  | [] => Some acc
  | c :: cs' =>
      if is_digit c then digits_value (10 * acc + digit c) cs' else None
  end.

(** [float(s)] on an optionally signed run of ASCII decimal digits, where it
    agrees with Python; every other string is taken as a [ValueError] (the
    examples hold no quantity that is a string). *)
Definition float_of_str (s : string) : option Q :=
  match list_ascii_of_string s with
  | "-"%char :: c :: cs =>
      option_map (fun z => inject_Z (- z)) (digits_value 0 (c :: cs))
  | "+"%char :: c :: cs => option_map inject_Z (digits_value 0 (c :: cs))
  | c :: cs => option_map inject_Z (digits_value 0 (c :: cs))
  | [] => None
  end.

End AsciiLib.

(** ** The records of the data model *)

(** A document of the collection, as far as the pipeline reads it.  A field
    that is absent (or, for [price], not a number) is [None]. *)
Record RawProduct : Type := mkRaw {
  raw_id : string;
  raw_name : option string;
  raw_category : option string;
  raw_price : option Q;
  raw_promotion : option string;
  raw_stock_history : option (list pyval)
}.

(** A document as the cursor yields it, after [$match], [$project] and
    [$addFields]. *)
Record Projected : Type := mkProjected {
  p_id : string;
  p_name : option string;
  p_category : option string;
  p_price : Q;
  p_promotion : option string;
  p_stock_history : list pyval;
  p_total_sold : Q;
  p_total_stock_increased : Q
}.

(** A row of the frame built by [load_data_optimized]. *)
Record LoadedRow : Type := mkLoaded {
  l_id : string;
  l_name : string;
  l_category : string;
  l_price : option Q;
  l_promotion : string;
  l_total_sold : Q;
  l_revenue : option Q;
  l_total_stock_increased : Q;
  l_stock_revenue : option Q;
  l_stock_history : list pyval
}.

(** The price tiers: 'Thấp', 'Trung bình', 'Cao', 'Không xác định'. *)
Inductive Segment : Type := Thap | Trung_binh | Cao | Khong_xac_dinh.

(** A row once [apply_clustering_improved] has added its three columns. *)
Record ProductRow : Type := mkRow {
  id : string;
  name : string;
  category : string;
  price : option Q;
  promotion : string;
  total_sold : Q;
  revenue : option Q;
  total_stock_increased : Q;
  stock_revenue : option Q;
  stock_history : list pyval;
  segment : Segment;
  quantity_sold : Q;
  stock_remaining : Q
}.

(** 'Bán hàng' and 'Tồn kho'. *)
Inductive DisplayMode : Type := Ban_hang | Ton_kho.

(** A row of the rollup. *)
Record SegmentSummary : Type := mkSummary {
  s_segment : Segment;
  s_revenue : Q;
  s_quantity_sold : Q;
  s_revenue_pct : Q;
  s_quantity_pct : Q
}.

(** ** The aggregation pipeline (MongoDB side of [load_data_optimized]) *)

(** [{"$match": {"price": {"$gt": 0, "$lt": 1000000000}}}] *)
Definition mongo_match (r : RawProduct) : bool :=
  match raw_price r with
  | Some p => if Qlt_le_dec 0 p then (if Qlt_le_dec p 1000000000 then true else false) else false
  | None => false
  end.

(** [{"$ifNull": [v, dflt]}]: a missing field and null both give [dflt]. *)
Definition mongo_ifNull (v : option pyval) (dflt : pyval) : pyval :=
  match v with
  | None | Some PNone => dflt
  | Some x => x
  end.

(** ["$$entry.field"]: missing unless the entry is a document with it. *)
Definition mongo_field (field : string) (entry : pyval) : option pyval :=
  match entry with
  | PDict d => dict_get field d
  | _ => None
  end.

(** [{"$max": [v, 0]}].  In the BSON comparison order null sorts below the
    numbers and strings, documents, arrays and booleans above them. *)
Definition mongo_max_zero (v : pyval) : pyval :=
  match v with
  | PNum q => PNum (Qmax q 0)
  | PNone => PNum 0
  | other => other
  end.

(** [$sum] over an array ignores the operands that are not numbers. *)
Definition mongo_sum (vs : list pyval) : Q :=
  fold_right (fun v acc => match v with PNum q => q + acc | _ => acc end) 0 vs.

(** [{"$sum": {"$map": {input: "$stock_history", as: "entry",
      in: {"$max": [{"$ifNull": ["$$entry.<field>", 0]}, 0]}}}}] *)
Definition mongo_total (field : string) (stock_history : list pyval) : Q :=
  mongo_sum
    (map (fun entry => mongo_max_zero (mongo_ifNull (mongo_field field entry) (PNum 0)))
         stock_history).

Definition mongo_project (r : RawProduct) (p : Q) : Projected :=
  let stock_history :=
    firstn 100 (match raw_stock_history r with Some h => h | None => [] end) in
  {| p_id := raw_id r;
     p_name := raw_name r;
     p_category := raw_category r;
     p_price := round0 p;
     p_promotion := raw_promotion r;
     p_stock_history := stock_history;
     p_total_sold := mongo_total "stock_decreased" stock_history;
     p_total_stock_increased := mongo_total "stock_increased" stock_history |}.

Fixpoint aggregate (collection : list RawProduct) : list Projected :=
  match collection with
  | [] => []
  | r :: rest =>
      match raw_price r with
      | Some p => if mongo_match r then mongo_project r p :: aggregate rest
                  else aggregate rest
      | None => aggregate rest
      end
  end.

(** ** Cells that may hold NaN *)

Definition num_mul (p : option Q) (x : Q) : option Q :=
  match p with Some p => Some (p * x) | None => None end.

(** [x <= y] where [y] may be NaN: every comparison with NaN is false. *)
Definition num_leb (x : Q) (y : option Q) : bool :=
  match y with Some y => Qle_bool x y | None => false end.

Definition num_eqb (x y : option Q) : bool :=
  match x, y with Some x, Some y => Qeq_bool x y | _, _ => false end.

(** Equality of two cells as numbers. *)
Definition num_eq (x y : option Q) : Prop :=
  match x, y with
  | Some x, Some y => x == y
  | None, None => True
  | _, _ => False
  end.

(** ** pandas column helpers *)

(** The values of a column that are not NaN. *)
Fixpoint dropna (cells : list (option Q)) : list Q :=
  match cells with
  | [] => []
  | Some x :: rest => x :: dropna rest
  | None :: rest => dropna rest
  end.

Fixpoint insert_sorted (x : Q) (l : list Q) : list Q :=
  match l with
  | [] => [x]
  | y :: l' => if Qle_bool x y then x :: l else y :: insert_sorted x l'
  end.

Definition sort_values (l : list Q) : list Q := fold_right insert_sorted [] l.

(** [Series.quantile(q)], linear interpolation between the two order
    statistics around position [q * (n - 1)]; NaN on an empty column. *)
Definition quantile (q : Q) (cells : list (option Q)) : option Q :=
  let s := sort_values (dropna cells) in
  match s with
  | [] => None
  | x0 :: _ =>
      let h := inject_Z (Z.of_nat (List.length s - 1)) * q in
      let i := Z.to_nat (Qfloor h) in
      let lo := nth i s x0 in
      let hi := nth (i + 1) s lo in
      Some (lo + (hi - lo) * (h - inject_Z (Qfloor h)))
  end.

(** [Series.min()] and [Series.max()], skipping NaN. *)
Definition series_min (cells : list (option Q)) : option Q :=
  match dropna cells with
  | [] => None
  | x :: rest => Some (fold_left Qmin rest x)
  end.

Definition series_max (cells : list (option Q)) : option Q :=
  match dropna cells with
  | [] => None
  | x :: rest => Some (fold_left Qmax rest x)
  end.

(** [Series.nunique()]: the number of distinct values that are not NaN. *)
Fixpoint unique (l : list Q) : list Q :=
  match l with
  | [] => []
  | x :: rest => x :: filter (fun y => negb (Qeq_bool x y)) (unique rest)
  end.

Definition nunique (cells : list (option Q)) : nat := List.length (unique (dropna cells)).

(** [Series.sum()], NaN counted as 0. *)
Definition series_sum (xs : list Q) : Q := fold_right Qplus 0 xs.

(** [Series.sum()] on a float64 column, as the accumulation loop from left
    to right, every addition rounded. *)
Definition series_sum_double (xs : list Q) : Q :=
  fold_left (fun acc x => round_double (acc + x)) xs 0.

Definition nan_to_zero (c : option Q) : Q :=
  match c with Some x => x | None => 0 end.

Definition str_default (s : option string) : string :=
  match s with Some s => s | None => EmptyString end.

(** ** Concrete inputs of the examples *)

Module Examples.

Definition movement (d : string) (decreased increased : Q) : pyval :=
  PDict [("date"%string, PStr d);
         ("stock_decreased"%string, PNum decreased);
         ("stock_increased"%string, PNum increased)].

Definition product (i : string) (p : Q) (history : list pyval) : RawProduct :=
  {| raw_id := i; raw_name := Some i; raw_category := Some "food"%string;
     raw_price := Some p; raw_promotion := None;
     raw_stock_history := Some history |}.

(** The two products of the worked example. *)
Definition product_1 : RawProduct :=
  product "p1" 1000 [movement "2025-03-10" 5 2].
Definition product_2 : RawProduct :=
  product "p2" 5000 [movement "2025-04-01" 3 0].



(** Fifty-one sales of one unit on the same day. *)
Definition product_long : RawProduct :=
  product "p4" 2000 (repeat (movement "2025-03-10" 1 0) 51).

Definition five_products : list RawProduct :=
  [product "a" 1000 [movement "2025-03-10" 1 1];
   product "b" 2000 [movement "2025-03-11" 1 1];
   product "c" 3000 [movement "2025-03-12" 1 1];
   product "d" 4000 [movement "2025-03-13" 1 1];
   product "e" 5000 [movement "2025-03-14" 1 1]].

Definition march_10 : date := mkdate 2025 3 10.
Definition march_14 : date := mkdate 2025 3 14.
Definition april_1 : date := mkdate 2025 4 1.
Definition may_1 : date := mkdate 2025 5 1.

(** An entry whose [stock_decreased] is null: [float(None)] raises. *)
Definition product_unconvertible : RawProduct :=
  product "p5" 3000
          [PDict [("date"%string, PStr "2025-03-10");
                  ("stock_decreased"%string, PNone);
                  ("stock_increased"%string, PNum 1)]].


(** One sale of [2^53 + 1] units: a whole number that no double holds. *)
Definition product_huge : RawProduct :=
  product "p6" 1000 [movement "2025-03-10" 9007199254740993 0].

End Examples.

Section Engine.

(** [datetime.strptime(s, '%Y-%m-%d').date()], [None] on [ValueError]. *)
Variable strptime_ymd : string -> option date.
(** [float(s)] on a string, [None] on [ValueError]. *)
Variable float_of_str : string -> option Q.

(** The guarded parse both loops share:
    [if isinstance(entry, dict) and 'date' in entry: try: strptime ...
     except: continue].  A date that is not a string is a [TypeError],
    swallowed by the same bare [except]. *)
Definition parse_entry_date (entry : pyval) : option date :=
  match entry_date_field entry with
  | Some (PStr s) => strptime_ymd s
  | _ => None
  end.

(** *** [load_data_optimized], Python side *)

Fixpoint collect_dates (stock_history : list pyval) : list date :=
  match stock_history with
  | [] => []
  | entry :: rest =>
      match parse_entry_date entry with
      | Some d => d :: collect_dates rest
      | None => collect_dates rest
      end
  end.

(** The body of [for product in cursor], up to [all_data.append]. *)
Definition load_row (product : Projected) : LoadedRow :=
  let price := Qmax 1000 (p_price product) in
  let total_sold := Qmax 0 (p_total_sold product) in
  let total_stock_increased := Qmax 0 (p_total_stock_increased product) in
  let stock_history := firstn 50 (p_stock_history product) in
  {| l_id := p_id product;
     l_name := str_default (p_name product);
     l_category := str_default (p_category product);
     l_price := Some price;
     l_promotion := str_default (p_promotion product);
     l_total_sold := round0 total_sold;
     l_revenue := Some (round0 (price * total_sold));
     l_total_stock_increased := round0 total_stock_increased;
     l_stock_revenue := Some (round0 (price * total_stock_increased));
     l_stock_history := stock_history |}.

Definition default_min_date : date := mkdate 2025 3 5.
Definition default_max_date : date := mkdate 2025 5 25.

Definition load_data_optimized (collection : list RawProduct)
  : list LoadedRow * date * date :=
  let cursor := aggregate collection in
  let df := map load_row cursor in
  let all_dates :=
    flat_map (fun product => collect_dates (firstn 50 (p_stock_history product)))
             cursor in
  match all_dates with
  | [] => (df, default_min_date, default_max_date)
  | d :: ds => (df, fold_left date_min ds d, fold_left date_max ds d)
  end.

(** *** [apply_clustering_improved] *)

Definition categorize_price (price_25th price_75th : option Q) (price : option Q)
  : Segment :=
  match price with
  | None => Khong_xac_dinh
  | Some p =>
      if num_leb p price_25th then Thap
      else if num_leb p price_75th then Trung_binh
      else Cao
  end.

(** The row of the copy: the two new columns and the tier. *)
Definition with_clustering (seg : Segment) (r : LoadedRow) : ProductRow :=
  {| id := l_id r; name := l_name r; category := l_category r;
     price := l_price r; promotion := l_promotion r;
     total_sold := l_total_sold r; revenue := l_revenue r;
     total_stock_increased := l_total_stock_increased r;
     stock_revenue := l_stock_revenue r;
     stock_history := l_stock_history r;
     segment := seg;
     quantity_sold := l_total_sold r;
     stock_remaining := l_total_stock_increased r |}.

Definition apply_clustering_improved (df : list LoadedRow) : list ProductRow :=
  match df with
  | [] => []
  | _ =>
      let prices := map l_price df in
      if ((1 <? List.length df)%nat && (1 <? nunique prices)%nat)%bool then
        let price_25th := quantile (33 # 100) prices in
        let price_75th := quantile (67 # 100) prices in
        map (fun r => with_clustering (categorize_price price_25th price_75th (l_price r)) r) df
      else
        map (with_clustering Trung_binh) df
  end.

(** *** [filter_by_date_range_optimized] *)

Definition in_window (start_date end_date : date) (entry : pyval) : bool :=
  match parse_entry_date entry with
  | Some entry_date => date_leb start_date entry_date && date_leb entry_date end_date
  | None => false
  end.

Definition filter_stock_history (start_date end_date : date)
  (stock_history : list pyval) : list pyval :=
  filter (in_window start_date end_date) stock_history.

(** [float(v)]: [None] stands for the [TypeError] or [ValueError]. *)
Definition py_float (v : pyval) : option Q :=
  match v with
  | PNum q => Some q
  | PBool b => Some (if b then 1 else 0)
  | PStr s => float_of_str s
  | PNone | PList _ | PDict _ => None
  end.

(** [entry.get(key, 0)] *)
Definition get_or_zero (key : string) (d : list (string * pyval)) : pyval :=
  match dict_get key d with Some v => v | None => PNum 0 end.

(** The loop of [recalculate_metrics], with the two running totals. *)
Fixpoint sum_movements (stock_history : list pyval)
  (total_sold total_stock_increased : Q) : option (Q * Q) :=
  match stock_history with
  | [] => Some (total_sold, total_stock_increased)
  | PDict d :: rest =>
      match py_float (get_or_zero "stock_decreased" d) with
      | None => None
      | Some dec =>
          match py_float (get_or_zero "stock_increased" d) with
          | None => None
          | Some inc =>
              sum_movements rest (total_sold + Qmax 0 dec)
                            (total_stock_increased + Qmax 0 inc)
          end
      end
  | _ :: rest => sum_movements rest total_sold total_stock_increased
  end.

Definition with_stock_history (h : list pyval) (r : ProductRow) : ProductRow :=
  {| id := id r; name := name r; category := category r; price := price r;
     promotion := promotion r; total_sold := total_sold r;
     revenue := revenue r;
     total_stock_increased := total_stock_increased r;
     stock_revenue := stock_revenue r;
     stock_history := h;
     segment := segment r;
     quantity_sold := quantity_sold r;
     stock_remaining := stock_remaining r |}.

(** The four assignments from the [metrics] frame. *)
Definition with_metrics (sold stock : Q) (r : ProductRow) : ProductRow :=
  {| id := id r; name := name r; category := category r; price := price r;
     promotion := promotion r; total_sold := total_sold r;
     revenue := num_mul (price r) sold;
     total_stock_increased := total_stock_increased r;
     stock_revenue := num_mul (price r) stock;
     stock_history := stock_history r;
     segment := segment r;
     quantity_sold := sold;
     stock_remaining := stock |}.

Definition recalculate_metrics (row : ProductRow) : option ProductRow :=
  match sum_movements (stock_history row) 0 0 with
  | Some (total_sold, total_stock_increased) =>
      Some (with_metrics total_sold total_stock_increased row)
  | None => None
  end.

(** [filtered_df.apply(recalculate_metrics, axis=1)]: the first row that
    raises aborts the whole [apply]. *)
Fixpoint apply_recalculate (rows : list ProductRow) : option (list ProductRow) :=
  match rows with
  | [] => Some []
  | r :: rest =>
      match recalculate_metrics r with
      | None => None
      | Some r' =>
          match apply_recalculate rest with
          | None => None
          | Some rest' => Some (r' :: rest')
          end
      end
  end.

Definition filter_by_date_range_optimized (df : list ProductRow)
  (start_date end_date : date) : list ProductRow :=
  match df with
  | [] => df
  | _ =>
      let filtered_df :=
        map (fun r => with_stock_history
                        (filter_stock_history start_date end_date (stock_history r)) r)
            df in
      match apply_recalculate filtered_df with
      | Some result => result
      | None => df
      end
  end.

(** *** [filter_by_date_range_optimized] in double precision

    The same function with the roundings of the code: [float(...)] returns
    the nearest double, each [+=] on the running totals and each product
    [row['price'] * total] rounds to a double. *)

Definition py_float_double (v : pyval) : option Q :=
  match py_float v with
  | Some q => Some (round_double q)
  | None => None
  end.

Fixpoint sum_movements_double (stock_history : list pyval)
  (total_sold total_stock_increased : Q) : option (Q * Q) :=
  match stock_history with
  | [] => Some (total_sold, total_stock_increased)
  | PDict d :: rest =>
      match py_float_double (get_or_zero "stock_decreased" d) with
      | None => None
      | Some dec =>
          match py_float_double (get_or_zero "stock_increased" d) with
          | None => None
          | Some inc =>
              sum_movements_double rest
                (round_double (total_sold + Qmax 0 dec))
                (round_double (total_stock_increased + Qmax 0 inc))
          end
      end
  | _ :: rest => sum_movements_double rest total_sold total_stock_increased
  end.

Definition num_mul_double (p : option Q) (x : Q) : option Q :=
  match p with Some p => Some (round_double (p * x)) | None => None end.

Definition with_metrics_double (sold stock : Q) (r : ProductRow) : ProductRow :=
  {| id := id r; name := name r; category := category r; price := price r;
     promotion := promotion r; total_sold := total_sold r;
     revenue := num_mul_double (price r) sold;
     total_stock_increased := total_stock_increased r;
     stock_revenue := num_mul_double (price r) stock;
     stock_history := stock_history r;
     segment := segment r;
     quantity_sold := sold;
     stock_remaining := stock |}.

Definition recalculate_metrics_double (row : ProductRow) : option ProductRow :=
  match sum_movements_double (stock_history row) 0 0 with
  | Some (total_sold, total_stock_increased) =>
      Some (with_metrics_double total_sold total_stock_increased row)
  | None => None
  end.

Fixpoint apply_recalculate_double (rows : list ProductRow)
  : option (list ProductRow) :=
  match rows with
  | [] => Some []
  | r :: rest =>
      match recalculate_metrics_double r with
      | None => None
      | Some r' =>
          match apply_recalculate_double rest with
          | None => None
          | Some rest' => Some (r' :: rest')
          end
      end
  end.

Definition filter_by_date_range_optimized_double (df : list ProductRow)
  (start_date end_date : date) : list ProductRow :=
  match df with
  | [] => df
  | _ =>
      let filtered_df :=
        map (fun r => with_stock_history
                        (filter_stock_history start_date end_date (stock_history r)) r)
            df in
      match apply_recalculate_double filtered_df with
      | Some result => result
      | None => df
      end
  end.

(** *** [categorize_price_segment] *)

Definition with_segment (seg : Segment) (r : ProductRow) : ProductRow :=
  {| id := id r; name := name r; category := category r; price := price r;
     promotion := promotion r; total_sold := total_sold r;
     revenue := revenue r;
     total_stock_increased := total_stock_increased r;
     stock_revenue := stock_revenue r;
     stock_history := stock_history r;
     segment := seg;
     quantity_sold := quantity_sold r;
     stock_remaining := stock_remaining r |}.

Definition classify_segment (price_25th price_75th : option Q) (price : option Q)
  : Segment :=
  match price with
  | None => Khong_xac_dinh
  | Some p =>
      if num_leb p price_25th then Thap
      else if num_leb p price_75th then Trung_binh
      else Cao
  end.

(** [(price_min + price_max) / 2] *)
Definition midpoint (price_min price_max : option Q) : option Q :=
  match price_min, price_max with
  | Some a, Some b => Some ((a + b) / 2)
  | _, _ => None
  end.

(** ['Thấp' if x < price_mid else 'Cao'] *)
Definition split_at_midpoint (price_mid : option Q) (x : option Q) : Segment :=
  match x, price_mid with
  | Some x, Some m => if Qlt_le_dec x m then Thap else Cao
  | _, _ => Cao
  end.

Definition categorize_price_segment (df : list ProductRow) : list ProductRow :=
  let prices := map price df in
  match dropna prices with
  | [] => map (with_segment Khong_xac_dinh) df
  | _ =>
      let price_25th := quantile (1 # 4) prices in
      let price_75th := quantile (3 # 4) prices in
      if num_eqb price_25th price_75th then
        let price_min := series_min prices in
        let price_max := series_max prices in
        if num_eqb price_min price_max then map (with_segment Trung_binh) df
        else
          let price_mid := midpoint price_min price_max in
          map (fun r => with_segment (split_at_midpoint price_mid (price r)) r) df
      else
        map (fun r => with_segment (classify_segment price_25th price_75th (price r)) r) df
  end.

(** *** [calculate_segment_analysis] *)

Definition segment_eqb (a b : Segment) : bool :=
  match a, b with
  | Thap, Thap | Trung_binh, Trung_binh | Cao, Cao
  | Khong_xac_dinh, Khong_xac_dinh => true
  | _, _ => false
  end.

Definition segment_label (s : Segment) : string :=
  match s with
  | Thap => "Thấp"
  | Trung_binh => "Trung bình"
  | Cao => "Cao"
  | Khong_xac_dinh => "Không xác định"
  end.

(** [groupby('segment')] sorts its keys: the labels in ascending order. *)
Definition groupby_keys : list Segment := [Cao; Khong_xac_dinh; Thap; Trung_binh].

Definition group_of (seg : Segment) (df : list ProductRow) : list ProductRow :=
  filter (fun r => segment_eqb (segment r) seg) df.

(** One group per tier that occurs in the frame. *)
Definition groupby_segment (df : list ProductRow)
  : list (Segment * list ProductRow) :=
  flat_map (fun seg =>
              match group_of seg df with
              | [] => []
              | g => [(seg, g)]
              end) groupby_keys.

(** [.agg({...: 'sum', ...: 'sum'})] with the columns of the mode, the
    inventory columns renamed to [revenue] and [quantity_sold]. *)
Definition agg_sum (display_mode : DisplayMode) (g : Segment * list ProductRow)
  : Segment * Q * Q :=
  match display_mode with
  | Ban_hang =>
      (fst g, series_sum (map (fun r => nan_to_zero (revenue r)) (snd g)),
       series_sum (map quantity_sold (snd g)))
  | Ton_kho =>
      (fst g, series_sum (map (fun r => nan_to_zero (stock_revenue r)) (snd g)),
       series_sum (map stock_remaining (snd g)))
  end.

(** [(x / total * 100) if total > 0 else 0] *)
Definition pct (x total : Q) : Q :=
  if Qlt_le_dec 0 total then x / total * 100 else 0.

Definition calculate_segment_analysis (df : list ProductRow)
  (display_mode : DisplayMode) : list SegmentSummary :=
  match df with
  | [] => []
  | _ =>
      let segment_stats := map (agg_sum display_mode) (groupby_segment df) in
      let total_revenue := series_sum (map (fun s => snd (fst s)) segment_stats) in
      let total_quantity := series_sum (map snd segment_stats) in
      map (fun s =>
             {| s_segment := fst (fst s);
                s_revenue := snd (fst s);
                s_quantity_sold := snd s;
                s_revenue_pct := pct (snd (fst s)) total_revenue;
                s_quantity_pct := pct (snd s) total_quantity |})
          segment_stats
  end.

(** *** [calculate_segment_analysis] in double precision

    The sums of the groups and the two totals are accumulated in doubles,
    and a percentage is two rounded operations, the division and the
    product by 100. *)

Definition agg_sum_double (display_mode : DisplayMode)
  (g : Segment * list ProductRow) : Segment * Q * Q :=
  match display_mode with
  | Ban_hang =>
      (fst g, series_sum_double (map (fun r => nan_to_zero (revenue r)) (snd g)),
       series_sum_double (map quantity_sold (snd g)))
  | Ton_kho =>
      (fst g, series_sum_double (map (fun r => nan_to_zero (stock_revenue r)) (snd g)),
       series_sum_double (map stock_remaining (snd g)))
  end.

Definition pct_double (x total : Q) : Q :=
  if Qlt_le_dec 0 total then round_double (round_double (x / total) * 100) else 0.

Definition calculate_segment_analysis_double (df : list ProductRow)
  (display_mode : DisplayMode) : list SegmentSummary :=
  match df with
  | [] => []
  | _ =>
      let segment_stats := map (agg_sum_double display_mode) (groupby_segment df) in
      let total_revenue := series_sum_double (map (fun s => snd (fst s)) segment_stats) in
      let total_quantity := series_sum_double (map snd segment_stats) in
      map (fun s =>
             {| s_segment := fst (fst s);
                s_revenue := snd (fst s);
                s_quantity_sold := snd s;
                s_revenue_pct := pct_double (snd (fst s)) total_revenue;
                s_quantity_pct := pct_double (snd s) total_quantity |})
          segment_stats
  end.

(** *** The statements of the script

    [df = apply_clustering_improved(df)], the three sidebar selections
    ([None] is 'Tất cả'), the date window, the second classification
    [categorize_price_segment(filtered_df.copy())] and the rollup.  An
    empty frame stops the script before any of them. *)

Definition select_rows {A : Type} (selected : option A) (matches : A -> ProductRow -> bool)
  (df : list ProductRow) : list ProductRow :=
  match selected with
  | None => df
  | Some v => filter (matches v) df
  end.

Definition selected_rows (df : list ProductRow)
  (selected_category : option string) (selected_segment : option Segment)
  (selected_product : option string) : list ProductRow :=
  let filtered_df :=
    select_rows selected_category (fun v r => String.eqb (category r) v) df in
  let filtered_df :=
    select_rows selected_segment (fun v r => segment_eqb (segment r) v) filtered_df in
  select_rows selected_product (fun v r => String.eqb (name r) v) filtered_df.

Definition dashboard (df : list LoadedRow)
  (selected_category : option string) (selected_segment : option Segment)
  (selected_product : option string) (display_mode : DisplayMode)
  (start_date end_date : date) : option (list ProductRow * list SegmentSummary) :=
  match df with
  | [] => None
  | _ =>
      let df := apply_clustering_improved df in
      let filtered_df :=
        selected_rows df selected_category selected_segment selected_product in
      let filtered_df :=
        filter_by_date_range_optimized filtered_df start_date end_date in
      let filtered_df := categorize_price_segment filtered_df in
      Some (filtered_df, calculate_segment_analysis filtered_df display_mode)
  end.

(** The rows of [dashboard] just after the date window, before the second
    classification. *)
Definition windowed_rows (df : list LoadedRow)
  (selected_category : option string) (selected_segment : option Segment)
  (selected_product : option string) (start_date end_date : date)
  : list ProductRow :=
  filter_by_date_range_optimized
    (selected_rows (apply_clustering_improved df)
                   selected_category selected_segment selected_product)
    start_date end_date.

(** *** Predicates of the statements *)

Definition is_integer (q : Q) : bool := Qeq_bool q (inject_Z (Qfloor q)).

(** The quantity under [key] is absent or a whole number. *)
Definition whole_quantity (key : string) (d : list (string * pyval)) : bool :=
  match dict_get key d with
  | None => true
  | Some (PNum q) => is_integer q
  | Some _ => false
  end.

(** A movement entry the window [start_date, end_date] covers: a dict whose
    date parses and lies in the window, with whole-number quantities. *)
Definition covered_entry (start_date end_date : date) (entry : pyval) : bool :=
  match entry with
  | PDict d =>
      in_window start_date end_date entry
      && whole_quantity "stock_decreased" d
      && whole_quantity "stock_increased" d
  | _ => false
  end.

(** The history of a document as the pipeline reads it ([$ifNull]). *)
Definition history_of (r : RawProduct) : list pyval :=
  match raw_stock_history r with Some h => h | None => [] end.

(** No date of the frame falls in the window. *)
Definition disjoint_window (start_date end_date : date) (df : list ProductRow)
  : bool :=
  forallb (fun r => forallb (fun entry => negb (in_window start_date end_date entry))
                            (stock_history r)) df.

Definition has_price (r : ProductRow) : bool :=
  match price r with Some _ => true | None => false end.

(** The tiers that occur in a frame, in the order of the group keys. *)
Definition tiers_present (df : list ProductRow) : list Segment :=
  filter (fun seg => existsb (fun r => segment_eqb (segment r) seg) df) groupby_keys.

Definition nonneg_quantities (r : ProductRow) : Prop :=
  0 <= quantity_sold r /\ 0 <= stock_remaining r.

Definition zeroed (r : ProductRow) : ProductRow :=
  with_metrics 0 0 (with_stock_history [] r).

Definition whole (q : Q) : Prop := exists z : Z, q == inject_Z z.

(** The tier [categorize_price_segment] gives to a price, as a function of
    the price column. *)
Definition tier_of_price (prices : list (option Q)) (x : option Q) : Segment :=
  match dropna prices with
  | [] => Khong_xac_dinh
  | _ =>
      if num_eqb (quantile (1 # 4) prices) (quantile (3 # 4) prices) then
        if num_eqb (series_min prices) (series_max prices) then Trung_binh
        else split_at_midpoint (midpoint (series_min prices) (series_max prices)) x
      else classify_segment (quantile (1 # 4) prices) (quantile (3 # 4) prices) x
  end.

(** What the date window leaves untouched in a row. *)
Definition same_product (r r' : ProductRow) : Prop :=
  segment r' = segment r /\ price r' = price r /\ id r' = id r
  /\ name r' = name r /\ category r' = category r
  /\ total_sold r' = total_sold r
  /\ total_stock_increased r' = total_stock_increased r.

(** The two columns the mode selects. *)
Definition mode_revenue (display_mode : DisplayMode) (r : ProductRow) : Q :=
  match display_mode with
  | Ban_hang => nan_to_zero (revenue r)
  | Ton_kho => nan_to_zero (stock_revenue r)
  end.

Definition mode_quantity (display_mode : DisplayMode) (r : ProductRow) : Q :=
  match display_mode with
  | Ban_hang => quantity_sold r
  | Ton_kho => stock_remaining r
  end.

Definition group_revenue (display_mode : DisplayMode) (df : list ProductRow)
  (seg : Segment) : Q :=
  series_sum (map (mode_revenue display_mode) (group_of seg df)).

Definition group_quantity (display_mode : DisplayMode) (df : list ProductRow)
  (seg : Segment) : Q :=
  series_sum (map (mode_quantity display_mode) (group_of seg df)).

(** The row of the rollup for a tier, given the two totals. *)
Definition summary_of (display_mode : DisplayMode) (df : list ProductRow)
  (total_revenue total_quantity : Q) (seg : Segment) : SegmentSummary :=
  {| s_segment := seg;
     s_revenue := group_revenue display_mode df seg;
     s_quantity_sold := group_quantity display_mode df seg;
     s_revenue_pct := pct (group_revenue display_mode df seg) total_revenue;
     s_quantity_pct := pct (group_quantity display_mode df seg) total_quantity |}.

(** The same in double precision. *)
Definition group_revenue_double (display_mode : DisplayMode) (df : list ProductRow)
  (seg : Segment) : Q :=
  series_sum_double (map (mode_revenue display_mode) (group_of seg df)).

Definition group_quantity_double (display_mode : DisplayMode) (df : list ProductRow)
  (seg : Segment) : Q :=
  series_sum_double (map (mode_quantity display_mode) (group_of seg df)).

Definition summary_of_double (display_mode : DisplayMode) (df : list ProductRow)
  (total_revenue total_quantity : Q) (seg : Segment) : SegmentSummary :=
  {| s_segment := seg;
     s_revenue := group_revenue_double display_mode df seg;
     s_quantity_sold := group_quantity_double display_mode df seg;
     s_revenue_pct := pct_double (group_revenue_double display_mode df seg) total_revenue;
     s_quantity_pct :=
       pct_double (group_quantity_double display_mode df seg) total_quantity |}.

(** A non-negative whole number. *)
Definition whole_amount (q : Q) : Prop := whole q /\ 0 <= q.

(** *** The default window of the sidebar

    [default_start = max(min_date, date(2025, 3, 5))] and
    [default_end = min(max_date, date(2025, 5, 18))]. *)
Definition default_window (min_date max_date : date) : date * date :=
  (date_max min_date (mkdate 2025 3 5), date_min max_date (mkdate 2025 5 18)).

(** The dates [load_data_optimized] adds to [all_dates]. *)
Definition observed_dates (collection : list RawProduct) : list date :=
  flat_map (fun product => collect_dates (firstn 50 (p_stock_history product)))
           (aggregate collection).

(** The order of the tiers by price band. *)
Definition tier_rank (s : Segment) : nat :=
  match s with
  | Thap => 0
  | Trung_binh => 1
  | Cao => 2
  | Khong_xac_dinh => 3
  end.

(** The tier [apply_clustering_improved] gives to a price, as a function of
    the frame. *)
Definition first_pass_tier (df : list LoadedRow) (x : option Q) : Segment :=
  if ((1 <? List.length df)%nat && (1 <? nunique (map l_price df))%nat)%bool
  then categorize_price (quantile (33 # 100) (map l_price df))
                        (quantile (67 # 100) (map l_price df)) x
  else Trung_binh.

(** [float] succeeds on both quantities of a dict entry. *)
Definition convertible_entry (entry : pyval) : bool :=
  match entry with
  | PDict d =>
      match py_float (get_or_zero "stock_decreased" d),
            py_float (get_or_zero "stock_increased" d) with
      | Some _, Some _ => true
      | _, _ => false
      end
  | _ => true
  end.

(** Every entry of the frame that falls in the window is convertible. *)
Definition window_convertible (start_date end_date : date) (df : list ProductRow)
  : bool :=
  forallb (fun r => forallb convertible_entry
                            (filter_stock_history start_date end_date (stock_history r)))
          df.

(** The quantities of a dict entry are whole numbers or absent. *)
Definition whole_entry (entry : pyval) : bool :=
  match entry with
  | PDict d => whole_quantity "stock_decreased" d && whole_quantity "stock_increased" d
  | _ => true
  end.

(** [x <= y] on two cells that hold numbers. *)
Definition num_le (x y : option Q) : Prop :=
  match x, y with
  | Some x, Some y => x <= y
  | _, _ => False
  end.

(** *** The overview figures (the KPI block of the script) *)

(** [Series.mean()], skipping NaN; NaN when nothing is left. *)
Definition series_mean (cells : list (option Q)) : option Q :=
  match dropna cells with
  | [] => None
  | xs => Some (series_sum xs / inject_Z (Z.of_nat (List.length xs)))
  end.

Record Kpi : Type := mkKpi {
  k_total_revenue : Q;
  k_total_stock_revenue : Q;
  k_total_quantity : Q;
  k_total_stock : Q;
  k_avg_price : option Q
}.

(** [filtered_df[filtered_df['quantity_sold'] > 0]] in sales mode,
    [filtered_df[filtered_df['stock_revenue'] > 0]] otherwise. *)
Definition counted_for_average (display_mode : DisplayMode) (r : ProductRow) : bool :=
  match display_mode with
  | Ban_hang => if Qlt_le_dec 0 (quantity_sold r) then true else false
  | Ton_kho =>
      match stock_revenue r with
      | Some v => if Qlt_le_dec 0 v then true else false
      | None => false
      end
  end.

Definition kpi_metrics (filtered_df : list ProductRow) (display_mode : DisplayMode) : Kpi :=
  match filtered_df with
  | [] => mkKpi 0 0 0 0 (Some 0)
  | _ =>
      {| k_total_revenue := series_sum (map (fun r => nan_to_zero (revenue r)) filtered_df);
         k_total_stock_revenue :=
           series_sum (map (fun r => nan_to_zero (stock_revenue r)) filtered_df);
         k_total_quantity := series_sum (map quantity_sold filtered_df);
         k_total_stock := series_sum (map stock_remaining filtered_df);
         k_avg_price :=
           match filter (counted_for_average display_mode) filtered_df with
           | [] => Some 0
           | products => series_mean (map price products)
           end |}
  end.

(** The overview figures in double precision. *)
Definition series_mean_double (cells : list (option Q)) : option Q :=
  match dropna cells with
  | [] => None
  | xs => Some (round_double (series_sum_double xs
                              / inject_Z (Z.of_nat (List.length xs))))
  end.

Definition kpi_metrics_double (filtered_df : list ProductRow)
  (display_mode : DisplayMode) : Kpi :=
  match filtered_df with
  | [] => mkKpi 0 0 0 0 (Some 0)
  | _ =>
      {| k_total_revenue :=
           series_sum_double (map (fun r => nan_to_zero (revenue r)) filtered_df);
         k_total_stock_revenue :=
           series_sum_double (map (fun r => nan_to_zero (stock_revenue r)) filtered_df);
         k_total_quantity := series_sum_double (map quantity_sold filtered_df);
         k_total_stock := series_sum_double (map stock_remaining filtered_df);
         k_avg_price :=
           match filter (counted_for_average display_mode) filtered_df with
           | [] => Some 0
           | products => series_mean_double (map price products)
           end |}
  end.

(** [Series.idxmax()]: the first row that holds the largest value. *)
Fixpoint idxmax (f : ProductRow -> Q) (best : ProductRow) (rows : list ProductRow)
  : ProductRow :=
  match rows with
  | [] => best
  | r :: rest => if Qlt_le_dec (f best) (f r) then idxmax f r rest else idxmax f best rest
  end.

(** The fourth tile: the best seller, or the product with the largest
    stock, or "N/A". *)
Definition top_product (filtered_df : list ProductRow) (display_mode : DisplayMode)
  : string :=
  match filtered_df with
  | [] => "N/A"
  | r :: rest =>
      if Qlt_le_dec 0 (series_sum (map (mode_quantity display_mode) filtered_df))
      then name (idxmax (mode_quantity display_mode) r rest)
      else "N/A"
  end.

(** *** The daily chart *)

(** A row of [daily_data]. *)
Record DailyRecord : Type := mkDaily {
  d_date : date;
  d_quantity_sold : Q;
  d_stock_remaining : Q;
  d_name : string;
  d_price : option Q
}.

(** [datetime.strptime(entry.get('date', ''), '%Y-%m-%d').date()] in the
    [try] of the daily loop: an entry that is not a dict has no [get], a
    date that is not a string is a [TypeError]. *)
Definition daily_entry_date (entry : pyval) : option date :=
  match entry with
  | PDict d =>
      match dict_get "date" d with
      | Some (PStr s) => strptime_ymd s
      | Some _ => None
      | None => strptime_ymd ""
      end
  | _ => None
  end.

(** The body of the inner loop: the record appended for an entry, [None]
    when the entry is skipped (out of the window, or the bare [except]). *)
Definition daily_record (start_date end_date : date) (row : ProductRow)
  (entry : pyval) : option DailyRecord :=
  match entry with
  | PDict d =>
      match daily_entry_date entry with
      | Some entry_date =>
          if date_leb start_date entry_date && date_leb entry_date end_date then
            match py_float (get_or_zero "stock_decreased" d) with
            | Some dec =>
                match py_float (get_or_zero "stock_increased" d) with
                | Some inc =>
                    Some {| d_date := entry_date;
                            d_quantity_sold := Qmax 0 dec;
                            d_stock_remaining := Qmax 0 inc;
                            d_name := name row;
                            d_price := price row |}
                | None => None
                end
            | None => None
            end
          else None
      | None => None
      end
  | _ => None
  end.

Fixpoint daily_of_history (start_date end_date : date) (row : ProductRow)
  (stock_history : list pyval) : list DailyRecord :=
  match stock_history with
  | [] => []
  | entry :: rest =>
      match daily_record start_date end_date row entry with
      | Some record => record :: daily_of_history start_date end_date row rest
      | None => daily_of_history start_date end_date row rest
      end
  end.

Definition daily_data (start_date end_date : date) (filtered_df : list ProductRow)
  : list DailyRecord :=
  flat_map (fun row => daily_of_history start_date end_date row (stock_history row))
           filtered_df.

Definition date_eqb (a b : date) : bool :=
  ((year a =? year b) && (month a =? month b) && (day a =? day b))%Z.

(** The keys of [groupby('date')]: the dates in ascending order, each once. *)
Fixpoint insert_date (d : date) (l : list date) : list date :=
  match l with
  | [] => [d]
  | x :: l' =>
      if date_leb d x then (if date_eqb d x then l else d :: l)
      else x :: insert_date d l'
  end.

Definition sorted_dates (ds : list date) : list date := fold_right insert_date [] ds.

(** [astype(int)]: truncation toward zero. *)
Definition truncate (q : Q) : Z := Z.quot (Qnum q) (Zpos (Qden q)).

(** A row of [daily_agg] (sales mode) or [daily_stock_agg] (inventory
    mode); [a_revenue] is [None] where the product is NaN, on which
    [astype(int)] raises. *)
Record DailyAgg : Type := mkDailyAgg {
  a_date : date;
  a_quantity : Q;
  a_price : option Q;
  a_revenue : option Z
}.

Definition daily_quantity (display_mode : DisplayMode) (record : DailyRecord) : Q :=
  match display_mode with
  | Ban_hang => d_quantity_sold record
  | Ton_kho => d_stock_remaining record
  end.

(** [groupby('date').agg({<quantity>: 'sum', 'price': 'mean'})] and the
    revenue column [(quantity * price).clip(lower=0).astype(int)]. *)
Definition daily_agg (display_mode : DisplayMode) (daily_df : list DailyRecord)
  : list DailyAgg :=
  map (fun key =>
         let group := filter (fun record => date_eqb (d_date record) key) daily_df in
         let quantity := series_sum (map (daily_quantity display_mode) group) in
         let mean_price := series_mean (map d_price group) in
         {| a_date := key;
            a_quantity := quantity;
            a_price := mean_price;
            a_revenue :=
              match mean_price with
              | Some p => Some (truncate (Qmax (quantity * p) 0))
              | None => None
              end |})
      (sorted_dates (map d_date daily_df)).

(** The frame behind the two daily charts: the records of the window, those
    of the selected product if one is selected, grouped by date. *)
Definition daily_chart (start_date end_date : date) (filtered_df : list ProductRow)
  (selected_product : option string) (display_mode : DisplayMode) : list DailyAgg :=
  let daily_df :=
    match selected_product with
    | None => daily_data start_date end_date filtered_df
    | Some v => filter (fun record => String.eqb (d_name record) v)
                       (daily_data start_date end_date filtered_df)
    end in
  daily_agg display_mode daily_df.

(** The frame of the daily charts in double precision: [float(...)]
    returns a double, the sums and the mean of a date are accumulated in
    doubles, and the product of the revenue column is rounded. *)
Definition daily_record_double (start_date end_date : date) (row : ProductRow)
  (entry : pyval) : option DailyRecord :=
  match entry with
  | PDict d =>
      match daily_entry_date entry with
      | Some entry_date =>
          if date_leb start_date entry_date && date_leb entry_date end_date then
            match py_float_double (get_or_zero "stock_decreased" d) with
            | Some dec =>
                match py_float_double (get_or_zero "stock_increased" d) with
                | Some inc =>
                    Some {| d_date := entry_date;
                            d_quantity_sold := Qmax 0 dec;
                            d_stock_remaining := Qmax 0 inc;
                            d_name := name row;
                            d_price := price row |}
                | None => None
                end
            | None => None
            end
          else None
      | None => None
      end
  | _ => None
  end.

Fixpoint daily_of_history_double (start_date end_date : date) (row : ProductRow)
  (stock_history : list pyval) : list DailyRecord :=
  match stock_history with
  | [] => []
  | entry :: rest =>
      match daily_record_double start_date end_date row entry with
      | Some record => record :: daily_of_history_double start_date end_date row rest
      | None => daily_of_history_double start_date end_date row rest
      end
  end.

Definition daily_data_double (start_date end_date : date)
  (filtered_df : list ProductRow) : list DailyRecord :=
  flat_map (fun row => daily_of_history_double start_date end_date row
                                               (stock_history row))
           filtered_df.

Definition daily_agg_double (display_mode : DisplayMode) (daily_df : list DailyRecord)
  : list DailyAgg :=
  map (fun key =>
         let group := filter (fun record => date_eqb (d_date record) key) daily_df in
         let quantity := series_sum_double (map (daily_quantity display_mode) group) in
         let mean_price := series_mean_double (map d_price group) in
         {| a_date := key;
            a_quantity := quantity;
            a_price := mean_price;
            a_revenue :=
              match mean_price with
              | Some p => Some (truncate (Qmax (round_double (quantity * p)) 0))
              | None => None
              end |})
      (sorted_dates (map d_date daily_df)).

Definition daily_chart_double (start_date end_date : date)
  (filtered_df : list ProductRow) (selected_product : option string)
  (display_mode : DisplayMode) : list DailyAgg :=
  let daily_df :=
    match selected_product with
    | None => daily_data_double start_date end_date filtered_df
    | Some v => filter (fun record => String.eqb (d_name record) v)
                       (daily_data_double start_date end_date filtered_df)
    end in
  daily_agg_double display_mode daily_df.

(** What the entries of a frame that fall in the window add up to under
    [key], negative quantities counted as 0. *)
Definition window_total (key : string) (start_date end_date : date)
  (df : list ProductRow) : Q :=
  series_sum
    (map (fun r => mongo_total key
                     (filter_stock_history start_date end_date (stock_history r)))
         df).

(** Strictly earlier. *)
Definition date_lt (a b : date) : Prop := date_leb a b = true /\ a <> b.

(** *** [format_number]

    [f"{num:,.0f}".replace(",", ".")].  The format code [f] takes a float,
    so an int is converted to the nearest double first.  The double is
    rounded to 0 decimals, its digits are put in groups of three from the
    right, and the sign of the double comes first. *)

Definition dec_digits (n : N) : list ascii :=
  list_ascii_of_string (NilZero.string_of_uint (N.to_uint n)).

(** The separators, on the digits taken from the right. *)
Fixpoint group3 (cs : list ascii) : list ascii :=
  match cs with
  | a :: b :: c :: rest =>
      match rest with
      | [] => cs
      | _ => a :: b :: c :: "."%char :: group3 rest
      end
  | _ => cs
  end.

(** [f"{x:,.0f}".replace(",", ".")] for a float [x]. *)
Definition format_float (x : Q) : string :=
  let digits := dec_digits (Z.abs_N (round_half_even x)) in
  string_of_list_ascii
    ((if Qlt_le_dec x 0 then ["-"%char] else []) ++ rev (group3 (rev digits))).

Definition format_number (num : Q) : string := format_float (round_double num).

(** Reading a formatted number back: an optional sign, then the digits with
    the separators taken out. *)
Definition parse_unsigned (cs : list ascii) : option Z :=
  option_map (fun d => Z.of_N (N.of_uint d))
    (NilZero.uint_of_string
       (string_of_list_ascii (filter (fun c => negb (Ascii.eqb c ".")) cs))).

Definition parse_formatted (s : string) : option Z :=
  match list_ascii_of_string s with
  | c :: body =>
      if Ascii.eqb c "-" then option_map Z.opp (parse_unsigned body)
      else parse_unsigned (c :: body)
  | [] => parse_unsigned []
  end.

(** A character that is neither the separator nor the sign. *)
Definition plain_char (c : ascii) : bool :=
  negb (Ascii.eqb c ".") && negb (Ascii.eqb c "-").

(** ** Properties *)

(** Rows of a mapped frame: reduce [Forall P (map f df)] to a row of [df]. *)
Ltac each_mapped_row r :=
  apply Forall_forall;
  let r' := fresh "r'" in
  let Hin := fresh "Hin" in
  intros r' Hin; apply in_map_iff in Hin; destruct Hin as (r & <- & Hin).


(** *** Normalisation and the two caps *)

Lemma firstn_50_of_100 (A : Type) (l : list A) :
  firstn 50 (firstn 100 l) = firstn 50 l.
Proof.
  rewrite firstn_firstn. reflexivity.
Qed.

Lemma load_data_rows (collection : list RawProduct) :
  fst (fst (load_data_optimized collection)) = map load_row (aggregate collection).
Proof.
  unfold load_data_optimized.
  destruct (flat_map _ (aggregate collection)); reflexivity.
Qed.

Lemma project_history (r : RawProduct) (p : Q) :
  p_stock_history (mongo_project r p) = firstn 100 (history_of r).
Proof. reflexivity. Qed.

Lemma load_row_history (product : Projected) :
  l_stock_history (load_row product) = firstn 50 (p_stock_history product).
Proof. reflexivity. Qed.

(** C9: the stored movement list is the first 50 entries of the fetched
    list, which holds at most 100 entries of the document's history; it
    never holds more than 50 entries, also for every row of the loaded
    frame. *)
Theorem stored_history_is_first_50 :
  (forall (r : RawProduct) (p : Q),
      let fetched := p_stock_history (mongo_project r p) in
      fetched = firstn 100 (history_of r)
      /\ (List.length fetched <= 100)%nat
      /\ l_stock_history (load_row (mongo_project r p)) = firstn 50 fetched
      /\ l_stock_history (load_row (mongo_project r p)) = firstn 50 (history_of r))
  /\ (forall product : Projected,
         l_stock_history (load_row product) = firstn 50 (p_stock_history product)
         /\ (List.length (l_stock_history (load_row product)) <= 50)%nat)
  /\ (forall collection : list RawProduct,
         Forall (fun row => (List.length (l_stock_history row) <= 50)%nat)
                (fst (fst (load_data_optimized collection)))).
Proof.
  split; [|split].
  - intros r p fetched. subst fetched.
    rewrite load_row_history, project_history.
    repeat split.
    + apply firstn_le_length.
    + apply firstn_50_of_100.
  - intros product. rewrite load_row_history.
    split; [reflexivity | apply firstn_le_length].
  - intros collection. rewrite load_data_rows.
    apply Forall_forall. intros row Hin.
    apply in_map_iff in Hin. destruct Hin as (product & <- & _).
    rewrite load_row_history. apply firstn_le_length.
Qed.

(** *** The first classification pass *)

Lemma Forall2_map_right (A B : Type) (P : A -> B -> Prop) (g : A -> B) (l : list A) :
  (forall x, P x (g x)) -> Forall2 P l (map g l).
Proof.
  intros H. induction l; simpl; constructor; auto.
Qed.

Lemma apply_clustering_rows (df : list LoadedRow) :
  exists f, apply_clustering_improved df = map (fun r => with_clustering (f r) r) df.
Proof.
  unfold apply_clustering_improved.
  destruct df as [|r0 rest].
  - exists (fun _ => Trung_binh). reflexivity.
  - destruct ((1 <? List.length (r0 :: rest))%nat && _)%bool.
    + eexists (fun r => categorize_price _ _ (l_price r)). reflexivity.
    + exists (fun _ => Trung_binh). reflexivity.
Qed.

(** C10: the initial classification pass returns, row for row, a copy whose
    [quantity_sold] is the lifetime [total_sold] and whose
    [stock_remaining] is the lifetime [total_stock_increased], every
    loaded column kept; the empty frame comes back empty. *)
Theorem apply_clustering_copies_lifetime_totals :
  apply_clustering_improved [] = []
  /\ (forall df : list LoadedRow,
         Forall2 (fun l r =>
                    quantity_sold r = l_total_sold l
                    /\ stock_remaining r = l_total_stock_increased l
                    /\ quantity_sold r = total_sold r
                    /\ stock_remaining r = total_stock_increased r
                    /\ total_sold r = l_total_sold l
                    /\ total_stock_increased r = l_total_stock_increased l
                    /\ id r = l_id l /\ name r = l_name l
                    /\ category r = l_category l /\ price r = l_price l
                    /\ promotion r = l_promotion l
                    /\ revenue r = l_revenue l
                    /\ stock_revenue r = l_stock_revenue l
                    /\ stock_history r = l_stock_history l)
                 df (apply_clustering_improved df)).
Proof.
  split; [reflexivity|].
  intros df. destruct (apply_clustering_rows df) as [f ->].
  apply Forall2_map_right. intros l. simpl. repeat split.
Qed.

(** *** Malformed movement entries *)


Lemma collect_dates_spec (h : list pyval) (d : date) :
  In d (collect_dates h) <-> exists entry, In entry h /\ parse_entry_date entry = Some d.
Proof.
  induction h as [|entry rest IH]; simpl.
  - split; [tauto | intros (? & [] & _)].
  - destruct (parse_entry_date entry) as [d'|] eqn:Hd; simpl; rewrite ?IH; split.
    + intros [<-|(e' & ? & ?)]; [exists entry | exists e']; auto.
    + intros (e' & [<-|Hin] & He').
      * left. congruence.
      * right. exists e'. auto.
    + intros (e' & ? & ?). exists e'. auto.
    + intros (e' & [<-|Hin] & He'); [congruence | exists e'; auto].
Qed.


Lemma mongo_total_cons_number (field : string) (d : list (string * pyval)) (q : Q)
  (h : list pyval) :
  dict_get field d = Some (PNum q) ->
  mongo_total field (PDict d :: h) = Qmax q 0 + mongo_total field h.
Proof.
  intros H. unfold mongo_total. simpl. rewrite H. reflexivity.
Qed.


(** *** Totals are never negative *)

Lemma round_half_even_ge_floor (q : Q) : (Qfloor q <= round_half_even q)%Z.
Proof.
  unfold round_half_even.
  destruct (Qcompare _ _); [destruct (Z.even _)| |]; lia.
Qed.

Lemma round0_nonneg (q : Q) : 0 <= q -> 0 <= round0 q.
Proof.
  intros H. unfold round0.
  change 0 with (inject_Z 0). rewrite <- Zle_Qle.
  pose proof (round_half_even_ge_floor q).
  pose proof (Qfloor_resp_le _ _ H) as Hf.
  change (Qfloor 0) with 0%Z in Hf. lia.
Qed.

Lemma mongo_total_nonneg (field : string) (h : list pyval) :
  0 <= mongo_total field h.
Proof.
  unfold mongo_total. induction h as [|entry rest IH]; simpl.
  - apply Qle_refl.
  - destruct (mongo_max_zero _) eqn:Hv; auto.
    destruct (mongo_ifNull _ _) as [| | q'| | |]; simpl in Hv; try discriminate;
      injection Hv as <-.
    + lra.
    + pose proof (Q.le_max_r q' 0). lra.
Qed.

Lemma sum_movements_nonneg (h : list pyval) :
  forall a b, 0 <= a -> 0 <= b ->
    match sum_movements h a b with
    | Some (x, y) => 0 <= x /\ 0 <= y
    | None => True
    end.
Proof.
  induction h as [|entry rest IH]; intros a b Ha Hb; simpl; [auto|].
  destruct entry as [| | | | |d]; try (apply IH; assumption).
  destruct (py_float (get_or_zero "stock_decreased" d)) as [dec|]; [|exact I].
  destruct (py_float (get_or_zero "stock_increased" d)) as [inc|]; [|exact I].
  apply IH.
  - pose proof (Q.le_max_l 0 dec). lra.
  - pose proof (Q.le_max_l 0 inc). lra.
Qed.

Lemma recalculate_metrics_nonneg (row : ProductRow) :
  match recalculate_metrics row with
  | Some r' => nonneg_quantities r'
  | None => True
  end.
Proof.
  unfold recalculate_metrics.
  pose proof (sum_movements_nonneg (stock_history row) 0 0 (Qle_refl 0) (Qle_refl 0)) as H.
  destruct (sum_movements _ _ _) as [[x y]|]; [exact H | exact I].
Qed.

Lemma apply_recalculate_Forall (P : ProductRow -> Prop) (rows result : list ProductRow) :
  (forall r r', In r rows -> recalculate_metrics r = Some r' -> P r') ->
  apply_recalculate rows = Some result -> Forall P result.
Proof.
  revert result. induction rows as [|r rest IH]; intros result HP; simpl.
  - intros [= <-]. constructor.
  - destruct (recalculate_metrics r) as [r'|] eqn:Hr; [|discriminate].
    destruct (apply_recalculate rest) as [rest'|]; [|discriminate].
    intros [= <-]. constructor.
    + apply (HP r r'); simpl; auto.
    + apply IH; auto. intros r0 r0' Hin. apply HP. simpl. auto.
Qed.

Lemma filter_by_date_nonneg (df : list ProductRow) (start_date end_date : date) :
  Forall nonneg_quantities df ->
  Forall nonneg_quantities (filter_by_date_range_optimized df start_date end_date).
Proof.
  intros Hdf. unfold filter_by_date_range_optimized.
  destruct df as [|r0 rest]; [constructor|].
  destruct (apply_recalculate _) as [result|] eqn:Hres; [|exact Hdf].
  eapply apply_recalculate_Forall; [|exact Hres].
  intros r r' _ Hr. pose proof (recalculate_metrics_nonneg r) as H.
  rewrite Hr in H. exact H.
Qed.

Lemma select_rows_incl (A : Type) (selected : option A)
  (matches : A -> ProductRow -> bool) (df : list ProductRow) :
  incl (select_rows selected matches df) df.
Proof.
  destruct selected; simpl; [|apply incl_refl].
  intros r Hin. apply filter_In in Hin. tauto.
Qed.

Lemma selected_rows_incl (df : list ProductRow) (c : option string)
  (s : option Segment) (p : option string) :
  incl (selected_rows df c s p) df.
Proof.
  unfold selected_rows.
  eapply incl_tran; [apply select_rows_incl|].
  eapply incl_tran; apply select_rows_incl.
Qed.

Lemma incl_Forall_rows (P : ProductRow -> Prop) (l l' : list ProductRow) :
  incl l l' -> Forall P l' -> Forall P l.
Proof.
  intros Hincl H. rewrite Forall_forall in *. auto.
Qed.

Lemma load_row_nonneg (product : Projected) :
  0 <= l_total_sold (load_row product)
  /\ 0 <= l_total_stock_increased (load_row product).
Proof.
  split; simpl; apply round0_nonneg; apply Q.le_max_l.
Qed.

Lemma clustered_loaded_nonneg (cursor : list Projected) :
  Forall nonneg_quantities (apply_clustering_improved (map load_row cursor)).
Proof.
  destruct (apply_clustering_rows (map load_row cursor)) as [f ->].
  rewrite map_map. apply Forall_forall. intros r Hin.
  apply in_map_iff in Hin. destruct Hin as (product & <- & _).
  exact (load_row_nonneg product).
Qed.

(** C7: whatever the movement list holds, negative quantities included,
    the lifetime totals of the pipeline and of the loaded row and the
    window-recomputed [quantity_sold] and [stock_remaining] are never
    negative; an entry adds [max(0, value)], and the empty list gives 0. *)
Theorem totals_never_negative :
  (forall (field : string) (h : list pyval), 0 <= mongo_total field h)
  /\ (forall product : Projected,
         0 <= l_total_sold (load_row product)
         /\ 0 <= l_total_stock_increased (load_row product))
  /\ (forall row : ProductRow,
         match recalculate_metrics row with
         | Some r' => 0 <= quantity_sold r' /\ 0 <= stock_remaining r'
         | None => True
         end)
  /\ (forall (collection : list RawProduct) (selected_category : option string)
             (selected_segment : option Segment) (selected_product : option string)
             (start_date end_date : date),
         Forall (fun r => 0 <= quantity_sold r /\ 0 <= stock_remaining r)
                (windowed_rows (fst (fst (load_data_optimized collection)))
                               selected_category selected_segment selected_product
                               start_date end_date))
  /\ (forall (field : string) (d : list (string * pyval)) (q : Q) (h : list pyval),
         mongo_total field (PDict ((field, PNum q) :: d) :: h)
         = Qmax q 0 + mongo_total field h)
  /\ (forall (d : list (string * pyval)) (rest : list pyval) (dec inc a b : Q),
         sum_movements
           (PDict (("stock_decreased"%string, PNum dec)
                   :: ("stock_increased"%string, PNum inc) :: d) :: rest) a b
         = sum_movements rest (a + Qmax 0 dec) (b + Qmax 0 inc))
  /\ (forall field : string, mongo_total field [] = 0)
  /\ sum_movements [] 0 0 = Some (0, 0).
Proof.
  split; [exact mongo_total_nonneg|].
  split; [exact load_row_nonneg|].
  split; [exact recalculate_metrics_nonneg|].
  split.
  { intros. unfold windowed_rows. apply filter_by_date_nonneg.
    eapply incl_Forall_rows; [apply selected_rows_incl|].
    rewrite load_data_rows. apply clustered_loaded_nonneg. }
  split.
  { intros. apply mongo_total_cons_number. simpl. rewrite String.eqb_refl. reflexivity. }
  split.
  { intros d rest dec inc a b. reflexivity. }
  split; reflexivity.
Qed.

(** *** Empty windows *)

Lemma date_leb_trans (a b c : date) :
  date_leb a b = true -> date_leb b c = true -> date_leb a c = true.
Proof.
  unfold date_leb.
  rewrite !orb_true_iff, !andb_true_iff, !orb_true_iff, !andb_true_iff,
    !Z.ltb_lt, !Z.eqb_eq, !Z.leb_le.
  lia.
Qed.

Lemma in_window_reversed (start_date end_date : date) (entry : pyval) :
  date_leb start_date end_date = false -> in_window start_date end_date entry = false.
Proof.
  intros Hrev. unfold in_window.
  destruct (parse_entry_date entry) as [d|]; [|reflexivity].
  destruct (date_leb start_date d) eqn:H1; [|reflexivity].
  destruct (date_leb d end_date) eqn:H2; [|reflexivity].
  rewrite (date_leb_trans _ _ _ H1 H2) in Hrev. discriminate.
Qed.

Lemma filter_stock_history_empty (start_date end_date : date) (h : list pyval) :
  date_leb start_date end_date = false
  \/ forallb (fun entry => negb (in_window start_date end_date entry)) h = true ->
  filter_stock_history start_date end_date h = [].
Proof.
  intros H. unfold filter_stock_history.
  induction h as [|entry rest IH]; simpl; [reflexivity|].
  destruct H as [Hrev|Hdis].
  - rewrite (in_window_reversed _ _ _ Hrev). apply IH. auto.
  - simpl in Hdis. apply andb_true_iff in Hdis. destruct Hdis as [He Hrest].
    apply negb_true_iff in He. rewrite He. apply IH. auto.
Qed.

Lemma apply_recalculate_no_movements (df : list ProductRow) :
  apply_recalculate (map (with_stock_history []) df) = Some (map zeroed df).
Proof.
  induction df as [|r rest IH]; simpl; [reflexivity|].
  rewrite IH. reflexivity.
Qed.

Lemma empty_window_rows (df : list ProductRow) (start_date end_date : date) :
  date_leb start_date end_date = false \/ disjoint_window start_date end_date df = true ->
  map (fun r => with_stock_history
                  (filter_stock_history start_date end_date (stock_history r)) r) df
  = map (with_stock_history []) df.
Proof.
  intros H. apply map_ext_in. intros r Hin.
  rewrite filter_stock_history_empty; [reflexivity|].
  destruct H as [Hrev|Hdis]; [left; exact Hrev | right].
  unfold disjoint_window in Hdis. rewrite forallb_forall in Hdis. auto.
Qed.

(** C8: when the window is reversed ([start_date] after [end_date]) or no
    movement date of the frame falls in it, window recomputation raises
    nothing and returns every row with an empty movement list and with
    [quantity_sold], [stock_remaining], [revenue] and [stock_revenue] all 0
    (the rows carry a price, as every loaded row does). *)
Theorem empty_window_gives_zero_metrics
  (df : list ProductRow) (start_date end_date : date) :
  forallb has_price df = true ->
  date_leb start_date end_date = false \/ disjoint_window start_date end_date df = true ->
  filter_by_date_range_optimized df start_date end_date = map zeroed df
  /\ Forall (fun r => stock_history r = []
                      /\ quantity_sold r = 0 /\ stock_remaining r = 0
                      /\ num_eq (revenue r) (Some 0)
                      /\ num_eq (stock_revenue r) (Some 0))
            (filter_by_date_range_optimized df start_date end_date).
Proof.
  intros Hprice Hwin.
  assert (Heq : filter_by_date_range_optimized df start_date end_date = map zeroed df).
  { unfold filter_by_date_range_optimized. destruct df as [|r0 rest]; [reflexivity|].
    rewrite (empty_window_rows (r0 :: rest) _ _ Hwin).
    rewrite apply_recalculate_no_movements. reflexivity. }
  split; [exact Heq|]. rewrite Heq.
  apply Forall_forall. intros r' Hin.
  apply in_map_iff in Hin. destruct Hin as (r & <- & Hin).
  rewrite forallb_forall in Hprice. specialize (Hprice r Hin).
  unfold has_price in Hprice. unfold zeroed. simpl.
  destruct (price r) as [p|]; [|discriminate]. simpl.
  repeat split; apply Qmult_0_r.
Qed.

(** *** Whole numbers and rounding *)

Lemma is_integer_whole (q : Q) : is_integer q = true -> whole q.
Proof.
  unfold is_integer. intros H. apply Qeq_bool_iff in H. exists (Qfloor q). exact H.
Qed.

Lemma whole_plus (a b : Q) : whole a -> whole b -> whole (a + b).
Proof.
  intros [x Hx] [y Hy]. exists (x + y)%Z. rewrite inject_Z_plus, Hx, Hy. reflexivity.
Qed.

Lemma whole_mult (a b : Q) : whole a -> whole b -> whole (a * b).
Proof.
  intros [x Hx] [y Hy]. exists (x * y)%Z. rewrite inject_Z_mult, Hx, Hy. reflexivity.
Qed.

Lemma whole_max (a b : Q) : whole a -> whole b -> whole (Qmax a b).
Proof.
  intros [x Hx] [y Hy].
  destruct (Q.max_dec a b) as [H|H]; [exists x | exists y]; rewrite H; assumption.
Qed.

Lemma whole_inject (z : Z) : whole (inject_Z z).
Proof. exists z. reflexivity. Qed.

Lemma round0_whole (q : Q) : whole q -> round0 q == q.
Proof.
  intros [z Hz]. unfold round0, round_half_even.
  assert (Hf : Qfloor q = z) by (rewrite Hz; apply Qfloor_Z).
  rewrite Hf.
  assert (Hc : Qcompare (q - inject_Z z) (1 # 2) = Lt).
  { rewrite <- Qlt_alt. rewrite Hz. ring_simplify. reflexivity. }
  rewrite Hc. symmetry. exact Hz.
Qed.

Lemma mongo_total_whole (field : string) (start_date end_date : date) (h : list pyval) :
  (field = "stock_decreased" \/ field = "stock_increased")%string ->
  forallb (covered_entry start_date end_date) h = true ->
  whole (mongo_total field h).
Proof.
  intros Hfield. unfold mongo_total.
  induction h as [|entry rest IH]; simpl; intros Hcov.
  - exists 0%Z. reflexivity.
  - apply andb_true_iff in Hcov. destruct Hcov as [He Hrest].
    specialize (IH Hrest).
    destruct entry as [| | | | |d]; try discriminate. simpl in He.
    apply andb_true_iff in He. destruct He as [He Hinc].
    apply andb_true_iff in He. destruct He as [_ Hdec].
    assert (Hw : whole_quantity field d = true) by (destruct Hfield; subst; assumption).
    unfold whole_quantity in Hw. simpl.
    destruct (dict_get field d) as [[| |q| | |]|]; try discriminate; simpl.
    + apply whole_plus; [|exact IH].
      apply whole_max; [apply is_integer_whole; exact Hw | apply (whole_inject 0)].
    + apply whole_plus; [|exact IH].
      apply whole_max; apply (whole_inject 0).
Qed.

Lemma mongo_total_whole_entries (field : string) (h : list pyval) :
  (field = "stock_decreased" \/ field = "stock_increased")%string ->
  forallb whole_entry h = true ->
  whole (mongo_total field h).
Proof.
  intros Hfield. unfold mongo_total.
  induction h as [|entry rest IH]; simpl; intros Hw.
  - exists 0%Z. reflexivity.
  - apply andb_true_iff in Hw. destruct Hw as [He Hrest].
    specialize (IH Hrest).
    destruct entry as [| | | | |d]; simpl;
      try (apply whole_plus; [|exact IH]; apply whole_max; apply (whole_inject 0)).
    simpl in He.
    apply andb_true_iff in He. destruct He as [Hdec Hinc].
    assert (Hq : whole_quantity field d = true) by (destruct Hfield; subst; assumption).
    unfold whole_quantity in Hq.
    destruct (dict_get field d) as [[| |q| | |]|]; try discriminate; simpl.
    + apply whole_plus; [|exact IH].
      apply whole_max; [apply is_integer_whole; exact Hq | apply (whole_inject 0)].
    + apply whole_plus; [|exact IH].
      apply whole_max; apply (whole_inject 0).
Qed.

(** *** Double precision

    [round_double] is within half a unit of the last place, so its relative
    error is at most [unit_roundoff]; it is the identity on the whole
    numbers up to [max_exact]; and it does not depend on the fraction that
    denotes the number. *)

Lemma pow2_pos (e : Z) : 0 < 2 ^ e.
Proof. apply Qpower_0_lt. reflexivity. Qed.

Lemma pow2_succ (e : Z) : 2 ^ (e + 1) == 2 * 2 ^ e.
Proof. rewrite Qpower_plus by discriminate. rewrite Qpower_1_r. ring. Qed.

Lemma pow2_log2 (n : Z) :
  (0 < n)%Z -> 2 ^ Z.log2 n <= inject_Z n /\ inject_Z n < 2 * 2 ^ Z.log2 n.
Proof.
  intros Hn. destruct (Z.log2_spec n Hn) as [Hlo Hhi].
  pose proof (Z.log2_nonneg n) as H0.
  rewrite <- pow2_succ.
  change 2 with (inject_Z 2).
  rewrite <- !Zpower_Qpower by lia.
  split; [rewrite <- Zle_Qle | rewrite <- Zlt_Qlt]; [exact Hlo|].
  replace (Z.log2 n + 1)%Z with (Z.succ (Z.log2 n)) by lia. exact Hhi.
Qed.

Lemma Qabs_num_den (q : Q) :
  Qabs q * inject_Z (Zpos (Qden q)) == inject_Z (Z.abs (Qnum q)).
Proof.
  destruct q as [n d]. unfold Qabs, Qeq, inject_Z, Qmult. simpl. lia.
Qed.

Lemma binade_bounds (a P A B N D : Q) :
  a * D == N -> 0 < N -> A <= N -> N < 2 * A -> B <= D -> D < 2 * B -> 0 < B ->
  P * B == A -> 0 <= a ->
  P < 2 * a /\ a < 2 * P.
Proof.
  intros HDa HN HA HA' HB HB' HB0 HP Ha.
  assert (Ha0 : 0 < a).
  { destruct (Qlt_le_dec 0 a) as [|Hle]; [assumption|].
    exfalso. assert (E0 : a == 0) by lra. rewrite E0 in HDa. lra. }
  assert (HP0 : 0 < P).
  { destruct (Qlt_le_dec 0 P) as [|Hle]; [assumption|].
    exfalso. assert (P * B <= 0 * B) by (apply Qmult_le_compat_r; lra). lra. }
  split.
  - apply (Qmult_lt_r _ _ B HB0).
    assert (a * D < a * (2 * B)) by (apply Qmult_lt_l; assumption). lra.
  - assert (HD0 : 0 < D) by lra.
    apply (Qmult_lt_r _ _ D HD0).
    assert (P * B <= P * D) by (apply Qmult_le_l; assumption). lra.
Qed.

(** [binade q] is the exponent of the leading bit of [q]. *)
Lemma binade_spec (q : Q) :
  ~ q == 0 -> 2 ^ binade q <= Qabs q /\ Qabs q < 2 * 2 ^ binade q.
Proof.
  intros Hq. unfold binade. cbv zeta.
  set (n := Z.abs (Qnum q)). set (d := Zpos (Qden q)).
  assert (Hn : (0 < n)%Z).
  { subst n. destruct q as [[|p|p] dq]; try reflexivity.
    exfalso. apply Hq. reflexivity. }
  assert (Hd : (0 < d)%Z) by reflexivity.
  destruct (pow2_log2 n Hn) as [Hn1 Hn2].
  destruct (pow2_log2 d Hd) as [Hd1 Hd2].
  pose proof (Qabs_num_den q) as Hq'. fold n d in Hq'.
  assert (He : 2 ^ (Z.log2 n - Z.log2 d) * 2 ^ Z.log2 d == 2 ^ Z.log2 n).
  { rewrite <- Qpower_plus by discriminate. apply Qpower_comp; [reflexivity | lia]. }
  assert (E : 2 * 2 ^ (Z.log2 n - Z.log2 d - 1) == 2 ^ (Z.log2 n - Z.log2 d)).
  { rewrite <- pow2_succ. apply Qpower_comp; [reflexivity | lia]. }
  assert (HN : 0 < inject_Z n)
    by (change 0 with (inject_Z 0); rewrite <- Zlt_Qlt; exact Hn).
  destruct (binade_bounds _ _ _ _ _ _ Hq' HN Hn1 Hn2 Hd1 Hd2 (pow2_pos _) He
                          (Qabs_nonneg q)) as [Hlow Hhigh].
  destruct (Qlt_le_dec (Qabs q) (2 ^ (Z.log2 n - Z.log2 d))) as [Hlt|Hle].
  - rewrite <- E in Hlow. rewrite E. split; [|exact Hlt].
    apply Qlt_le_weak. apply (Qmult_lt_l _ _ 2); [reflexivity | exact Hlow].
  - split; assumption.
Qed.

Lemma round_half_even_error (m : Q) :
  Qabs (inject_Z (round_half_even m) - m) <= 1 # 2.
Proof.
  unfold round_half_even.
  pose proof (Qfloor_le m) as Hlo. pose proof (Qlt_floor m) as Hhi.
  rewrite inject_Z_plus in Hhi. change (inject_Z 1) with 1 in Hhi.
  apply Qabs_Qle_condition.
  destruct (Qcompare (m - inject_Z (Qfloor m)) (1 # 2)) eqn:Hc.
  - apply Qeq_alt in Hc.
    destruct (Z.even (Qfloor m)); rewrite ?inject_Z_plus; change (inject_Z 1) with 1;
      split; lra.
  - apply Qlt_alt in Hc. split; lra.
  - apply Qgt_alt in Hc. rewrite inject_Z_plus. change (inject_Z 1) with 1. split; lra.
Qed.

(** One rounding: the relative error is at most [2 ^ -53]. *)
Lemma round_double_error (q : Q) :
  Qabs (round_double q - q) <= unit_roundoff * Qabs q.
Proof.
  unfold round_double. destruct (Qeq_bool q 0) eqn:Hz.
  - apply Qeq_bool_iff in Hz. rewrite Hz. discriminate.
  - assert (Hq : ~ q == 0) by (apply Qeq_bool_neq; exact Hz).
    cbv zeta. rewrite Qred_correct.
    destruct (binade_spec q Hq) as [Hb _].
    set (b := binade q) in *.
    pose proof (pow2_pos (b - 52)) as Pu.
    assert (Eb : 2 ^ b == 4503599627370496 * 2 ^ (b - 52)).
    { replace b with ((b - 52) + 52)%Z at 1 by lia.
      rewrite Qpower_plus by discriminate. rewrite Qmult_comm. reflexivity. }
    set (u := 2 ^ (b - 52)) in *.
    pose proof (round_half_even_error (q / u)) as Hr.
    set (r := inject_Z (round_half_even (q / u))) in *.
    assert (E : r * u - q == (r - q / u) * u) by (field; lra).
    rewrite E, Qabs_Qmult, (Qabs_pos u) by lra.
    unfold unit_roundoff.
    assert (Qabs (r - q / u) * u <= (1 # 2) * u) by (apply Qmult_le_compat_r; lra).
    lra.
Qed.


Lemma round_double_nonpos (q : Q) : q <= 0 -> round_double q <= 0.
Proof.
  intros Hq. pose proof (round_double_error q) as H.
  rewrite (Qabs_neg q Hq) in H. apply Qabs_Qle_condition in H.
  unfold unit_roundoff in *. lra.
Qed.

Lemma round_half_even_comp (q q' : Q) :
  q == q' -> round_half_even q = round_half_even q'.
Proof.
  intros H. unfold round_half_even.
  rewrite (Qfloor_comp _ _ H).
  assert (E : Qcompare (q - inject_Z (Qfloor q')) (1 # 2)
              = Qcompare (q' - inject_Z (Qfloor q')) (1 # 2))
    by (rewrite H; reflexivity).
  rewrite E. reflexivity.
Qed.

Lemma binade_unique (a : Q) (b b' : Z) :
  2 ^ b <= a -> a < 2 * 2 ^ b -> 2 ^ b' <= a -> a < 2 * 2 ^ b' -> b = b'.
Proof.
  intros L U L' U'. rewrite <- pow2_succ in U, U'.
  assert (H1 : (b < b' + 1)%Z).
  { apply (Qpower_lt_compat_l_inv 2); [|reflexivity].
    eapply Qle_lt_trans; [exact L | exact U']. }
  assert (H2 : (b' < b + 1)%Z).
  { apply (Qpower_lt_compat_l_inv 2); [|reflexivity].
    eapply Qle_lt_trans; [exact L' | exact U]. }
  lia.
Qed.

Lemma round_double_comp (q q' : Q) : q == q' -> round_double q = round_double q'.
Proof.
  intros H. unfold round_double.
  assert (Ez : Qeq_bool q 0 = Qeq_bool q' 0).
  { destruct (Qeq_bool q' 0) eqn:E'.
    - apply Qeq_bool_iff. apply Qeq_bool_iff in E'. rewrite H. exact E'.
    - destruct (Qeq_bool q 0) eqn:E; [|reflexivity].
      apply Qeq_bool_iff in E. rewrite H in E. apply Qeq_bool_iff in E. congruence. }
  rewrite Ez. destruct (Qeq_bool q' 0) eqn:E'; [reflexivity|].
  assert (Hq' : ~ q' == 0) by (apply Qeq_bool_neq; exact E').
  assert (Hq : ~ q == 0) by (rewrite H; exact Hq').
  destruct (binade_spec q Hq) as [L U]. destruct (binade_spec q' Hq') as [L' U'].
  assert (Ea : Qabs q == Qabs q') by (apply Qabs_wd; exact H).
  rewrite Ea in L, U.
  rewrite (binade_unique _ _ _ L U L' U'). cbv zeta.
  apply Qred_complete.
  rewrite (round_half_even_comp (q / 2 ^ (binade q' - 52)) (q' / 2 ^ (binade q' - 52)))
    by (rewrite H; reflexivity).
  reflexivity.
Qed.

#[local] Instance round_double_proper : Proper (Qeq ==> Qeq) round_double.
Proof. intros q q' H. rewrite (round_double_comp _ _ H). reflexivity. Qed.

(** Whole numbers up to [2 ^ 53] are doubles. *)
Lemma round_double_exact (q : Q) :
  whole q -> Qabs q <= max_exact -> round_double q == q.
Proof.
  unfold max_exact. intros Hw Hle. unfold round_double.
  destruct (Qeq_bool q 0) eqn:Hz.
  - apply Qeq_bool_iff in Hz. symmetry. exact Hz.
  - assert (Hq : ~ q == 0) by (apply Qeq_bool_neq; exact Hz).
    cbv zeta. rewrite Qred_correct.
    destruct (binade_spec q Hq) as [Hb _].
    set (b := binade q) in *.
    assert (Hb53 : (b <= 53)%Z).
    { apply (Qpower_le_compat_l_inv 2); [|reflexivity].
      eapply Qle_trans; [exact Hb|]. exact Hle. }
    pose proof (pow2_pos (b - 52)) as Pu.
    assert (Hwu : whole (q / 2 ^ (b - 52))).
    { destruct Hw as [z Hz'].
      destruct (Z_le_gt_dec b 52) as [Hsmall|Hbig].
      - exists (z * 2 ^ (52 - b))%Z.
        rewrite inject_Z_mult, Zpower_Qpower by lia.
        change (inject_Z 2) with 2.
        replace (52 - b)%Z with (- (b - 52))%Z by lia.
        rewrite Qpower_opp, Hz'. reflexivity.
      - assert (b = 53%Z) by lia. subst b.
        assert (Ez : Z.abs z = 9007199254740992%Z).
        { rewrite H in Hb. change (2 ^ 53) with 9007199254740992 in Hb.
          rewrite Hz' in Hb, Hle.
          assert (Ea : Qabs (inject_Z z) = inject_Z (Z.abs z)) by reflexivity.
          rewrite Ea in Hb, Hle.
          change 9007199254740992 with (inject_Z 9007199254740992) in Hb, Hle.
          rewrite <- Zle_Qle in Hb, Hle. lia. }
        exists (z / 2)%Z. rewrite H, Hz'.
        assert (Hz2 : z = 9007199254740992%Z \/ z = (-9007199254740992)%Z) by lia.
        destruct Hz2 as [-> | ->]; reflexivity. }
    rewrite (round0_whole _ Hwu : inject_Z (round_half_even _) == _).
    field. intros H0. rewrite H0 in Pu. discriminate.
Qed.

Lemma whole_comp (a b : Q) : a == b -> whole a -> whole b.
Proof. intros E [z Hz]. exists z. rewrite <- E. exact Hz. Qed.

Lemma series_sum_nonneg_list (xs : list Q) :
  Forall (fun x => 0 <= x) xs -> 0 <= series_sum xs.
Proof.
  induction 1 as [|x xs Hx _ IH]; simpl; [apply Qle_refl | lra].
Qed.

Lemma fold_double_exact (xs : list Q) :
  forall acc,
    whole acc -> 0 <= acc ->
    Forall (fun x => whole x /\ 0 <= x) xs ->
    acc + series_sum xs <= max_exact ->
    fold_left (fun a x => round_double (a + x)) xs acc == acc + series_sum xs.
Proof.
  induction xs as [|x xs IH]; intros acc Hw Hpos Hxs Hle; simpl fold_left.
  - simpl. ring.
  - inversion Hxs as [|? ? [Hwx Hx] Hrest]; subst.
    assert (Hs : 0 <= series_sum xs).
    { apply series_sum_nonneg_list. eapply Forall_impl; [|exact Hrest].
      intros a [_ Ha]. exact Ha. }
    change (series_sum (x :: xs)) with (x + series_sum xs) in *.
    unfold max_exact in *.
    assert (E : round_double (acc + x) == acc + x).
    { apply round_double_exact; [apply whole_plus; assumption|].
      rewrite Qabs_pos by lra. unfold max_exact. lra. }
    rewrite IH.
    + rewrite E. ring.
    + apply (whole_comp (acc + x)); [symmetry; exact E | apply whole_plus; assumption].
    + rewrite E. lra.
    + exact Hrest.
    + rewrite E. lra.
Qed.

(** Non-negative whole numbers whose sum stays within [max_exact] are added
    without rounding, in whatever order. *)
Lemma series_sum_double_exact (xs : list Q) :
  Forall (fun x => whole x /\ 0 <= x) xs ->
  series_sum xs <= max_exact ->
  series_sum_double xs == series_sum xs.
Proof.
  intros Hxs Hle. unfold series_sum_double.
  rewrite fold_double_exact; [ring | exists 0%Z; reflexivity | apply Qle_refl | exact Hxs |].
  lra.
Qed.





(** *** A window that covers the whole history *)

Lemma filter_stock_history_covered (start_date end_date : date) (h : list pyval) :
  forallb (covered_entry start_date end_date) h = true ->
  filter_stock_history start_date end_date h = h.
Proof.
  unfold filter_stock_history.
  induction h as [|entry rest IH]; simpl; intros Hcov; [reflexivity|].
  apply andb_true_iff in Hcov. destruct Hcov as [He Hrest].
  destruct entry as [| | | | |d]; try discriminate. simpl in He.
  apply andb_true_iff in He. destruct He as [He _].
  apply andb_true_iff in He. destruct He as [He _].
  rewrite He, (IH Hrest). reflexivity.
Qed.

Lemma covered_whole_entry (start_date end_date : date) (h : list pyval) :
  forallb (covered_entry start_date end_date) h = true ->
  forallb whole_entry h = true.
Proof.
  rewrite !forallb_forall. intros H entry Hin. specialize (H entry Hin).
  destruct entry as [| | | | |d]; try reflexivity. simpl in *.
  apply andb_true_iff in H. destruct H as [H Hinc].
  apply andb_true_iff in H. destruct H as [_ Hdec].
  rewrite Hdec, Hinc. reflexivity.
Qed.

Lemma mongo_total_split (field : string) (entry : pyval) (h : list pyval) :
  mongo_total field (entry :: h) == mongo_total field [entry] + mongo_total field h.
Proof.
  unfold mongo_total. simpl. destruct (mongo_max_zero _); ring.
Qed.

Lemma mongo_total_not_dict (field : string) (entry : pyval) :
  match entry with PDict _ => False | _ => True end ->
  mongo_total field [entry] == 0.
Proof.
  destruct entry; intros H; try destruct H; reflexivity.
Qed.

Lemma mongo_total_whole_quantity (key : string) (d : list (string * pyval)) :
  whole_quantity key d = true -> whole (mongo_total key [PDict d]).
Proof.
  unfold whole_quantity, mongo_total. simpl.
  destruct (dict_get key d) as [[| |q| | |]|]; try discriminate; simpl; intros Hw.
  - apply whole_plus; [|apply (whole_inject 0)].
    apply whole_max; [apply is_integer_whole; exact Hw | apply (whole_inject 0)].
  - apply whole_plus; [|apply (whole_inject 0)].
    apply whole_max; apply (whole_inject 0).
Qed.

(** [max(0, float(entry.get(key, 0)))] on a whole quantity up to
    [max_exact]: the double is the quantity, and the value is what the
    pipeline adds for the entry. *)
Lemma float_quantity_whole (key : string) (d : list (string * pyval)) :
  whole_quantity key d = true ->
  mongo_total key [PDict d] <= max_exact ->
  exists v,
    py_float_double (get_or_zero key d) = Some v
    /\ Qmax 0 v == mongo_total key [PDict d].
Proof.
  unfold whole_quantity, get_or_zero, py_float_double, mongo_total, max_exact.
  intros Hw Hle. simpl in Hle. simpl.
  destruct (dict_get key d) as [[| |q| | |]|]; try discriminate; simpl in *.
  - apply is_integer_whole in Hw. exists (round_double q). split; [reflexivity|].
    destruct (Qlt_le_dec q 0) as [Hneg|Hge].
    + assert (Hv : round_double q <= 0) by (apply round_double_nonpos; lra).
      rewrite (Q.max_l 0 (round_double q)) by exact Hv.
      rewrite (Q.max_r q 0) by lra. ring.
    + rewrite (Q.max_l q 0) in * by exact Hge.
      assert (Ev : round_double q == q).
      { apply round_double_exact; [exact Hw|].
        rewrite Qabs_pos by exact Hge. unfold max_exact. lra. }
      rewrite Ev, (Q.max_r 0 q) by exact Hge. ring.
  - exists 0. split; [reflexivity|].
    assert (E : Qmax 0 0 == 0) by reflexivity. rewrite !E. ring.
Qed.

(** One [total += max(0, float(entry.get(key, 0)))]: within [max_exact]
    the addition does not round either. *)
Lemma float_step_whole (key : string) (d : list (string * pyval)) (total : Q) :
  whole_quantity key d = true ->
  whole total -> 0 <= total ->
  total + mongo_total key [PDict d] <= max_exact ->
  exists v,
    py_float_double (get_or_zero key d) = Some v
    /\ round_double (total + Qmax 0 v) == total + mongo_total key [PDict d].
Proof.
  intros Hw Ht Hpos Hle.
  pose proof (mongo_total_nonneg key [PDict d]) as Hc.
  destruct (float_quantity_whole key d Hw) as (v & Hv & Ev); [lra|].
  exists v. split; [exact Hv|].
  rewrite Ev. apply round_double_exact.
  - apply whole_plus; [exact Ht|].
    apply mongo_total_whole_quantity. exact Hw.
  - rewrite Qabs_pos by lra. exact Hle.
Qed.

(** The loop of [recalculate_metrics] on whole quantities: as long as the
    totals stay within [max_exact], the doubles it accumulates are the sums
    the pipeline computes over the same entries. *)
Lemma sum_movements_double_whole (h : list pyval) :
  forallb whole_entry h = true ->
  forall a b,
    whole a -> whole b -> 0 <= a -> 0 <= b ->
    a + mongo_total "stock_decreased" h <= max_exact ->
    b + mongo_total "stock_increased" h <= max_exact ->
    exists x y,
      sum_movements_double h a b = Some (x, y)
      /\ x == a + mongo_total "stock_decreased" h
      /\ y == b + mongo_total "stock_increased" h.
Proof.
  induction h as [|entry rest IH]; intros Hw a b Hwa Hwb Ha Hb Hla Hlb.
  - exists a, b. unfold mongo_total. simpl. repeat split; ring.
  - simpl in Hw. apply andb_true_iff in Hw. destruct Hw as [He Hrest].
    pose proof (mongo_total_split "stock_decreased" entry rest) as Sd.
    pose proof (mongo_total_split "stock_increased" entry rest) as Si.
    pose proof (mongo_total_nonneg "stock_decreased" rest) as Pd.
    pose proof (mongo_total_nonneg "stock_increased" rest) as Pi.
    rewrite Sd in Hla. rewrite Si in Hlb.
    destruct entry as [| | | | |d];
      try (rewrite (mongo_total_not_dict "stock_decreased") in Sd, Hla by exact I;
           rewrite (mongo_total_not_dict "stock_increased") in Si, Hlb by exact I;
           destruct (IH Hrest a b Hwa Hwb Ha Hb) as (x & y & Hs & Hx & Hy);
           [lra | lra |];
           exists x, y; split; [exact Hs|]; rewrite Sd, Si, Hx, Hy; split; ring).
    simpl in He. apply andb_true_iff in He. destruct He as [Hdec Hinc].
    pose proof (mongo_total_nonneg "stock_decreased" [PDict d]) as Cd.
    pose proof (mongo_total_nonneg "stock_increased" [PDict d]) as Ci.
    assert (Wd : whole (mongo_total "stock_decreased" [PDict d])).
    { apply mongo_total_whole_entries; [auto|]. simpl. rewrite Hdec, Hinc. reflexivity. }
    assert (Wi : whole (mongo_total "stock_increased" [PDict d])).
    { apply mongo_total_whole_entries; [auto|]. simpl. rewrite Hdec, Hinc. reflexivity. }
    destruct (float_step_whole "stock_decreased" d a Hdec Hwa Ha) as (dec & Fd & Ed);
      [lra|].
    destruct (float_step_whole "stock_increased" d b Hinc Hwb Hb) as (inc & Fi & Ei);
      [lra|].
    cbn [sum_movements_double]. rewrite Fd, Fi.
    destruct (IH Hrest (round_double (a + Qmax 0 dec)) (round_double (b + Qmax 0 inc)))
      as (x & y & Hs & Hx & Hy).
    + apply (whole_comp _ _ (Qeq_sym _ _ Ed)). apply whole_plus; assumption.
    + apply (whole_comp _ _ (Qeq_sym _ _ Ei)). apply whole_plus; assumption.
    + rewrite Ed. lra.
    + rewrite Ei. lra.
    + rewrite Ed. lra.
    + rewrite Ei. lra.
    + exists x, y. split; [exact Hs|].
      rewrite Hx, Hy, Ed, Ei, Sd, Si. split; ring.
Qed.

Lemma apply_recalculate_double_nth (rows result : list ProductRow) (i : nat)
  (r : ProductRow) :
  apply_recalculate_double rows = Some result ->
  nth_error rows i = Some r ->
  exists r', nth_error result i = Some r' /\ recalculate_metrics_double r = Some r'.
Proof.
  revert result i. induction rows as [|r0 rest IH]; intros result i; simpl.
  - intros _ Hi. destruct i; discriminate.
  - destruct (recalculate_metrics_double r0) as [r0'|] eqn:Hr0; [|discriminate].
    destruct (apply_recalculate_double rest) as [rest'|]; [|discriminate].
    intros [= <-] Hi. destruct i as [|i]; simpl in *.
    + injection Hi as <-. exists r0'. auto.
    + apply (IH rest' i); auto.
Qed.

Lemma num_eq_refl (x : option Q) : num_eq x x.
Proof. destruct x; simpl; [reflexivity | exact I]. Qed.

Lemma round0_max_zero (t : Q) : 0 <= t -> whole t -> round0 (Qmax 0 t) == t.
Proof.
  intros Hpos Hw. transitivity (Qmax 0 t).
  - apply round0_whole. apply whole_max; [apply (whole_inject 0) | exact Hw].
  - apply Q.max_r. exact Hpos.
Qed.

Lemma round0_revenue (price_ t x : Q) :
  whole price_ -> 0 <= t -> whole t -> x == t ->
  price_ * x == round0 (price_ * Qmax 0 t).
Proof.
  intros Hp Hpos Hw Hx. transitivity (price_ * Qmax 0 t).
  - rewrite Hx, (Q.max_r _ _ Hpos). reflexivity.
  - symmetry. apply round0_whole. apply whole_mult; [exact Hp|].
    apply whole_max; [apply (whole_inject 0) | exact Hw].
Qed.

Lemma price_at_least_one (p : Q) : 1 <= Qmax 1000 (round0 p).
Proof. eapply Qle_trans; [|apply Q.le_max_l]. discriminate. Qed.

(** [row['price'] * total] for a whole price and a whole total: no rounding
    while the product stays within [max_exact]. *)
Lemma windowed_revenue_exact (price_ t x : Q) :
  whole price_ -> 1 <= price_ -> whole x -> 0 <= x -> x <= t ->
  price_ * t <= max_exact ->
  round_double (price_ * x) == price_ * x.
Proof.
  intros Hp H1 Hx H0 Hle Hmax.
  assert (H : x * price_ <= t * price_) by (apply Qmult_le_compat_r; lra).
  assert (H' : 0 * price_ <= x * price_) by (apply Qmult_le_compat_r; lra).
  apply round_double_exact; [apply whole_mult; assumption|].
  rewrite Qabs_pos by lra. lra.
Qed.

Lemma quantity_within_revenue (price_ t : Q) :
  1 <= price_ -> 0 <= t -> price_ * t <= max_exact -> t <= max_exact.
Proof.
  intros H1 H0 Hmax.
  assert (H : 1 * t <= price_ * t) by (apply Qmult_le_compat_r; assumption).
  lra.
Qed.

Lemma covered_lifetime_totals (r : RawProduct) (p : Q) (start_date end_date : date) :
  (List.length (history_of r) <= 50)%nat ->
  forallb (covered_entry start_date end_date) (history_of r) = true ->
  let product := mongo_project r p in
  l_stock_history (load_row product) = history_of r
  /\ l_total_sold (load_row product) == mongo_total "stock_decreased" (history_of r)
  /\ l_total_stock_increased (load_row product)
     == mongo_total "stock_increased" (history_of r)
  /\ whole (Qmax 1000 (p_price product)).
Proof.
  intros Hlen Hcov product.
  assert (H100 : firstn 100 (history_of r) = history_of r)
    by (apply firstn_all2; lia).
  assert (H50 : firstn 50 (history_of r) = history_of r)
    by (apply firstn_all2; lia).
  split; [|split; [|split]].
  - rewrite load_row_history. subst product. rewrite project_history, H100. exact H50.
  - subst product. unfold load_row, mongo_project.
    cbn [l_total_sold p_total_sold]. fold (history_of r). rewrite H100.
    apply round0_max_zero; [apply mongo_total_nonneg|].
    apply (mongo_total_whole _ start_date end_date); auto.
  - subst product. unfold load_row, mongo_project.
    cbn [l_total_stock_increased p_total_stock_increased]. fold (history_of r).
    rewrite H100.
    apply round0_max_zero; [apply mongo_total_nonneg|].
    apply (mongo_total_whole _ start_date end_date); auto.
  - apply whole_max; [apply (whole_inject 1000)|].
    subst product. unfold mongo_project. cbn [p_price]. apply whole_inject.
Qed.

(** C1, as the code has it: take a product whose document holds at most 50
    movement entries, every one a dict whose date parses and lies in the
    window and whose quantities are whole numbers (or absent), and whose
    lifetime [revenue] and [stock_revenue] do not exceed [2^53].  Then in
    the frame returned by window recomputation, computed in doubles, its row
    has [quantity_sold] and [stock_remaining] equal to the lifetime
    [total_sold] and [total_stock_increased] computed at load time, and
    [revenue] and [stock_revenue] equal to the lifetime ones.  Beyond
    [2^53] the doubles of the window round where the pipeline's whole
    numbers do not. *)
Theorem covering_window_recovers_lifetime_totals
  (r : RawProduct) (p : Q) (seg : Segment) (df : list ProductRow) (i : nat)
  (start_date end_date : date) :
  let row := with_clustering seg (load_row (mongo_project r p)) in
  nth_error df i = Some row ->
  (List.length (history_of r) <= 50)%nat ->
  forallb (covered_entry start_date end_date) (history_of r) = true ->
  num_le (revenue row) (Some max_exact) ->
  num_le (stock_revenue row) (Some max_exact) ->
  exists row',
    nth_error (filter_by_date_range_optimized_double df start_date end_date) i
    = Some row'
    /\ quantity_sold row' == total_sold row
    /\ stock_remaining row' == total_stock_increased row
    /\ num_eq (revenue row') (revenue row)
    /\ num_eq (stock_revenue row') (stock_revenue row).
Proof.
  intros row Hnth Hlen Hcov Hrmax Hsmax.
  destruct (covered_lifetime_totals r p start_date end_date Hlen Hcov)
    as (Hhist & Hsold & Hstock & Hprice).
  assert (Hwx : whole (mongo_total "stock_decreased" (history_of r)))
    by (apply (mongo_total_whole _ start_date end_date); auto).
  assert (Hwy : whole (mongo_total "stock_increased" (history_of r)))
    by (apply (mongo_total_whole _ start_date end_date); auto).
  assert (H100 : firstn 100 (history_of r) = history_of r)
    by (apply firstn_all2; lia).
  pose proof (mongo_total_nonneg "stock_decreased" (history_of r)) as Hpx.
  pose proof (mongo_total_nonneg "stock_increased" (history_of r)) as Hpy.
  pose proof (price_at_least_one p) as Hp1.
  unfold mongo_project in Hprice. cbn [p_price] in Hprice.
  assert (Hrev : revenue row
                 = Some (round0 (Qmax 1000 (round0 p)
                                 * Qmax 0 (mongo_total "stock_decreased" (history_of r))))).
  { subst row. unfold with_clustering, load_row, mongo_project.
    cbn [revenue l_revenue p_price p_total_sold]. fold (history_of r).
    rewrite H100. reflexivity. }
  assert (Hsrev : stock_revenue row
                  = Some (round0 (Qmax 1000 (round0 p)
                                  * Qmax 0 (mongo_total "stock_increased" (history_of r))))).
  { subst row. unfold with_clustering, load_row, mongo_project.
    cbn [stock_revenue l_stock_revenue p_price p_total_stock_increased].
    fold (history_of r). rewrite H100. reflexivity. }
  rewrite Hrev in Hrmax. rewrite Hsrev in Hsmax. cbn [num_le] in Hrmax, Hsmax.
  rewrite <- (round0_revenue _ _ _ Hprice Hpx Hwx (Qeq_refl _)) in Hrmax.
  rewrite <- (round0_revenue _ _ _ Hprice Hpy Hwy (Qeq_refl _)) in Hsmax.
  pose proof (quantity_within_revenue _ _ Hp1 Hpx Hrmax) as Hxmax.
  pose proof (quantity_within_revenue _ _ Hp1 Hpy Hsmax) as Hymax.
  unfold filter_by_date_range_optimized_double.
  destruct df as [|r0 rest]; [destruct i; discriminate|].
  destruct (apply_recalculate_double _) as [result|] eqn:Hres.
  - pose proof (map_nth_error
                  (fun r1 => with_stock_history
                               (filter_stock_history start_date end_date (stock_history r1)) r1)
                  i (r0 :: rest) Hnth) as Hnth'.
    destruct (apply_recalculate_double_nth _ _ _ _ Hres Hnth') as (row' & Hrow' & Hrec).
    exists row'. split; [exact Hrow'|].
    unfold recalculate_metrics_double in Hrec.
    cbn [stock_history with_stock_history] in Hrec.
    change (stock_history row) with (l_stock_history (load_row (mongo_project r p))) in Hrec.
    rewrite Hhist, (filter_stock_history_covered _ _ _ Hcov) in Hrec.
    destruct (sum_movements_double_whole _ (covered_whole_entry _ _ _ Hcov) 0 0
                (whole_inject 0) (whole_inject 0) (Qle_refl 0) (Qle_refl 0))
      as (x & y & Hs & Hx & Hy); [lra | lra |].
    rewrite Hs in Hrec. injection Hrec as <-.
    rewrite Qplus_0_l in Hx, Hy.
    cbn [quantity_sold stock_remaining revenue stock_revenue with_metrics_double
         with_stock_history price].
    split; [subst row; cbn [total_sold with_clustering]; rewrite Hsold; exact Hx|].
    split; [subst row; cbn [total_stock_increased with_clustering]; rewrite Hstock;
            exact Hy|].
    rewrite Hrev, Hsrev.
    change (price row) with (Some (Qmax 1000 (round0 p))).
    cbn [num_mul_double num_eq].
    split.
    + rewrite (windowed_revenue_exact _ (mongo_total "stock_decreased" (history_of r)));
        try assumption.
      * apply round0_revenue; assumption.
      * apply (whole_comp _ _ (Qeq_sym _ _ Hx)). exact Hwx.
      * rewrite Hx. exact Hpx.
      * rewrite Hx. apply Qle_refl.
    + rewrite (windowed_revenue_exact _ (mongo_total "stock_increased" (history_of r)));
        try assumption.
      * apply round0_revenue; assumption.
      * apply (whole_comp _ _ (Qeq_sym _ _ Hy)). exact Hwy.
      * rewrite Hy. exact Hpy.
      * rewrite Hy. apply Qle_refl.
  - exists row. split; [exact Hnth|].
    repeat split; try reflexivity; apply num_eq_refl.
Qed.

(** *** Tiers and the date window *)

Lemma categorize_price_segment_rows (df : list ProductRow) :
  categorize_price_segment df
  = map (fun r => with_segment (tier_of_price (map price df) (price r)) r) df.
Proof.
  unfold categorize_price_segment, tier_of_price.
  destruct (dropna (map price df)); [reflexivity|].
  destruct (num_eqb (quantile _ _) _); [|reflexivity].
  destruct (num_eqb (series_min _) _); reflexivity.
Qed.

Lemma categorize_tiers_by_column (df : list ProductRow) :
  map segment (categorize_price_segment df)
  = map (tier_of_price (map price df)) (map price df).
Proof.
  rewrite categorize_price_segment_rows, !map_map. reflexivity.
Qed.

Lemma apply_recalculate_rows (rows result : list ProductRow) :
  apply_recalculate rows = Some result ->
  Forall2 (fun r r' => recalculate_metrics r = Some r') rows result.
Proof.
  revert result. induction rows as [|r rest IH]; intros result; simpl.
  - intros [= <-]. constructor.
  - destruct (recalculate_metrics r) as [r'|] eqn:Hr; [|discriminate].
    destruct (apply_recalculate rest) as [rest'|]; [|discriminate].
    intros [= <-]. constructor; auto.
Qed.

Lemma same_product_refl (df : list ProductRow) : Forall2 same_product df df.
Proof.
  induction df; constructor; auto. repeat split.
Qed.

Lemma recalculate_metrics_same_product (h : list pyval) (r r' : ProductRow) :
  recalculate_metrics (with_stock_history h r) = Some r' -> same_product r r'.
Proof.
  unfold recalculate_metrics.
  destruct (sum_movements _ _ _) as [[x y]|]; [|discriminate].
  intros [= <-]. repeat split.
Qed.

Lemma filter_by_date_same_product (df : list ProductRow) (start_date end_date : date) :
  Forall2 same_product df (filter_by_date_range_optimized df start_date end_date).
Proof.
  unfold filter_by_date_range_optimized.
  destruct df as [|r0 rest]; [constructor|].
  destruct (apply_recalculate _) as [result|] eqn:Hres; [|apply same_product_refl].
  apply apply_recalculate_rows in Hres.
  remember (r0 :: rest) as df eqn:Hdf. clear Hdf.
  revert result Hres. induction df as [|r df IH]; intros result Hres.
  - inversion Hres. constructor.
  - simpl in Hres. inversion Hres as [|? r' ? rest' Hr Hrest]; subst.
    constructor; [|apply IH; exact Hrest].
    eapply recalculate_metrics_same_product. exact Hr.
Qed.

Lemma same_product_columns (df df' : list ProductRow) :
  Forall2 same_product df df' ->
  map segment df' = map segment df /\ map price df' = map price df.
Proof.
  induction 1 as [|r r' df df' Hr _ [IHs IHp]]; simpl; [auto|].
  destruct Hr as (Hs & Hp & _). rewrite Hs, Hp, IHs, IHp. auto.
Qed.

(** C2, as the code has it: window recomputation itself leaves every row's
    tier (and price and identity) as it received them; but the script then
    runs [categorize_price_segment] on the windowed rows, so the tiers of
    the final table and of the rollup are the ones that classifier computes
    from the price column of the rows left by the sidebar selections, not
    the ones of the initial pass. *)
Theorem tiers_reassigned_after_window :
  (forall (df : list ProductRow) (start_date end_date : date),
      Forall2 same_product df (filter_by_date_range_optimized df start_date end_date)
      /\ map segment (filter_by_date_range_optimized df start_date end_date)
         = map segment df)
  /\ (forall (df : list LoadedRow) (selected_category : option string)
             (selected_segment : option Segment) (selected_product : option string)
             (display_mode : DisplayMode) (start_date end_date : date),
         match dashboard df selected_category selected_segment selected_product
                         display_mode start_date end_date with
         | Some (rows, rollup) =>
             let selected :=
               selected_rows (apply_clustering_improved df)
                             selected_category selected_segment selected_product in
             map segment rows = map segment (categorize_price_segment selected)
             /\ map segment rows
                = map (tier_of_price (map price selected)) (map price selected)
             /\ rollup = calculate_segment_analysis rows display_mode
         | None => df = []
         end).
Proof.
  split.
  - intros df start_date end_date.
    pose proof (filter_by_date_same_product df start_date end_date) as H.
    split; [exact H | apply (same_product_columns _ _ H)].
  - intros df c s p display_mode start_date end_date.
    unfold dashboard. destruct df as [|l0 rest]; [reflexivity|].
    set (selected := selected_rows _ c s p).
    pose proof (filter_by_date_same_product selected start_date end_date) as H.
    apply same_product_columns in H. destruct H as [_ Hp].
    cbv zeta. rewrite !categorize_tiers_by_column, Hp. auto.
Qed.

(** *** The rollup *)

Lemma existsb_group_of (seg : Segment) (df : list ProductRow) :
  existsb (fun r => segment_eqb (segment r) seg) df
  = match group_of seg df with [] => false | _ => true end.
Proof.
  unfold group_of. induction df as [|r rest IH]; simpl; [reflexivity|].
  destruct (segment_eqb (segment r) seg); simpl; auto.
Qed.

Lemma groupby_segment_spec (df : list ProductRow) :
  groupby_segment df = map (fun seg => (seg, group_of seg df)) (tiers_present df).
Proof.
  unfold groupby_segment, tiers_present.
  induction groupby_keys as [|seg keys IH]; simpl; [reflexivity|].
  rewrite existsb_group_of, IH.
  destruct (group_of seg df) eqn:Hg; simpl; rewrite ?Hg; reflexivity.
Qed.

Lemma agg_sum_spec (display_mode : DisplayMode) (df : list ProductRow) (seg : Segment) :
  agg_sum display_mode (seg, group_of seg df)
  = (seg, group_revenue display_mode df seg, group_quantity display_mode df seg).
Proof.
  destruct display_mode; reflexivity.
Qed.

Lemma calculate_segment_analysis_spec (df : list ProductRow) (display_mode : DisplayMode) :
  calculate_segment_analysis df display_mode
  = map (summary_of display_mode df
           (series_sum (map (group_revenue display_mode df) (tiers_present df)))
           (series_sum (map (group_quantity display_mode df) (tiers_present df))))
        (tiers_present df).
Proof.
  unfold calculate_segment_analysis.
  destruct df as [|r0 rest]; [reflexivity|].
  rewrite groupby_segment_spec. rewrite !map_map.
  assert (Hagg : forall seg,
             agg_sum display_mode (seg, group_of seg (r0 :: rest))
             = (seg, group_revenue display_mode (r0 :: rest) seg,
                group_quantity display_mode (r0 :: rest) seg))
    by (intros; apply agg_sum_spec).
  rewrite (map_ext _ _ (fun seg => f_equal (fun s => snd (fst s)) (Hagg seg))).
  rewrite (map_ext _ _ (fun seg => f_equal snd (Hagg seg))).
  apply map_ext. intros seg. rewrite Hagg. reflexivity.
Qed.

Lemma tiers_present_length (df : list ProductRow) :
  (List.length (tiers_present df) <= 4)%nat.
Proof.
  unfold tiers_present.
  change 4%nat with (List.length groupby_keys). apply filter_length_le.
Qed.

Lemma tiers_present_occur (df : list ProductRow) (seg : Segment) :
  In seg (tiers_present df) <-> exists r, In r df /\ segment r = seg.
Proof.
  unfold tiers_present. rewrite filter_In, existsb_exists. split.
  - intros (_ & r & Hin & Heq). exists r. split; [exact Hin|].
    destruct (segment r), seg; simpl in Heq; congruence.
  - intros (r & Hin & <-). split.
    + unfold groupby_keys. destruct (segment r); simpl; auto.
    + exists r. split; [exact Hin|]. destruct (segment r); reflexivity.
Qed.

(** C3, as the code has it: the rollup has one row for each tier that
    occurs in the product set and no other row, in the order of the sorted
    labels ('Cao', 'Không xác định', 'Thấp', 'Trung bình'); so between 0
    rows (empty set) and 4 rows, each carrying the sums of its tier in the
    columns of the mode.  No row is synthesized for an absent tier. *)
Theorem rollup_has_one_row_per_tier_present
  (df : list ProductRow) (display_mode : DisplayMode) :
  calculate_segment_analysis [] display_mode = []
  /\ map s_segment (calculate_segment_analysis df display_mode) = tiers_present df
  /\ (List.length (calculate_segment_analysis df display_mode) <= 4)%nat
  /\ (forall seg, In seg (map s_segment (calculate_segment_analysis df display_mode))
                  <-> exists r, In r df /\ segment r = seg)
  /\ Forall (fun s =>
               s_revenue s
               = series_sum (map (mode_revenue display_mode) (group_of (s_segment s) df))
               /\ s_quantity_sold s
                  = series_sum (map (mode_quantity display_mode) (group_of (s_segment s) df)))
            (calculate_segment_analysis df display_mode).
Proof.
  assert (Hseg : map s_segment (calculate_segment_analysis df display_mode)
                 = tiers_present df).
  { rewrite calculate_segment_analysis_spec, map_map. simpl. apply map_id. }
  split; [reflexivity|].
  split; [exact Hseg|].
  split.
  { rewrite <- (length_map s_segment), Hseg. apply tiers_present_length. }
  split.
  { intros seg. rewrite Hseg. apply tiers_present_occur. }
  rewrite calculate_segment_analysis_spec.
  each_mapped_row seg.
  split; reflexivity.
Qed.

(** *** Percentages *)

Lemma series_sum_present (g : Segment -> Q) (present : Segment -> bool)
  (keys : list Segment) :
  (forall seg, present seg = false -> g seg == 0) ->
  series_sum (map g (filter present keys)) == series_sum (map g keys).
Proof.
  intros Habsent. induction keys as [|seg keys IH]; simpl; [reflexivity|].
  destruct (present seg) eqn:Hp; simpl; rewrite IH.
  - reflexivity.
  - rewrite (Habsent seg Hp). ring.
Qed.

Lemma groups_partition (f : ProductRow -> Q) (df : list ProductRow) :
  series_sum (map (fun seg => series_sum (map f (group_of seg df))) groupby_keys)
  == series_sum (map f df).
Proof.
  unfold groupby_keys, group_of. induction df as [|r rest IH]; simpl.
  - reflexivity.
  - rewrite <- IH. destruct (segment r); simpl; ring.
Qed.

Lemma tiers_present_total (f : ProductRow -> Q) (df : list ProductRow) :
  series_sum (map (fun seg => series_sum (map f (group_of seg df))) (tiers_present df))
  == series_sum (map f df).
Proof.
  unfold tiers_present. rewrite series_sum_present; [apply groups_partition|].
  intros seg Habs. rewrite existsb_group_of in Habs.
  destruct (group_of seg df); [reflexivity | discriminate].
Qed.





Lemma agg_sum_double_spec (display_mode : DisplayMode) (df : list ProductRow)
  (seg : Segment) :
  agg_sum_double display_mode (seg, group_of seg df)
  = (seg, group_revenue_double display_mode df seg,
     group_quantity_double display_mode df seg).
Proof.
  destruct display_mode; reflexivity.
Qed.

Lemma calculate_segment_analysis_double_spec (df : list ProductRow)
  (display_mode : DisplayMode) :
  calculate_segment_analysis_double df display_mode
  = map (summary_of_double display_mode df
           (series_sum_double
              (map (group_revenue_double display_mode df) (tiers_present df)))
           (series_sum_double
              (map (group_quantity_double display_mode df) (tiers_present df))))
        (tiers_present df).
Proof.
  unfold calculate_segment_analysis_double.
  destruct df as [|r0 rest]; [reflexivity|].
  rewrite groupby_segment_spec. rewrite !map_map.
  assert (Hagg : forall seg,
             agg_sum_double display_mode (seg, group_of seg (r0 :: rest))
             = (seg, group_revenue_double display_mode (r0 :: rest) seg,
                group_quantity_double display_mode (r0 :: rest) seg))
    by (intros; apply agg_sum_double_spec).
  rewrite (map_ext _ _ (fun seg => f_equal (fun s => snd (fst s)) (Hagg seg))).
  rewrite (map_ext _ _ (fun seg => f_equal snd (Hagg seg))).
  apply map_ext. intros seg. rewrite Hagg. reflexivity.
Qed.




(** *** The percentile classifier *)

Lemma insert_sorted_nonempty (x : Q) (l : list Q) : insert_sorted x l <> [].
Proof.
  destruct l as [|y l]; simpl; [discriminate|].
  destruct (Qle_bool x y); discriminate.
Qed.

Lemma sort_values_nonempty (l : list Q) : l <> [] -> sort_values l <> [].
Proof.
  destruct l as [|x l]; [congruence|]. intros _. simpl. apply insert_sorted_nonempty.
Qed.

Lemma quantile_some (q : Q) (cells : list (option Q)) :
  dropna cells <> [] -> exists p, quantile q cells = Some p.
Proof.
  intros H. unfold quantile.
  destruct (sort_values (dropna cells)) as [|x0 s] eqn:Hs.
  - exfalso. apply (sort_values_nonempty _ H). exact Hs.
  - eexists. reflexivity.
Qed.

Lemma series_min_some (cells : list (option Q)) :
  dropna cells <> [] -> exists lo, series_min cells = Some lo.
Proof.
  intros H. unfold series_min. destruct (dropna cells); [congruence|].
  eexists. reflexivity.
Qed.

Lemma series_max_some (cells : list (option Q)) :
  dropna cells <> [] -> exists hi, series_max cells = Some hi.
Proof.
  intros H. unfold series_max. destruct (dropna cells); [congruence|].
  eexists. reflexivity.
Qed.

Lemma Qeq_bool_false (a b : Q) : ~ a == b -> Qeq_bool a b = false.
Proof.
  intros H. destruct (Qeq_bool a b) eqn:E; [|reflexivity].
  exfalso. apply H. apply Qeq_bool_iff. exact E.
Qed.

Lemma Qle_bool_false (a b : Q) : b < a -> Qle_bool a b = false.
Proof.
  intros H. destruct (Qle_bool a b) eqn:E; [|reflexivity].
  apply Qle_bool_iff in E. exfalso. apply (Qlt_not_le _ _ H). exact E.
Qed.

Lemma classify_segment_spec (p25 p75 : Q) (x : option Q) :
  match x with
  | Some x =>
      (x <= p25 -> classify_segment (Some p25) (Some p75) (Some x) = Thap)
      /\ (p25 < x -> x <= p75 ->
          classify_segment (Some p25) (Some p75) (Some x) = Trung_binh)
      /\ (p25 < x -> p75 < x -> classify_segment (Some p25) (Some p75) (Some x) = Cao)
  | None => classify_segment (Some p25) (Some p75) None = Khong_xac_dinh
  end.
Proof.
  destruct x as [x|]; [|reflexivity]. unfold classify_segment, num_leb.
  split; [|split].
  - intros H. apply Qle_bool_iff in H. rewrite H. reflexivity.
  - intros H1 H2. rewrite (Qle_bool_false _ _ H1).
    apply Qle_bool_iff in H2. rewrite H2. reflexivity.
  - intros H1 H2. rewrite (Qle_bool_false _ _ H1), (Qle_bool_false _ _ H2). reflexivity.
Qed.

Lemma split_at_midpoint_spec (lo hi : Q) (x : option Q) :
  split_at_midpoint (midpoint (Some lo) (Some hi)) x <> Trung_binh
  /\ split_at_midpoint (midpoint (Some lo) (Some hi)) x <> Khong_xac_dinh
  /\ match x with
     | Some x =>
         (x < (lo + hi) / 2
          -> split_at_midpoint (midpoint (Some lo) (Some hi)) (Some x) = Thap)
         /\ ((lo + hi) / 2 <= x
             -> split_at_midpoint (midpoint (Some lo) (Some hi)) (Some x) = Cao)
     | None => split_at_midpoint (midpoint (Some lo) (Some hi)) None = Cao
     end.
Proof.
  unfold split_at_midpoint, midpoint.
  destruct x as [x|]; [|repeat split; discriminate].
  destruct (Qlt_le_dec x ((lo + hi) / 2)) as [Hlt|Hle].
  - repeat split; try discriminate.
    intros H. exfalso. apply (Qlt_not_le _ _ Hlt). exact H.
  - repeat split; try discriminate.
    intros H. exfalso. apply (Qlt_not_le _ _ H). exact Hle.
Qed.

Lemma quantile_single (q x : Q) :
  exists p, quantile q [Some x] = Some p /\ p == x.
Proof.
  unfold quantile. change (sort_values (dropna [Some x])) with [x].
  eexists. split; [reflexivity|].
  assert (Hn : forall n, nth n [x] x = x) by (intros [|[|n]]; reflexivity).
  rewrite !Hn. ring.
Qed.

Lemma single_product_tier (x : Q) (c : option Q) :
  tier_of_price [Some x] c = Trung_binh.
Proof.
  unfold tier_of_price. cbn [dropna].
  destruct (quantile_single (1 # 4) x) as (p25 & -> & H25).
  destruct (quantile_single (3 # 4) x) as (p75 & -> & H75).
  assert (H : num_eqb (Some p25) (Some p75) = true)
    by (apply Qeq_bool_iff; rewrite H25, H75; reflexivity).
  rewrite H. unfold series_min, series_max. cbn [dropna fold_left num_eqb].
  rewrite (proj2 (Qeq_bool_iff x x) (Qeq_refl x)). reflexivity.
Qed.

Lemma insert_sorted_identical (c x : Q) (l : list Q) :
  x == c -> Forall (fun y => y == c) l -> Forall (fun y => y == c) (insert_sorted x l).
Proof.
  intros Hx. induction 1 as [|y l Hy Hl IH]; simpl.
  - constructor; auto.
  - destruct (Qle_bool x y); repeat constructor; auto.
Qed.

Lemma sort_values_identical (c : Q) (l : list Q) :
  Forall (fun y => y == c) l -> Forall (fun y => y == c) (sort_values l).
Proof.
  induction 1 as [|y l Hy Hl IH]; simpl; [constructor|].
  apply insert_sorted_identical; assumption.
Qed.

Lemma nth_identical (c d : Q) (l : list Q) (n : nat) :
  Forall (fun y => y == c) l -> d == c -> nth n l d == c.
Proof.
  intros Hl Hd. revert n. induction Hl as [|y l Hy Hl IH]; intros [|n]; simpl; auto.
Qed.

Lemma quantile_identical (q c : Q) (cells : list (option Q)) (p : Q) :
  Forall (fun y => y == c) (dropna cells) -> quantile q cells = Some p -> p == c.
Proof.
  intros Hall. apply sort_values_identical in Hall. unfold quantile.
  destruct (sort_values (dropna cells)) as [|x0 s]; [discriminate|].
  intros [= <-].
  assert (Hx0 : x0 == c) by (inversion Hall; assumption).
  set (i := Z.to_nat _).
  assert (Hlo : nth i (x0 :: s) x0 == c) by (apply nth_identical; assumption).
  assert (Hhi : nth (i + 1) (x0 :: s) (nth i (x0 :: s) x0) == c)
    by (apply nth_identical; assumption).
  rewrite Hhi, Hlo. ring.
Qed.

Lemma fold_min_identical (c : Q) (rest : list Q) :
  Forall (fun y => y == c) rest -> forall x, x == c -> fold_left Qmin rest x == c.
Proof.
  induction 1 as [|y l Hy Hl IH]; intros x Hx; simpl; [exact Hx|].
  apply IH. destruct (Q.min_dec x y) as [H|H]; rewrite H; assumption.
Qed.

Lemma fold_max_identical (c : Q) (rest : list Q) :
  Forall (fun y => y == c) rest -> forall x, x == c -> fold_left Qmax rest x == c.
Proof.
  induction 1 as [|y l Hy Hl IH]; intros x Hx; simpl; [exact Hx|].
  apply IH. destruct (Q.max_dec x y) as [H|H]; rewrite H; assumption.
Qed.

Lemma identical_prices_tier (c : Q) (prices : list (option Q)) (x : option Q) :
  dropna prices <> [] -> Forall (fun y => y == c) (dropna prices) ->
  tier_of_price prices x = Trung_binh.
Proof.
  intros Hsome Hall. unfold tier_of_price.
  destruct (quantile_some (1 # 4) prices Hsome) as [p25 H25].
  destruct (quantile_some (3 # 4) prices Hsome) as [p75 H75].
  pose proof (quantile_identical _ _ _ _ Hall H25) as E25.
  pose proof (quantile_identical _ _ _ _ Hall H75) as E75.
  rewrite H25, H75. unfold series_min, series_max.
  destruct (dropna prices) as [|y rest]; [congruence|].
  inversion Hall as [|? ? Hy Hrest]; subst.
  assert (Hq : num_eqb (Some p25) (Some p75) = true)
    by (apply Qeq_bool_iff; rewrite E25, E75; reflexivity).
  assert (Hm : num_eqb (Some (fold_left Qmin rest y)) (Some (fold_left Qmax rest y)) = true).
  { apply Qeq_bool_iff.
    rewrite (fold_min_identical c rest Hrest y Hy), (fold_max_identical c rest Hrest y Hy).
    reflexivity. }
  rewrite Hq, Hm. reflexivity.
Qed.

(** C5: [categorize_price_segment] is total and only sets the tier of each
    row.  If no price is present every row is 'Không xác định'.  Otherwise
    the two percentiles, the minimum and the maximum exist, and: with
    distinct percentiles a price up to the 25th is 'Thấp', above it and up
    to the 75th 'Trung bình', above the 75th 'Cao' (a missing price is
    'Không xác định'); with equal percentiles and min different from max a
    price below the midpoint is 'Thấp', at or above it 'Cao', and no row is
    'Trung bình'; with min equal to max every row is 'Trung bình', which is
    the case of identical prices and of a single priced product. *)
Theorem categorize_price_segment_tiers_by_percentile (df : list ProductRow) :
  let prices := map price df in
  let result := categorize_price_segment df in
  Forall2 (fun r r' => r' = with_segment (segment r') r) df result
  /\ (dropna prices = [] -> Forall (fun r' => segment r' = Khong_xac_dinh) result)
  /\ (dropna prices <> [] ->
      exists p25 p75 lo hi,
        quantile (1 # 4) prices = Some p25 /\ quantile (3 # 4) prices = Some p75
        /\ series_min prices = Some lo /\ series_max prices = Some hi
        /\ (~ p25 == p75 ->
            Forall (fun r' =>
                      match price r' with
                      | Some x =>
                          (x <= p25 -> segment r' = Thap)
                          /\ (p25 < x -> x <= p75 -> segment r' = Trung_binh)
                          /\ (p25 < x -> p75 < x -> segment r' = Cao)
                      | None => segment r' = Khong_xac_dinh
                      end) result)
        /\ (p25 == p75 -> ~ lo == hi ->
            Forall (fun r' =>
                      segment r' <> Trung_binh
                      /\ match price r' with
                         | Some x =>
                             (x < (lo + hi) / 2 -> segment r' = Thap)
                             /\ ((lo + hi) / 2 <= x -> segment r' = Cao)
                         | None => segment r' = Cao
                         end) result)
        /\ (p25 == p75 -> lo == hi ->
            Forall (fun r' => segment r' = Trung_binh) result))
  /\ (forall c : Q,
         dropna prices <> [] -> Forall (fun x => x == c) (dropna prices) ->
         Forall (fun r' => segment r' = Trung_binh) result)
  /\ (forall (r : ProductRow) (x : Q),
         price r = Some x -> map segment (categorize_price_segment [r]) = [Trung_binh]).
Proof.
  intros prices result. subst result.
  rewrite categorize_price_segment_rows. fold prices.
  split; [|split; [|split; [|split]]].
  - apply Forall2_map_right. intros r. reflexivity.
  - intros Hnone. each_mapped_row r.
    cbn [segment with_segment]. unfold tier_of_price. rewrite Hnone. reflexivity.
  - intros Hsome.
    destruct (quantile_some (1 # 4) prices Hsome) as [p25 H25].
    destruct (quantile_some (3 # 4) prices Hsome) as [p75 H75].
    destruct (series_min_some prices Hsome) as [lo Hlo].
    destruct (series_max_some prices Hsome) as [hi Hhi].
    exists p25, p75, lo, hi.
    assert (Htier : forall c, tier_of_price prices c
              = if Qeq_bool p25 p75
                then if Qeq_bool lo hi then Trung_binh
                     else split_at_midpoint (midpoint (Some lo) (Some hi)) c
                else classify_segment (Some p25) (Some p75) c).
    { intros c. unfold tier_of_price. rewrite H25, H75, Hlo, Hhi.
      destruct (dropna prices); [congruence | reflexivity]. }
    repeat (split; [assumption|]).
    split; [|split].
    + intros Hne. each_mapped_row r.
      cbn [segment price with_segment]. rewrite Htier, (Qeq_bool_false _ _ Hne).
      pose proof (classify_segment_spec p25 p75 (price r)) as Hx.
      destruct (price r); exact Hx.
    + intros Heq Hne. each_mapped_row r.
      cbn [segment price with_segment].
      rewrite Htier, (proj2 (Qeq_bool_iff _ _) Heq), (Qeq_bool_false _ _ Hne).
      destruct (split_at_midpoint_spec lo hi (price r)) as (Hm & _ & Hx).
      split; [exact Hm | destruct (price r); exact Hx].
    + intros Heq Hmm. each_mapped_row r.
      cbn [segment with_segment].
      rewrite Htier, (proj2 (Qeq_bool_iff _ _) Heq), (proj2 (Qeq_bool_iff _ _) Hmm).
      reflexivity.
  - intros c Hsome Hall. each_mapped_row r.
    cbn [segment with_segment]. apply (identical_prices_tier c); assumption.
  - intros r x Hx. rewrite categorize_price_segment_rows.
    cbn [map segment with_segment]. rewrite Hx, single_product_tier. reflexivity.
Qed.

(** ** Further properties of the loader *)

Lemma aggregate_spec (collection : list RawProduct) (product : Projected) :
  In product (aggregate collection)
  <-> exists r p, In r collection /\ raw_price r = Some p
                  /\ 0 < p /\ p < 1000000000 /\ product = mongo_project r p.
Proof.
  induction collection as [|r rest IH]; simpl.
  - split; [tauto | intros (? & ? & [] & _)].
  - assert (Hrest : In product (aggregate rest)
                    -> exists r0 p, (r = r0 \/ In r0 rest) /\ raw_price r0 = Some p
                                    /\ 0 < p /\ p < 1000000000
                                    /\ product = mongo_project r0 p).
    { intros Hin. apply IH in Hin. destruct Hin as (r' & p' & Hin & H).
      exists r', p'. split; [right; exact Hin | exact H]. }
    unfold mongo_match. destruct (raw_price r) as [p|] eqn:Hp.
    + destruct (Qlt_le_dec 0 p) as [H0|H0]; [destruct (Qlt_le_dec p 1000000000) as [H1|H1]|].
      * simpl. split.
        -- intros [<-|Hin]; [|auto]. exists r, p. repeat split; auto.
        -- intros (r' & p' & [<-|Hin] & Hp' & H0' & H1' & ->).
           ++ left. rewrite Hp in Hp'. injection Hp' as <-. reflexivity.
           ++ right. apply IH. exists r', p'. repeat split; auto.
      * split; [exact Hrest|].
        intros (r' & p' & [<-|Hin] & Hp' & H0' & H1' & ->).
        -- rewrite Hp in Hp'. injection Hp' as <-.
           exfalso. apply (Qlt_not_le _ _ H1'). exact H1.
        -- apply IH. exists r', p'. repeat split; auto.
      * split; [exact Hrest|].
        intros (r' & p' & [<-|Hin] & Hp' & H0' & H1' & ->).
        -- rewrite Hp in Hp'. injection Hp' as <-.
           exfalso. apply (Qlt_not_le _ _ H0'). exact H0.
        -- apply IH. exists r', p'. repeat split; auto.
    + split; [exact Hrest|].
      intros (r' & p' & [<-|Hin] & Hp' & H0' & H1' & ->); [congruence|].
      apply IH. exists r', p'. repeat split; auto.
Qed.

Lemma aggregate_length (collection : list RawProduct) :
  (List.length (aggregate collection) <= List.length collection)%nat.
Proof.
  induction collection as [|r rest IH]; simpl; [lia|].
  destruct (raw_price r); [destruct (mongo_match r)|]; simpl; lia.
Qed.

Lemma loaded_rows_spec (collection : list RawProduct) (row : LoadedRow) :
  In row (fst (fst (load_data_optimized collection)))
  <-> exists r p, In r collection /\ raw_price r = Some p
                  /\ 0 < p /\ p < 1000000000
                  /\ row = load_row (mongo_project r p).
Proof.
  rewrite load_data_rows, in_map_iff. split.
  - intros (product & <- & Hin). apply aggregate_spec in Hin.
    destruct Hin as (r & p & Hr & Hp & H0 & H1 & ->). exists r, p. auto.
  - intros (r & p & Hr & Hp & H0 & H1 & ->).
    exists (mongo_project r p). split; [reflexivity|].
    apply aggregate_spec. exists r, p. auto.
Qed.

(** X2: the loaded frame has exactly the rows built from the documents
    whose price is a number strictly between 0 and 1000000000; a document
    with a missing price, a price of 0 or less, or of 1000000000 or more
    gives no row, so the frame never has more rows than the collection. *)
Theorem loaded_rows_come_from_valid_prices (collection : list RawProduct) :
  (forall row : LoadedRow,
      In row (fst (fst (load_data_optimized collection)))
      <-> exists r p, In r collection /\ raw_price r = Some p
                      /\ 0 < p /\ p < 1000000000
                      /\ row = load_row (mongo_project r p))
  /\ (List.length (fst (fst (load_data_optimized collection)))
      <= List.length collection)%nat.
Proof.
  split; [apply loaded_rows_spec|].
  rewrite load_data_rows, length_map. apply aggregate_length.
Qed.

Lemma round_half_even_le_ceil (q : Q) : (round_half_even q <= Qfloor q + 1)%Z.
Proof.
  unfold round_half_even.
  destruct (Qcompare _ _); [destruct (Z.even _)| |]; lia.
Qed.

Lemma round0_below (q : Q) (bound : Z) : q < inject_Z bound -> round0 q <= inject_Z bound.
Proof.
  intros H. unfold round0. rewrite <- Zle_Qle.
  pose proof (round_half_even_le_ceil q).
  assert (Qfloor q < bound)%Z; [|lia].
  rewrite Zlt_Qlt. eapply Qle_lt_trans; [apply Qfloor_le | exact H].
Qed.

Lemma load_row_price (r : RawProduct) (p : Q) :
  p < 1000000000 ->
  exists price_,
    l_price (load_row (mongo_project r p)) = Some price_
    /\ whole price_ /\ 1000 <= price_ /\ price_ <= 1000000000.
Proof.
  intros Hp. eexists. split; [reflexivity|].
  cbn [p_price mongo_project]. split; [|split].
  - apply whole_max; [apply (whole_inject 1000) | apply whole_inject].
  - apply Q.le_max_l.
  - apply Q.max_lub; [discriminate|]. apply (round0_below p 1000000000). exact Hp.
Qed.

Lemma load_row_revenue (product : Projected) :
  exists v w,
    l_revenue (load_row product) = Some v /\ 0 <= v
    /\ l_stock_revenue (load_row product) = Some w /\ 0 <= w.
Proof.
  assert (Hprice : 0 <= Qmax 1000 (p_price product)).
  { eapply Qle_trans; [|apply Q.le_max_l]. discriminate. }
  eexists. eexists. split; [reflexivity|]. split; [|split; [reflexivity|]];
    apply round0_nonneg; apply Qmult_le_0_compat; try exact Hprice; apply Q.le_max_l.
Qed.

(** X1: every row of the loaded frame carries a price that is a whole
    number between 1000 and 1000000000, and a revenue and a stock revenue
    that are present and not negative; hence every row the script passes to
    the date window has a price. *)
Theorem loaded_rows_price_and_revenue (collection : list RawProduct) :
  Forall (fun row =>
            (exists price_,
                l_price row = Some price_
                /\ whole price_ /\ 1000 <= price_ /\ price_ <= 1000000000)
            /\ (exists v w,
                   l_revenue row = Some v /\ 0 <= v
                   /\ l_stock_revenue row = Some w /\ 0 <= w))
         (fst (fst (load_data_optimized collection)))
  /\ (forall (selected_category : option string) (selected_segment : option Segment)
             (selected_product : option string),
         forallb has_price
                 (selected_rows
                    (apply_clustering_improved (fst (fst (load_data_optimized collection))))
                    selected_category selected_segment selected_product) = true).
Proof.
  split.
  - apply Forall_forall. intros row Hin.
    apply loaded_rows_spec in Hin.
    destruct Hin as (r & p & _ & _ & _ & Hp & ->).
    split; [apply load_row_price; exact Hp | apply load_row_revenue].
  - intros c s p. apply forallb_forall. intros row Hin.
    apply selected_rows_incl in Hin.
    destruct (apply_clustering_rows (fst (fst (load_data_optimized collection)))) as [f Hf].
    rewrite Hf, load_data_rows, map_map in Hin.
    apply in_map_iff in Hin. destruct Hin as (product & <- & _). reflexivity.
Qed.

(** *** The order of dates *)

Ltac date_order :=
  unfold date_max, date_min, date_leb in *;
  repeat match goal with
         | d : date |- _ => destruct d
         end;
  cbn [year month day] in *;
  repeat match goal with
         | |- context [if ?b then _ else _] => destruct b eqn:?
         end;
  cbn [year month day] in *;
  repeat match goal with
         | H : _ = true |- _ =>
             rewrite ?orb_true_iff, ?andb_true_iff, ?orb_true_iff, ?andb_true_iff,
               ?Z.ltb_lt, ?Z.eqb_eq, ?Z.leb_le in H
         | H : _ = false |- _ =>
             rewrite ?orb_false_iff, ?andb_false_iff, ?orb_false_iff, ?andb_false_iff,
               ?Z.ltb_ge, ?Z.eqb_neq, ?Z.leb_gt in H
         end;
  rewrite ?orb_true_iff, ?andb_true_iff, ?orb_true_iff, ?andb_true_iff,
    ?orb_false_iff, ?andb_false_iff, ?Z.ltb_lt, ?Z.eqb_eq, ?Z.leb_le, ?Z.ltb_ge,
    ?Z.eqb_neq, ?Z.leb_gt.

Lemma date_leb_refl (a : date) : date_leb a a = true.
Proof. date_order. lia. Qed.

Lemma date_leb_total (a b : date) : date_leb a b = false -> date_leb b a = true.
Proof. intros H. date_order. lia. Qed.

Lemma date_leb_antisym (a b : date) :
  date_leb a b = true -> date_leb b a = true -> a = b.
Proof.
  intros H1 H2. date_order.
  assert (year0 = year1 /\ month0 = month1 /\ day0 = day1) as (-> & -> & ->) by lia.
  reflexivity.
Qed.

Lemma date_min_le (a b : date) :
  date_leb (date_min a b) a = true /\ date_leb (date_min a b) b = true.
Proof.
  unfold date_min. destruct (date_leb a b) eqn:H.
  - split; [apply date_leb_refl | exact H].
  - split; [apply date_leb_total; exact H | apply date_leb_refl].
Qed.

Lemma date_max_ge (a b : date) :
  date_leb a (date_max a b) = true /\ date_leb b (date_max a b) = true.
Proof.
  unfold date_max. destruct (date_leb a b) eqn:H.
  - split; [exact H | apply date_leb_refl].
  - split; [apply date_leb_refl | apply date_leb_total; exact H].
Qed.

Lemma fold_date_min_spec (ds : list date) :
  forall d,
    In (fold_left date_min ds d) (d :: ds)
    /\ forall x, In x (d :: ds) -> date_leb (fold_left date_min ds d) x = true.
Proof.
  induction ds as [|d' ds IH]; intros d; simpl.
  - split; [auto|]. intros x [<-|[]]. apply date_leb_refl.
  - destruct (IH (date_min d d')) as [Hin Hle]. split.
    + destruct Hin as [Hin|Hin]; [|auto].
      rewrite <- Hin. unfold date_min. destruct (date_leb d d'); auto.
    + assert (Hm : date_leb (fold_left date_min ds (date_min d d')) (date_min d d') = true)
        by (apply Hle; left; reflexivity).
      destruct (date_min_le d d') as [Hd Hd'].
      intros x [<-|[<-|Hx]].
      * eapply date_leb_trans; eassumption.
      * eapply date_leb_trans; eassumption.
      * apply Hle. right. exact Hx.
Qed.

Lemma fold_date_max_spec (ds : list date) :
  forall d,
    In (fold_left date_max ds d) (d :: ds)
    /\ forall x, In x (d :: ds) -> date_leb x (fold_left date_max ds d) = true.
Proof.
  induction ds as [|d' ds IH]; intros d; simpl.
  - split; [auto|]. intros x [<-|[]]. apply date_leb_refl.
  - destruct (IH (date_max d d')) as [Hin Hle]. split.
    + destruct Hin as [Hin|Hin]; [|auto].
      rewrite <- Hin. unfold date_max. destruct (date_leb d d'); auto.
    + assert (Hm : date_leb (date_max d d') (fold_left date_max ds (date_max d d')) = true)
        by (apply Hle; left; reflexivity).
      destruct (date_max_ge d d') as [Hd Hd'].
      intros x [<-|[<-|Hx]].
      * eapply date_leb_trans; eassumption.
      * eapply date_leb_trans; eassumption.
      * apply Hle. right. exact Hx.
Qed.

Lemma load_data_range (collection : list RawProduct) :
  match observed_dates collection with
  | [] => snd (fst (load_data_optimized collection)) = default_min_date
          /\ snd (load_data_optimized collection) = default_max_date
  | d :: ds => snd (fst (load_data_optimized collection)) = fold_left date_min ds d
               /\ snd (load_data_optimized collection) = fold_left date_max ds d
  end.
Proof.
  unfold load_data_optimized, observed_dates.
  destruct (flat_map _ (aggregate collection)); split; reflexivity.
Qed.

Lemma stored_dates_observed (collection : list RawProduct) (row : LoadedRow)
  (entry : pyval) (d : date) :
  In row (fst (fst (load_data_optimized collection))) ->
  In entry (l_stock_history row) -> parse_entry_date entry = Some d ->
  In d (observed_dates collection).
Proof.
  rewrite load_data_rows, in_map_iff. intros (product & <- & Hp) Hentry Hd.
  unfold observed_dates. apply in_flat_map. exists product. split; [exact Hp|].
  apply collect_dates_spec. exists entry. split; [exact Hentry | exact Hd].
Qed.

(** X3: the date range returned with the frame contains every date that
    parses in a stored movement list; its two bounds are such dates
    themselves, or the fixed range 2025-03-05 to 2025-05-25 when no date
    parses; and the lower bound never exceeds the upper one. *)
Theorem date_range_covers_stored_dates (collection : list RawProduct) :
  let min_date := snd (fst (load_data_optimized collection)) in
  let max_date := snd (load_data_optimized collection) in
  (forall (row : LoadedRow) (entry : pyval) (d : date),
      In row (fst (fst (load_data_optimized collection))) ->
      In entry (l_stock_history row) -> parse_entry_date entry = Some d ->
      date_leb min_date d = true /\ date_leb d max_date = true)
  /\ (observed_dates collection = [] ->
      min_date = mkdate 2025 3 5 /\ max_date = mkdate 2025 5 25)
  /\ (observed_dates collection <> [] ->
      In min_date (observed_dates collection) /\ In max_date (observed_dates collection))
  /\ date_leb min_date max_date = true.
Proof.
  intros min_date max_date. subst min_date max_date.
  pose proof (load_data_range collection) as Hrange.
  split; [|split; [|split]].
  - intros row entry d Hrow Hentry Hd.
    pose proof (stored_dates_observed _ _ _ _ Hrow Hentry Hd) as Hobs.
    destruct (observed_dates collection) as [|d0 ds]; [destruct Hobs|].
    destruct Hrange as [-> ->].
    split; [apply fold_date_min_spec | apply fold_date_max_spec]; exact Hobs.
  - intros Hnone. rewrite Hnone in Hrange. exact Hrange.
  - intros Hsome. destruct (observed_dates collection) as [|d0 ds]; [congruence|].
    destruct Hrange as [-> ->].
    split; [apply fold_date_min_spec | apply fold_date_max_spec].
  - destruct (observed_dates collection) as [|d0 ds]; destruct Hrange as [-> ->].
    + reflexivity.
    + apply (date_leb_trans _ d0).
      * apply fold_date_min_spec. left. reflexivity.
      * apply fold_date_max_spec. left. reflexivity.
Qed.

(** X4: when the lower bound of the range does not exceed the upper one,
    the default start is not before the lower bound and the default end not
    after the upper bound; and the default window is a proper one (start not
    after end) exactly when the range starts on 2025-05-18 or earlier and
    ends on 2025-03-05 or later.  Otherwise the default window is reversed. *)
Theorem default_window_within_range (min_date max_date : date) :
  date_leb min_date max_date = true ->
  date_leb min_date (fst (default_window min_date max_date)) = true
  /\ date_leb (snd (default_window min_date max_date)) max_date = true
  /\ (date_leb (fst (default_window min_date max_date))
               (snd (default_window min_date max_date)) = true
      <-> date_leb min_date (mkdate 2025 5 18) = true
          /\ date_leb (mkdate 2025 3 5) max_date = true).
Proof.
  intros H. unfold default_window. cbn [fst snd].
  split; [apply date_max_ge|]. split; [apply date_min_le|].
  date_order; lia.
Qed.

(** ** Further properties of the two classification passes *)

Lemma apply_clustering_improved_rows (df : list LoadedRow) :
  apply_clustering_improved df
  = map (fun r => with_clustering (first_pass_tier df (l_price r)) r) df.
Proof.
  unfold apply_clustering_improved, first_pass_tier.
  destruct df as [|r0 rest]; [reflexivity|].
  destruct ((1 <? List.length (r0 :: rest))%nat && _)%bool; reflexivity.
Qed.

Lemma num_leb_below (x y : Q) (a : option Q) :
  x <= y -> num_leb y a = true -> num_leb x a = true.
Proof.
  destruct a as [a|]; simpl; [|discriminate].
  intros Hxy Hya. apply Qle_bool_iff in Hya. apply Qle_bool_iff.
  eapply Qle_trans; eassumption.
Qed.

Lemma classify_segment_monotone (a b : option Q) (x y : Q) :
  x <= y ->
  (tier_rank (classify_segment a b (Some x)) <= tier_rank (classify_segment a b (Some y)))%nat
  /\ classify_segment a b (Some x) <> Khong_xac_dinh.
Proof.
  intros Hxy. unfold classify_segment.
  destruct (num_leb y a) eqn:Hya.
  - rewrite (num_leb_below _ _ _ Hxy Hya). simpl. split; [lia | discriminate].
  - destruct (num_leb y b) eqn:Hyb.
    + rewrite (num_leb_below _ _ _ Hxy Hyb).
      destruct (num_leb x a); simpl; split; try lia; discriminate.
    + destruct (num_leb x a); [|destruct (num_leb x b)]; simpl; split; try lia; discriminate.
Qed.

Lemma split_at_midpoint_monotone (m : option Q) (x y : Q) :
  x <= y ->
  (tier_rank (split_at_midpoint m (Some x)) <= tier_rank (split_at_midpoint m (Some y)))%nat
  /\ split_at_midpoint m (Some x) <> Khong_xac_dinh.
Proof.
  intros Hxy. unfold split_at_midpoint. destruct m as [m|]; [|split; [lia|discriminate]].
  destruct (Qlt_le_dec y m) as [Hy|Hy].
  - destruct (Qlt_le_dec x m) as [Hx|Hx]; simpl; [split; [lia|discriminate]|].
    exfalso. apply (Qlt_not_le _ _ Hy). eapply Qle_trans; eassumption.
  - destruct (Qlt_le_dec x m); simpl; split; try lia; discriminate.
Qed.

Lemma tier_rank_injective (s t : Segment) : tier_rank s = tier_rank t -> s = t.
Proof. destruct s, t; simpl; intros H; try reflexivity; discriminate. Qed.

Lemma tier_of_price_monotone (prices : list (option Q)) (x y : Q) :
  dropna prices <> [] -> x <= y ->
  (tier_rank (tier_of_price prices (Some x)) <= tier_rank (tier_of_price prices (Some y)))%nat
  /\ tier_of_price prices (Some x) <> Khong_xac_dinh.
Proof.
  intros Hsome Hxy. unfold tier_of_price.
  destruct (dropna prices); [congruence|].
  destruct (num_eqb (quantile _ _) _); [destruct (num_eqb (series_min _) _)|].
  - simpl. split; [lia | discriminate].
  - apply split_at_midpoint_monotone. exact Hxy.
  - apply classify_segment_monotone. exact Hxy.
Qed.

Lemma first_pass_tier_monotone (df : list LoadedRow) (x y : Q) :
  x <= y ->
  (tier_rank (first_pass_tier df (Some x)) <= tier_rank (first_pass_tier df (Some y)))%nat
  /\ first_pass_tier df (Some x) <> Khong_xac_dinh.
Proof.
  intros Hxy. unfold first_pass_tier.
  destruct (_ && _)%bool.
  - apply (classify_segment_monotone _ _ x y Hxy).
  - simpl. split; [lia | discriminate].
Qed.

Lemma dropna_In (cells : list (option Q)) (x : Q) :
  In (Some x) cells <-> In x (dropna cells).
Proof.
  induction cells as [|[c|] rest IH]; simpl; [tauto| |].
  - rewrite <- IH. split; intros [H|H]; auto; left; congruence.
  - rewrite <- IH. split; [intros [H|H]; [discriminate|auto] | auto].
Qed.

Lemma priced_row_dropna (df : list ProductRow) (r : ProductRow) (x : Q) :
  In r df -> price r = Some x -> dropna (map price df) <> [].
Proof.
  intros Hin Hx Hnil.
  assert (H : In x (dropna (map price df))).
  { apply dropna_In. rewrite <- Hx. apply in_map. exact Hin. }
  rewrite Hnil in H. destruct H.
Qed.

(** X7: [categorize_price_segment] respects the order of prices: of two
    rows of its result, the one with the lower price never has the higher
    tier ('Thấp' below 'Trung bình' below 'Cao'), two rows with equal prices
    have the same tier, and a row with a price is never 'Không xác định'. *)
Theorem categorize_price_segment_monotone
  (df : list ProductRow) (r1 r2 : ProductRow) (x y : Q) :
  In r1 (categorize_price_segment df) -> In r2 (categorize_price_segment df) ->
  price r1 = Some x -> price r2 = Some y ->
  (x <= y -> (tier_rank (segment r1) <= tier_rank (segment r2))%nat)
  /\ (x == y -> segment r1 = segment r2)
  /\ segment r1 <> Khong_xac_dinh.
Proof.
  rewrite categorize_price_segment_rows, !in_map_iff.
  intros (q1 & <- & Hq1) (q2 & <- & Hq2). cbn [price segment with_segment].
  intros Hx Hy. rewrite Hx, Hy.
  pose proof (priced_row_dropna _ _ _ Hq1 Hx) as Hsome.
  split; [|split].
  - intros Hxy. apply (tier_of_price_monotone _ _ _ Hsome Hxy).
  - intros Heq. apply tier_rank_injective. apply Nat.le_antisymm.
    + apply (tier_of_price_monotone _ x y Hsome). rewrite Heq. apply Qle_refl.
    + apply (tier_of_price_monotone _ y x Hsome). rewrite Heq. apply Qle_refl.
  - apply (tier_of_price_monotone _ x x Hsome). apply Qle_refl.
Qed.

(** X6: [apply_clustering_improved] respects the order of prices in the
    same way: the row with the lower price never has the higher tier, equal
    prices give equal tiers, and a row with a price is never
    'Không xác định'. *)
Theorem apply_clustering_improved_monotone
  (df : list LoadedRow) (r1 r2 : ProductRow) (x y : Q) :
  In r1 (apply_clustering_improved df) -> In r2 (apply_clustering_improved df) ->
  price r1 = Some x -> price r2 = Some y ->
  (x <= y -> (tier_rank (segment r1) <= tier_rank (segment r2))%nat)
  /\ (x == y -> segment r1 = segment r2)
  /\ segment r1 <> Khong_xac_dinh.
Proof.
  rewrite apply_clustering_improved_rows, !in_map_iff.
  intros (q1 & <- & Hq1) (q2 & <- & Hq2). cbn [price segment with_clustering].
  intros Hx Hy. rewrite Hx, Hy.
  split; [|split].
  - intros Hxy. apply (first_pass_tier_monotone _ _ _ Hxy).
  - intros Heq. apply tier_rank_injective. apply Nat.le_antisymm.
    + apply (first_pass_tier_monotone df x y). rewrite Heq. apply Qle_refl.
    + apply (first_pass_tier_monotone df y x). rewrite Heq. apply Qle_refl.
  - apply (first_pass_tier_monotone df x x). apply Qle_refl.
Qed.

Lemma unique_identical (c : Q) (l : list Q) :
  Forall (fun y => y == c) l ->
  unique l = match l with [] => [] | x :: _ => [x] end.
Proof.
  induction 1 as [|x rest Hx Hrest IH]; simpl; [reflexivity|].
  rewrite IH. destruct Hrest as [|x' rest' Hx' _]; simpl; [reflexivity|].
  assert (H : Qeq_bool x x' = true)
    by (apply Qeq_bool_iff; rewrite Hx, Hx'; reflexivity).
  rewrite H. reflexivity.
Qed.

(** X5: when the frame has a single row, or all the prices present in it
    are equal, [apply_clustering_improved] computes no percentile and makes
    every row 'Trung bình'. *)
Theorem first_pass_single_or_identical_is_medium (df : list LoadedRow) (c : Q) :
  (List.length df <= 1)%nat \/ Forall (fun x => x == c) (dropna (map l_price df)) ->
  Forall (fun r => segment r = Trung_binh) (apply_clustering_improved df).
Proof.
  intros H. rewrite apply_clustering_improved_rows.
  assert (Htier : forall x, first_pass_tier df x = Trung_binh).
  { intros x. unfold first_pass_tier.
    destruct H as [Hlen|Hall].
    - assert (Hb : (1 <? List.length df)%nat = false) by (apply Nat.ltb_ge; exact Hlen).
      rewrite Hb. reflexivity.
    - assert (Hb : (1 <? nunique (map l_price df))%nat = false).
      { apply Nat.ltb_ge. unfold nunique. rewrite (unique_identical c _ Hall).
        destruct (dropna (map l_price df)); simpl; lia. }
      rewrite Hb, andb_false_r. reflexivity. }
  each_mapped_row r. cbn [segment with_clustering]. apply Htier.
Qed.

(** X8: [categorize_price_segment] reads only the price column: the tiers
    the rows come with are ignored, two frames with the same price column
    get the same tiers, and classifying a second time changes nothing. *)
Theorem categorize_price_segment_idempotent :
  (forall df : list ProductRow,
      categorize_price_segment (categorize_price_segment df)
      = categorize_price_segment df)
  /\ (forall (df : list ProductRow) (f : ProductRow -> Segment),
         categorize_price_segment (map (fun r => with_segment (f r) r) df)
         = categorize_price_segment df)
  /\ (forall df df' : list ProductRow,
         map price df = map price df' ->
         map segment (categorize_price_segment df)
         = map segment (categorize_price_segment df')).
Proof.
  assert (Hignore : forall (df : list ProductRow) (f : ProductRow -> Segment),
             categorize_price_segment (map (fun r => with_segment (f r) r) df)
             = categorize_price_segment df).
  { intros df f. rewrite !categorize_price_segment_rows, !map_map.
    cbn [price with_segment]. reflexivity. }
  split; [|split; [exact Hignore|]].
  - intros df. rewrite (categorize_price_segment_rows df) at 1. apply Hignore.
  - intros df df' Hp. rewrite !categorize_tiers_by_column, Hp. reflexivity.
Qed.

(** *** Sorting and the percentiles *)

Lemma insert_sorted_In (x y : Q) (l : list Q) :
  In y (insert_sorted x l) <-> y = x \/ In y l.
Proof.
  induction l as [|z l IH]; simpl; [intuition|].
  destruct (Qle_bool x z); simpl; [intuition|]. rewrite IH. intuition.
Qed.

Lemma sort_values_In (y : Q) (l : list Q) : In y (sort_values l) <-> In y l.
Proof.
  induction l as [|x l IH]; simpl; [tauto|].
  rewrite insert_sorted_In, IH. intuition.
Qed.

Lemma insert_sorted_length (x : Q) (l : list Q) :
  List.length (insert_sorted x l) = S (List.length l).
Proof.
  induction l as [|z l IH]; simpl; [reflexivity|].
  destruct (Qle_bool x z); simpl; [reflexivity | rewrite IH; reflexivity].
Qed.

Lemma insert_sorted_sorted (x : Q) (l : list Q) :
  StronglySorted Qle l -> StronglySorted Qle (insert_sorted x l).
Proof.
  induction 1 as [|z l Hl IH Hz]; simpl.
  - constructor; constructor.
  - destruct (Qle_bool x z) eqn:Hxz.
    + apply Qle_bool_iff in Hxz. constructor.
      * constructor; assumption.
      * constructor; [exact Hxz|].
        rewrite Forall_forall in *. intros w Hw. eapply Qle_trans; [exact Hxz | auto].
    + assert (Hzx : z <= x).
      { destruct (Qlt_le_dec x z) as [Hlt|Hle]; [|exact Hle].
        apply Qlt_le_weak in Hlt. apply Qle_bool_iff in Hlt. congruence. }
      constructor; [exact IH|].
      rewrite Forall_forall in *. intros w Hw.
      apply insert_sorted_In in Hw. destruct Hw as [->|Hw]; auto.
Qed.

Lemma sort_values_sorted (l : list Q) : StronglySorted Qle (sort_values l).
Proof.
  induction l as [|x l IH]; simpl; [constructor | apply insert_sorted_sorted; exact IH].
Qed.

Lemma nth_sorted_le (s : list Q) (d : Q) :
  StronglySorted Qle s ->
  forall i j, (i <= j)%nat -> (j < List.length s)%nat -> nth i s d <= nth j s d.
Proof.
  induction 1 as [|z s Hs IH Hz]; intros i j Hij Hj; simpl in Hj; [lia|].
  destruct i as [|i], j as [|j]; simpl; try lia.
  - apply Qle_refl.
  - rewrite Forall_forall in Hz. apply Hz. apply nth_In. lia.
  - apply IH; lia.
Qed.

Lemma nth_next_ge (s : list Q) (d : Q) (i : nat) :
  StronglySorted Qle s -> nth i s d <= nth (i + 1) s (nth i s d).
Proof.
  intros Hs. destruct (Nat.lt_ge_cases (i + 1) (List.length s)) as [Hlt|Hge].
  - rewrite (nth_indep s (nth i s d) d Hlt). apply nth_sorted_le; [exact Hs | lia | exact Hlt].
  - rewrite (nth_overflow s (nth i s d) Hge). apply Qle_refl.
Qed.

Lemma nth_bounds (s : list Q) (d x y : Q) (i : nat) :
  (forall z, In z s -> x <= z /\ z <= y) -> x <= d /\ d <= y ->
  x <= nth i s d /\ nth i s d <= y.
Proof.
  intros Hs Hd. destruct (nth_in_or_default i s d) as [Hin| ->]; auto.
Qed.

Lemma fraction_bounds (h : Q) : 0 <= h - inject_Z (Qfloor h) /\ h - inject_Z (Qfloor h) <= 1.
Proof.
  pose proof (Qfloor_le h). pose proof (Qlt_floor h) as Hlt.
  rewrite inject_Z_plus in Hlt. change (inject_Z 1) with 1 in Hlt.
  split; lra.
Qed.

Lemma interpolation_bounds (lo hi f x y : Q) :
  x <= lo -> lo <= y -> x <= hi -> hi <= y -> 0 <= f -> f <= 1 ->
  x <= lo + (hi - lo) * f /\ lo + (hi - lo) * f <= y.
Proof.
  intros. split; nra.
Qed.

Lemma quantile_between (q : Q) (cells : list (option Q)) (p x y : Q) :
  quantile q cells = Some p ->
  (forall z, In z (dropna cells) -> x <= z /\ z <= y) ->
  x <= p /\ p <= y.
Proof.
  unfold quantile. intros Hq Hall.
  destruct (sort_values (dropna cells)) as [|x0 s] eqn:Hs; [discriminate|].
  injection Hq as <-.
  assert (Hall' : forall z, In z (x0 :: s) -> x <= z /\ z <= y).
  { intros z Hz. apply Hall. apply sort_values_In. rewrite Hs. exact Hz. }
  set (i := Z.to_nat _).
  assert (Hlo : x <= nth i (x0 :: s) x0 /\ nth i (x0 :: s) x0 <= y).
  { apply nth_bounds; [exact Hall' | apply Hall'; left; reflexivity]. }
  assert (Hhi : x <= nth (i + 1) (x0 :: s) (nth i (x0 :: s) x0)
                /\ nth (i + 1) (x0 :: s) (nth i (x0 :: s) x0) <= y).
  { apply nth_bounds; [exact Hall' | exact Hlo]. }
  destruct (fraction_bounds (inject_Z (Z.of_nat (List.length (x0 :: s) - 1)) * q)).
  apply interpolation_bounds; tauto.
Qed.

Lemma quantile_monotone (q1 q2 : Q) (cells : list (option Q)) (p1 p2 : Q) :
  0 <= q1 -> q1 <= q2 -> q2 <= 1 ->
  quantile q1 cells = Some p1 -> quantile q2 cells = Some p2 -> p1 <= p2.
Proof.
  unfold quantile. intros H0 H12 H1 Hp1 Hp2.
  pose proof (sort_values_sorted (dropna cells)) as Hsorted.
  destruct (sort_values (dropna cells)) as [|x0 s']; [discriminate|].
  remember (x0 :: s') as s eqn:Hs.
  assert (Hlen : (1 <= List.length s)%nat) by (subst s; simpl; lia).
  remember (Z.of_nat (List.length s - 1)) as n eqn:Hn.
  assert (Hn0 : (0 <= n)%Z) by lia.
  assert (HnQ : 0 <= inject_Z n) by (change 0 with (inject_Z 0); rewrite <- Zle_Qle; exact Hn0).
  remember (inject_Z n * q1) as h1 eqn:Hh1.
  remember (inject_Z n * q2) as h2 eqn:Hh2.
  assert (Hh1pos : 0 <= h1) by (subst h1; apply Qmult_le_0_compat; assumption).
  assert (Hh12 : h1 <= h2) by (subst h1 h2; nra).
  assert (Hh2n : h2 <= inject_Z n) by (subst h2; nra).
  assert (Hz1 : (0 <= Qfloor h1)%Z).
  { pose proof (Qfloor_resp_le _ _ Hh1pos) as H. change (Qfloor 0) with 0%Z in H. exact H. }
  assert (Hz12 : (Qfloor h1 <= Qfloor h2)%Z) by (apply Qfloor_resp_le; exact Hh12).
  assert (Hz2n : (Qfloor h2 <= n)%Z).
  { pose proof (Qfloor_resp_le _ _ Hh2n) as H. rewrite Qfloor_Z in H. exact H. }
  destruct (fraction_bounds h1) as [Hf1 Hf1'].
  destruct (fraction_bounds h2) as [Hf2 Hf2'].
  injection Hp1 as <-. injection Hp2 as <-.
  pose proof (nth_next_ge s x0 (Z.to_nat (Qfloor h1)) Hsorted) as Hstep1.
  pose proof (nth_next_ge s x0 (Z.to_nat (Qfloor h2)) Hsorted) as Hstep2.
  destruct (Z.eq_dec (Qfloor h1) (Qfloor h2)) as [Heq|Hne].
  - rewrite <- Heq in *.
    set (lo := nth (Z.to_nat (Qfloor h1)) s x0) in *.
    set (hi := nth (Z.to_nat (Qfloor h1) + 1) s lo) in *.
    nra.
  - assert (Hi : (Z.to_nat (Qfloor h1) + 1 <= Z.to_nat (Qfloor h2))%nat) by lia.
    assert (Hi2 : (Z.to_nat (Qfloor h2) < List.length s)%nat) by lia.
    assert (Hmid : nth (Z.to_nat (Qfloor h1) + 1) s (nth (Z.to_nat (Qfloor h1)) s x0)
                   <= nth (Z.to_nat (Qfloor h2)) s x0).
    { rewrite (nth_indep s (nth (Z.to_nat (Qfloor h1)) s x0) x0) by lia.
      apply nth_sorted_le; assumption. }
    set (lo1 := nth (Z.to_nat (Qfloor h1)) s x0) in *.
    set (hi1 := nth (Z.to_nat (Qfloor h1) + 1) s lo1) in *.
    set (lo2 := nth (Z.to_nat (Qfloor h2)) s x0) in *.
    set (hi2 := nth (Z.to_nat (Qfloor h2) + 1) s lo2) in *.
    nra.
Qed.

Lemma fold_min_spec (rest : list Q) :
  forall x0,
    In (fold_left Qmin rest x0) (x0 :: rest)
    /\ forall z, In z (x0 :: rest) -> fold_left Qmin rest x0 <= z.
Proof.
  induction rest as [|y rest IH]; intros x0; simpl.
  - split; [auto|]. intros z [<-|[]]. apply Qle_refl.
  - destruct (IH (Qmin x0 y)) as [Hin Hle]. split.
    + destruct Hin as [Hin|Hin]; [|auto]. rewrite <- Hin.
      unfold Qmin, GenericMinMax.gmin. destruct (x0 ?= y); auto.
    + assert (Hm : fold_left Qmin rest (Qmin x0 y) <= Qmin x0 y)
        by (apply Hle; left; reflexivity).
      intros z [<-|[<-|Hz]].
      * eapply Qle_trans; [exact Hm | apply Q.le_min_l].
      * eapply Qle_trans; [exact Hm | apply Q.le_min_r].
      * apply Hle. right. exact Hz.
Qed.

Lemma fold_max_spec (rest : list Q) :
  forall x0,
    In (fold_left Qmax rest x0) (x0 :: rest)
    /\ forall z, In z (x0 :: rest) -> z <= fold_left Qmax rest x0.
Proof.
  induction rest as [|y rest IH]; intros x0; simpl.
  - split; [auto|]. intros z [<-|[]]. apply Qle_refl.
  - destruct (IH (Qmax x0 y)) as [Hin Hle]. split.
    + destruct Hin as [Hin|Hin]; [|auto]. rewrite <- Hin.
      unfold Qmax, GenericMinMax.gmax. destruct (x0 ?= y); auto.
    + assert (Hm : Qmax x0 y <= fold_left Qmax rest (Qmax x0 y))
        by (apply Hle; left; reflexivity).
      intros z [<-|[<-|Hz]].
      * eapply Qle_trans; [apply Q.le_max_l | exact Hm].
      * eapply Qle_trans; [apply Q.le_max_r | exact Hm].
      * apply Hle. right. exact Hz.
Qed.

Lemma series_min_spec (cells : list (option Q)) (lo : Q) :
  series_min cells = Some lo ->
  In lo (dropna cells) /\ forall z, In z (dropna cells) -> lo <= z.
Proof.
  unfold series_min. destruct (dropna cells) as [|x0 rest]; [discriminate|].
  intros [= <-]. apply fold_min_spec.
Qed.

Lemma series_max_spec (cells : list (option Q)) (hi : Q) :
  series_max cells = Some hi ->
  In hi (dropna cells) /\ forall z, In z (dropna cells) -> z <= hi.
Proof.
  unfold series_max. destruct (dropna cells) as [|x0 rest]; [discriminate|].
  intros [= <-]. apply fold_max_spec.
Qed.

Lemma extreme_price_tiers (prices : list (option Q)) (x y : Q) :
  In x (dropna prices) -> In y (dropna prices) ->
  (forall z, In z (dropna prices) -> x <= z /\ z <= y) ->
  x < y ->
  tier_of_price prices (Some x) = Thap
  /\ (tier_of_price prices (Some y) = Trung_binh \/ tier_of_price prices (Some y) = Cao).
Proof.
  intros Hx Hy Hall Hxy.
  assert (Hsome : dropna prices <> []) by (intros E; rewrite E in Hx; destruct Hx).
  destruct (quantile_some (1 # 4) prices Hsome) as [p25 H25].
  destruct (quantile_some (3 # 4) prices Hsome) as [p75 H75].
  destruct (series_min_some prices Hsome) as [lo Hlo].
  destruct (series_max_some prices Hsome) as [hi Hhi].
  destruct (quantile_between _ _ _ x y H25 Hall) as [Hx25 H25y].
  destruct (quantile_between _ _ _ x y H75 Hall) as [Hx75 H75y].
  assert (Hmono : p25 <= p75)
    by (apply (quantile_monotone (1 # 4) (3 # 4) prices); auto; discriminate).
  destruct (series_min_spec _ _ Hlo) as [Hlo_in Hlo_le].
  destruct (series_max_spec _ _ Hhi) as [Hhi_in Hhi_ge].
  assert (Elo : lo == x).
  { apply Qle_antisym; [apply Hlo_le; exact Hx | apply Hall; exact Hlo_in]. }
  assert (Ehi : hi == y).
  { apply Qle_antisym; [apply Hall; exact Hhi_in | apply Hhi_ge; exact Hy]. }
  unfold tier_of_price. rewrite H25, H75, Hlo, Hhi.
  destruct (dropna prices); [congruence|].
  cbn [num_eqb]. destruct (Qeq_bool p25 p75) eqn:Hq.
  - assert (Hne : Qeq_bool lo hi = false).
    { apply Qeq_bool_false. intros E. rewrite Elo, Ehi in E. rewrite E in Hxy.
      apply (Qlt_irrefl _ Hxy). }
    rewrite Hne. unfold split_at_midpoint, midpoint.
    assert (Em : (lo + hi) / 2 == (x + y) * (1 # 2)) by (rewrite Elo, Ehi; field).
    destruct (Qlt_le_dec x ((lo + hi) / 2)) as [Hl|Hl];
      destruct (Qlt_le_dec y ((lo + hi) / 2)) as [Hh|Hh]; auto;
      exfalso; rewrite Em in Hl, Hh; lra.
  - unfold classify_segment, num_leb.
    assert (Hlow : Qle_bool x p25 = true) by (apply Qle_bool_iff; exact Hx25).
    rewrite Hlow. split; [reflexivity|].
    assert (Hhigh : Qle_bool y p25 = false).
    { apply Qle_bool_false. destruct (Qlt_le_dec p25 y) as [Hlt|Hle]; [exact Hlt|].
      exfalso. assert (E : p25 == p75) by (apply Qle_antisym; lra).
      apply Qeq_bool_iff in E. congruence. }
    rewrite Hhigh. destruct (Qle_bool y p75); auto.
Qed.

(** X9: when the prices of a frame are not all equal, [categorize_price_segment]
    makes every row with the lowest price 'Thấp' and every row with the
    highest price 'Trung bình' or 'Cao': at least two tiers are in use. *)
Theorem cheapest_is_low_and_priciest_is_not
  (df : list ProductRow) (r_lo r_hi : ProductRow) (x y : Q) :
  In r_lo df -> In r_hi df -> price r_lo = Some x -> price r_hi = Some y ->
  (forall r z, In r df -> price r = Some z -> x <= z /\ z <= y) ->
  x < y ->
  In (with_segment Thap r_lo) (categorize_price_segment df)
  /\ (In (with_segment Trung_binh r_hi) (categorize_price_segment df)
      \/ In (with_segment Cao r_hi) (categorize_price_segment df)).
Proof.
  intros Hlo Hhi Hx Hy Hall Hxy.
  assert (Hallp : forall z, In z (dropna (map price df)) -> x <= z /\ z <= y).
  { intros z Hz. apply dropna_In in Hz. apply in_map_iff in Hz.
    destruct Hz as (r & Hr & Hin). apply (Hall r z Hin Hr). }
  assert (Hxin : In x (dropna (map price df)))
    by (apply dropna_In; rewrite <- Hx; apply in_map; exact Hlo).
  assert (Hyin : In y (dropna (map price df)))
    by (apply dropna_In; rewrite <- Hy; apply in_map; exact Hhi).
  destruct (extreme_price_tiers _ x y Hxin Hyin Hallp Hxy) as [Tlo Thi].
  rewrite categorize_price_segment_rows. split.
  - apply in_map_iff. exists r_lo. rewrite Hx, Tlo. auto.
  - destruct Thi as [T|T]; [left | right];
      apply in_map_iff; exists r_hi; rewrite Hy, T; auto.
Qed.

(** ** Further properties of the date window *)

Lemma sum_movements_convertible (h : list pyval) :
  forallb convertible_entry h = true ->
  forall a b, exists x y, sum_movements h a b = Some (x, y).
Proof.
  induction h as [|entry rest IH]; intros Hc a b; simpl.
  - exists a, b. reflexivity.
  - simpl in Hc. apply andb_true_iff in Hc. destruct Hc as [He Hrest].
    destruct entry as [| | | | |d]; try (apply IH; exact Hrest).
    simpl in He.
    destruct (py_float (get_or_zero "stock_decreased" d)) as [dec|]; [|discriminate].
    destruct (py_float (get_or_zero "stock_increased" d)) as [inc|]; [|discriminate].
    apply IH. exact Hrest.
Qed.

Lemma sum_movements_not_convertible (h : list pyval) :
  forallb convertible_entry h = false -> forall a b, sum_movements h a b = None.
Proof.
  induction h as [|entry rest IH]; intros Hc a b; simpl in *; [discriminate|].
  destruct entry as [| | | | |d]; try (apply IH; exact Hc).
  simpl in Hc.
  destruct (py_float (get_or_zero "stock_decreased" d)) as [dec|]; [|reflexivity].
  destruct (py_float (get_or_zero "stock_increased" d)) as [inc|]; [|reflexivity].
  apply IH. exact Hc.
Qed.

Lemma apply_recalculate_convertible (start_date end_date : date) (df : list ProductRow) :
  window_convertible start_date end_date df = true ->
  exists result,
    apply_recalculate
      (map (fun r => with_stock_history
                       (filter_stock_history start_date end_date (stock_history r)) r) df)
    = Some result.
Proof.
  unfold window_convertible.
  induction df as [|r rest IH]; simpl; intros Hc.
  - exists []. reflexivity.
  - apply andb_true_iff in Hc. destruct Hc as [Hr Hrest].
    unfold recalculate_metrics. cbn [stock_history with_stock_history].
    destruct (sum_movements_convertible _ Hr 0 0) as (x & y & ->).
    destruct (IH Hrest) as [result ->]. eexists. reflexivity.
Qed.

Lemma apply_recalculate_not_convertible (start_date end_date : date) (df : list ProductRow) :
  window_convertible start_date end_date df = false ->
  apply_recalculate
    (map (fun r => with_stock_history
                     (filter_stock_history start_date end_date (stock_history r)) r) df)
  = None.
Proof.
  unfold window_convertible.
  induction df as [|r rest IH]; simpl; intros Hc; [discriminate|].
  apply andb_false_iff in Hc.
  unfold recalculate_metrics. cbn [stock_history with_stock_history].
  destruct (forallb convertible_entry
              (filter_stock_history start_date end_date (stock_history r))) eqn:Hr.
  - destruct Hc as [Hc|Hc]; [discriminate|].
    destruct (sum_movements _ 0 0) as [[x y]|]; [|reflexivity].
    rewrite (IH Hc). reflexivity.
  - rewrite (sum_movements_not_convertible _ Hr). reflexivity.
Qed.

Lemma filter_by_date_recomputed (df : list ProductRow) (start_date end_date : date) :
  window_convertible start_date end_date df = true ->
  Forall2 (fun r r' =>
             stock_history r' = filter_stock_history start_date end_date (stock_history r)
             /\ recalculate_metrics
                  (with_stock_history
                     (filter_stock_history start_date end_date (stock_history r)) r)
                = Some r')
          df (filter_by_date_range_optimized df start_date end_date).
Proof.
  unfold filter_by_date_range_optimized. intros Hc.
  destruct (apply_recalculate_convertible _ _ _ Hc) as [result Hres].
  destruct df as [|r0 rest]; [constructor|].
  rewrite Hres. apply apply_recalculate_rows in Hres.
  remember (r0 :: rest) as rows eqn:E. clear E Hc.
  revert result Hres. induction rows as [|r rows IH]; intros result Hres.
  - inversion Hres. constructor.
  - simpl in Hres. inversion Hres as [|? r' ? rest' Hr Hrest]; subst.
    constructor; [|apply IH; exact Hrest].
    split; [|exact Hr].
    unfold recalculate_metrics in Hr.
    destruct (sum_movements _ _ _) as [[x y]|]; [|discriminate].
    injection Hr as <-. reflexivity.
Qed.

Lemma filter_by_date_fallback (df : list ProductRow) (start_date end_date : date) :
  window_convertible start_date end_date df = false ->
  filter_by_date_range_optimized df start_date end_date = df.
Proof.
  unfold filter_by_date_range_optimized. intros Hc.
  destruct df as [|r0 rest]; [reflexivity|].
  rewrite (apply_recalculate_not_convertible _ _ _ Hc). reflexivity.
Qed.

(** X10: one quantity that [float] rejects, in any entry that falls in the
    window, switches the window off for the whole frame: the function then
    returns the frame it was given, unfiltered and with the metrics it came
    with.  When every quantity in the window converts, each returned row
    holds the filtered movement list and the metrics recomputed from it. *)
Theorem window_falls_back_on_unconvertible_quantity
  (df : list ProductRow) (start_date end_date : date) :
  (window_convertible start_date end_date df = false ->
   filter_by_date_range_optimized df start_date end_date = df)
  /\ (window_convertible start_date end_date df = true ->
      Forall2 (fun r r' =>
                 stock_history r' = filter_stock_history start_date end_date (stock_history r)
                 /\ recalculate_metrics
                      (with_stock_history
                         (filter_stock_history start_date end_date (stock_history r)) r)
                    = Some r')
              df (filter_by_date_range_optimized df start_date end_date)).
Proof.
  split; [apply filter_by_date_fallback | apply filter_by_date_recomputed].
Qed.

Lemma filter_stock_history_idempotent (start_date end_date : date) (h : list pyval) :
  filter_stock_history start_date end_date (filter_stock_history start_date end_date h)
  = filter_stock_history start_date end_date h.
Proof.
  unfold filter_stock_history. induction h as [|entry rest IH]; simpl; [reflexivity|].
  destruct (in_window start_date end_date entry) eqn:He; simpl; [|exact IH].
  rewrite He, IH. reflexivity.
Qed.

Lemma recalculate_metrics_fixed (start_date end_date : date) (r r' : ProductRow) :
  recalculate_metrics
    (with_stock_history (filter_stock_history start_date end_date (stock_history r)) r)
  = Some r' ->
  recalculate_metrics
    (with_stock_history (filter_stock_history start_date end_date (stock_history r')) r')
  = Some r'.
Proof.
  unfold recalculate_metrics. cbn [stock_history with_stock_history].
  destruct (sum_movements _ 0 0) as [[x y]|] eqn:Hs; [|discriminate].
  intros [= <-]. cbn [stock_history with_stock_history with_metrics].
  rewrite filter_stock_history_idempotent, Hs. reflexivity.
Qed.

Lemma apply_recalculate_fixed (start_date end_date : date) (rows result : list ProductRow) :
  Forall2 (fun r r' => recalculate_metrics r = Some r')
          (map (fun r => with_stock_history
                           (filter_stock_history start_date end_date (stock_history r)) r)
               rows)
          result ->
  apply_recalculate
    (map (fun r => with_stock_history
                     (filter_stock_history start_date end_date (stock_history r)) r)
         result)
  = Some result.
Proof.
  revert result. induction rows as [|r rows IH]; intros result Hres.
  - inversion Hres. reflexivity.
  - simpl in Hres. inversion Hres as [|? r' ? rest' Hr Hrest]; subst.
    simpl. rewrite (recalculate_metrics_fixed _ _ _ _ Hr), (IH _ Hrest). reflexivity.
Qed.

(** X11: applying the same window a second time changes nothing, whether
    the first application recomputed the rows or fell back to its input. *)
Theorem window_is_idempotent (df : list ProductRow) (start_date end_date : date) :
  filter_by_date_range_optimized
    (filter_by_date_range_optimized df start_date end_date) start_date end_date
  = filter_by_date_range_optimized df start_date end_date.
Proof.
  destruct df as [|r0 rest]; [reflexivity|].
  destruct (apply_recalculate
              (map (fun r => with_stock_history
                               (filter_stock_history start_date end_date (stock_history r)) r)
                   (r0 :: rest))) as [result|] eqn:Hres.
  - assert (Hfirst : filter_by_date_range_optimized (r0 :: rest) start_date end_date = result)
      by (unfold filter_by_date_range_optimized; rewrite Hres; reflexivity).
    rewrite Hfirst.
    apply apply_recalculate_rows in Hres.
    apply apply_recalculate_fixed in Hres.
    unfold filter_by_date_range_optimized.
    destruct result as [|r1 result']; [reflexivity|]. rewrite Hres. reflexivity.
  - assert (Hfirst : filter_by_date_range_optimized (r0 :: rest) start_date end_date
                     = r0 :: rest)
      by (unfold filter_by_date_range_optimized; rewrite Hres; reflexivity).
    rewrite !Hfirst. reflexivity.
Qed.

Lemma mongo_total_cons (field : string) (entry : pyval) (h : list pyval) :
  exists c, 0 <= c /\ mongo_total field (entry :: h) == c + mongo_total field h.
Proof.
  unfold mongo_total. simpl.
  destruct (mongo_max_zero _) eqn:Hv;
    try (exists 0; split; [apply Qle_refl | ring]).
  destruct (mongo_ifNull _ _) as [| | q'| | |]; simpl in Hv; try discriminate;
    injection Hv as <-.
  - exists 0. split; [apply Qle_refl | reflexivity].
  - exists (Qmax q' 0). split; [apply Q.le_max_r | reflexivity].
Qed.

Lemma mongo_total_filter_le (field : string) (keep : pyval -> bool) (h : list pyval) :
  mongo_total field (filter keep h) <= mongo_total field h.
Proof.
  induction h as [|entry rest IH]; simpl; [apply Qle_refl|].
  destruct (mongo_total_cons field entry rest) as (c & Hc & Ec).
  destruct (keep entry).
  - destruct (mongo_total_cons field entry (filter keep rest)) as (c' & Hc' & Ec').
    assert (E : c' == c).
    { unfold mongo_total in Ec, Ec'. simpl in Ec, Ec'.
      destruct (mongo_max_zero _); lra. }
    rewrite Ec, Ec', E. lra.
  - rewrite Ec. lra.
Qed.

Lemma mongo_total_firstn_le (field : string) (n : nat) (h : list pyval) :
  mongo_total field (firstn n h) <= mongo_total field h.
Proof.
  revert n. induction h as [|entry rest IH]; intros [|n]; simpl;
    try apply Qle_refl.
  - apply mongo_total_nonneg.
  - destruct (mongo_total_cons field entry rest) as (c & Hc & Ec).
    destruct (mongo_total_cons field entry (firstn n rest)) as (c' & Hc' & Ec').
    assert (E : c' == c).
    { unfold mongo_total in Ec, Ec'. simpl in Ec, Ec'.
      destruct (mongo_max_zero _); lra. }
    specialize (IH n). rewrite Ec, Ec', E. lra.
Qed.

Lemma forallb_filter (A : Type) (P keep : A -> bool) (l : list A) :
  forallb P l = true -> forallb P (filter keep l) = true.
Proof.
  rewrite !forallb_forall. intros H x Hx. apply filter_In in Hx. apply H. tauto.
Qed.

Lemma forallb_firstn (A : Type) (P : A -> bool) (n : nat) (l : list A) :
  forallb P l = true -> forallb P (firstn n l) = true.
Proof.
  revert n. induction l as [|x l IH]; intros [|n] H; try reflexivity.
  simpl in H. apply andb_true_iff in H. destruct H as [Hx Hl].
  change (firstn (S n) (x :: l)) with (x :: firstn n l).
  simpl. rewrite Hx. apply IH. exact Hl.
Qed.

(** X12: for a product whose quantities are whole numbers (or absent) in
    every dict entry of its document and whose lifetime [revenue] and
    [stock_revenue] do not exceed [2^53], whatever the window and whatever
    the dates, the [quantity_sold], [stock_remaining], [revenue] and
    [stock_revenue] that the window recomputes in doubles never exceed the
    lifetime [total_sold], [total_stock_increased], [revenue] and
    [stock_revenue]. *)
Theorem windowed_metrics_bounded_by_lifetime
  (r : RawProduct) (p : Q) (seg : Segment) (df : list ProductRow) (i : nat)
  (start_date end_date : date) :
  let row := with_clustering seg (load_row (mongo_project r p)) in
  nth_error df i = Some row ->
  forallb whole_entry (history_of r) = true ->
  num_le (revenue row) (Some max_exact) ->
  num_le (stock_revenue row) (Some max_exact) ->
  exists row',
    nth_error (filter_by_date_range_optimized_double df start_date end_date) i
    = Some row'
    /\ quantity_sold row' <= total_sold row
    /\ stock_remaining row' <= total_stock_increased row
    /\ num_le (revenue row') (revenue row)
    /\ num_le (stock_revenue row') (stock_revenue row).
Proof.
  intros row Hnth Hw Hrmax Hsmax.
  set (fetched := firstn 100 (history_of r)).
  set (stored := firstn 50 fetched).
  assert (Hwf : forallb whole_entry fetched = true) by (apply forallb_firstn; exact Hw).
  assert (Hws : forallb whole_entry
                        (filter_stock_history start_date end_date stored) = true)
    by (apply forallb_filter; apply forallb_firstn; exact Hwf).
  pose proof (mongo_total_nonneg "stock_decreased" fetched) as Hpx.
  pose proof (mongo_total_nonneg "stock_increased" fetched) as Hpy.
  assert (Hwx : whole (mongo_total "stock_decreased" fetched))
    by (apply mongo_total_whole_entries; auto).
  assert (Hwy : whole (mongo_total "stock_increased" fetched))
    by (apply mongo_total_whole_entries; auto).
  assert (Hprice : whole (Qmax 1000 (round0 p)))
    by (apply whole_max; [apply (whole_inject 1000) | apply whole_inject]).
  pose proof (price_at_least_one p) as Hp1.
  assert (Hsold : total_sold row == mongo_total "stock_decreased" fetched)
    by (apply round0_max_zero; assumption).
  assert (Hstock : total_stock_increased row == mongo_total "stock_increased" fetched)
    by (apply round0_max_zero; assumption).
  assert (Hrev : revenue row
                 = Some (round0 (Qmax 1000 (round0 p)
                                 * Qmax 0 (mongo_total "stock_decreased" fetched))))
    by reflexivity.
  assert (Hsrev : stock_revenue row
                  = Some (round0 (Qmax 1000 (round0 p)
                                  * Qmax 0 (mongo_total "stock_increased" fetched))))
    by reflexivity.
  rewrite Hrev in Hrmax. rewrite Hsrev in Hsmax. cbn [num_le] in Hrmax, Hsmax.
  rewrite <- (round0_revenue _ _ _ Hprice Hpx Hwx (Qeq_refl _)) in Hrmax.
  rewrite <- (round0_revenue _ _ _ Hprice Hpy Hwy (Qeq_refl _)) in Hsmax.
  pose proof (quantity_within_revenue _ _ Hp1 Hpx Hrmax) as Hxmax.
  pose proof (quantity_within_revenue _ _ Hp1 Hpy Hsmax) as Hymax.
  assert (Hxle : mongo_total "stock_decreased"
                             (filter_stock_history start_date end_date stored)
                 <= mongo_total "stock_decreased" fetched).
  { eapply Qle_trans; [apply mongo_total_filter_le|]. apply mongo_total_firstn_le. }
  assert (Hyle : mongo_total "stock_increased"
                             (filter_stock_history start_date end_date stored)
                 <= mongo_total "stock_increased" fetched).
  { eapply Qle_trans; [apply mongo_total_filter_le|]. apply mongo_total_firstn_le. }
  unfold filter_by_date_range_optimized_double.
  destruct df as [|r0 rest]; [destruct i; discriminate|].
  destruct (apply_recalculate_double _) as [result|] eqn:Hres.
  - pose proof (map_nth_error
                  (fun r1 => with_stock_history
                               (filter_stock_history start_date end_date (stock_history r1)) r1)
                  i (r0 :: rest) Hnth) as Hnth'.
    destruct (apply_recalculate_double_nth _ _ _ _ Hres Hnth') as (row' & Hrow' & Hrec).
    exists row'. split; [exact Hrow'|].
    unfold recalculate_metrics_double in Hrec.
    cbn [stock_history with_stock_history] in Hrec.
    change (stock_history row) with stored in Hrec.
    destruct (sum_movements_double_whole _ Hws 0 0
                (whole_inject 0) (whole_inject 0) (Qle_refl 0) (Qle_refl 0))
      as (x & y & Hs & Hx & Hy); [lra | lra |].
    rewrite Hs in Hrec. injection Hrec as <-.
    rewrite Qplus_0_l in Hx, Hy.
    pose proof (mongo_total_nonneg "stock_decreased"
                  (filter_stock_history start_date end_date stored)) as Hx0.
    pose proof (mongo_total_nonneg "stock_increased"
                  (filter_stock_history start_date end_date stored)) as Hy0.
    assert (Hwx' : whole x).
    { apply (whole_comp _ _ (Qeq_sym _ _ Hx)). apply mongo_total_whole_entries; auto. }
    assert (Hwy' : whole y).
    { apply (whole_comp _ _ (Qeq_sym _ _ Hy)). apply mongo_total_whole_entries; auto. }
    cbn [quantity_sold stock_remaining revenue stock_revenue with_metrics_double
         with_stock_history price].
    split; [rewrite Hsold, Hx; exact Hxle|].
    split; [rewrite Hstock, Hy; exact Hyle|].
    rewrite Hrev, Hsrev.
    change (price row) with (Some (Qmax 1000 (round0 p))).
    cbn [num_mul_double num_le].
    split.
    + rewrite (windowed_revenue_exact _ (mongo_total "stock_decreased" fetched));
        try assumption; try (rewrite Hx; assumption).
      rewrite <- (round0_revenue _ _ _ Hprice Hpx Hwx (Qeq_refl _)).
      rewrite !(Qmult_comm (Qmax 1000 (round0 p))).
      apply Qmult_le_compat_r; [rewrite Hx; exact Hxle | lra].
    + rewrite (windowed_revenue_exact _ (mongo_total "stock_increased" fetched));
        try assumption; try (rewrite Hy; assumption).
      rewrite <- (round0_revenue _ _ _ Hprice Hpy Hwy (Qeq_refl _)).
      rewrite !(Qmult_comm (Qmax 1000 (round0 p))).
      apply Qmult_le_compat_r; [rewrite Hy; exact Hyle | lra].
  - exists row. split; [exact Hnth|].
    split; [apply Qle_refl|]. split; [apply Qle_refl|].
    rewrite Hrev, Hsrev. cbn [num_le]. split; apply Qle_refl.
Qed.

(** ** The overview figures *)

Lemma idxmax_spec (f : ProductRow -> Q) (rows : list ProductRow) :
  forall best,
    In (idxmax f best rows) (best :: rows)
    /\ forall r, In r (best :: rows) -> f r <= f (idxmax f best rows).
Proof.
  induction rows as [|r0 rows IH]; intros best; simpl.
  - split; [auto|]. intros r [<-|[]]. apply Qle_refl.
  - destruct (Qlt_le_dec (f best) (f r0)) as [Hlt|Hle].
    + destruct (IH r0) as [Hin Hmax]. split.
      * destruct Hin as [Hin|Hin]; auto.
      * assert (Hr0 : f r0 <= f (idxmax f r0 rows)) by (apply Hmax; left; reflexivity).
        intros r [<-|[<-|Hr]].
        -- apply Qlt_le_weak in Hlt. eapply Qle_trans; eassumption.
        -- exact Hr0.
        -- apply Hmax. right. exact Hr.
    + destruct (IH best) as [Hin Hmax]. split.
      * destruct Hin as [Hin|Hin]; auto.
      * assert (Hb : f best <= f (idxmax f best rows)) by (apply Hmax; left; reflexivity).
        intros r [<-|[<-|Hr]].
        -- exact Hb.
        -- eapply Qle_trans; eassumption.
        -- apply Hmax. right. exact Hr.
Qed.

Lemma series_sum_le_bound (f : ProductRow -> Q) (rows : list ProductRow) (m : Q) :
  (forall r, In r rows -> f r <= m) ->
  series_sum (map f rows) <= inject_Z (Z.of_nat (List.length rows)) * m.
Proof.
  induction rows as [|r rows IH]; intros H.
  - change (0 <= 0 * m). rewrite Qmult_0_l. apply Qle_refl.
  - change (List.length (r :: rows)) with (S (List.length rows)).
    rewrite Nat2Z.inj_succ, <- Z.add_1_r, inject_Z_plus.
    change (inject_Z 1) with 1. simpl map. simpl series_sum.
    assert (f r <= m) by (apply H; left; reflexivity).
    assert (series_sum (map f rows) <= inject_Z (Z.of_nat (List.length rows)) * m)
      by (apply IH; intros; apply H; right; assumption).
    lra.
Qed.

(** X13: when the total of the mode's quantity column is positive, the
    fourth tile names a row of the frame whose quantity is positive and at
    least that of every other row; when the total is 0 or less, or the frame
    is empty, the tile shows "N/A". *)
Theorem top_product_has_largest_quantity
  (filtered_df : list ProductRow) (display_mode : DisplayMode) :
  (0 < series_sum (map (mode_quantity display_mode) filtered_df) ->
   exists r,
     In r filtered_df
     /\ top_product filtered_df display_mode = name r
     /\ 0 < mode_quantity display_mode r
     /\ forall r', In r' filtered_df ->
                   mode_quantity display_mode r' <= mode_quantity display_mode r)
  /\ (series_sum (map (mode_quantity display_mode) filtered_df) <= 0 ->
      top_product filtered_df display_mode = "N/A"%string).
Proof.
  unfold top_product. split.
  - intros Hpos. destruct filtered_df as [|r0 rest]; [discriminate Hpos|].
    destruct (Qlt_le_dec 0 _) as [_|Hle]; [|exfalso; apply (Qlt_not_le _ _ Hpos Hle)].
    destruct (idxmax_spec (mode_quantity display_mode) rest r0) as [Hin Hmax].
    exists (idxmax (mode_quantity display_mode) r0 rest).
    split; [exact Hin|]. split; [reflexivity|]. split; [|exact Hmax].
    destruct (Qlt_le_dec 0 (mode_quantity display_mode
                              (idxmax (mode_quantity display_mode) r0 rest)))
      as [Hlt|Hneg]; [exact Hlt|].
    exfalso.
    pose proof (series_sum_le_bound (mode_quantity display_mode) (r0 :: rest) _ Hmax) as Hb.
    assert (Hn : 0 <= inject_Z (Z.of_nat (List.length (r0 :: rest)))).
    { change 0 with (inject_Z 0). rewrite <- Zle_Qle. lia. }
    nra.
  - intros Hle. destruct filtered_df as [|r0 rest]; [reflexivity|].
    destruct (Qlt_le_dec 0 _) as [Hpos|_]; [|reflexivity].
    exfalso. apply (Qlt_not_le _ _ Hpos Hle).
Qed.

Lemma series_sum_bounds (xs : list Q) (lo hi : Q) :
  (forall x, In x xs -> lo <= x /\ x <= hi) ->
  inject_Z (Z.of_nat (List.length xs)) * lo <= series_sum xs
  /\ series_sum xs <= inject_Z (Z.of_nat (List.length xs)) * hi.
Proof.
  induction xs as [|x xs IH]; intros H.
  - change (0 * lo <= 0 /\ 0 <= 0 * hi). rewrite !Qmult_0_l. split; apply Qle_refl.
  - change (List.length (x :: xs)) with (S (List.length xs)).
    rewrite Nat2Z.inj_succ, <- Z.add_1_r, inject_Z_plus.
    change (inject_Z 1) with 1. simpl series_sum.
    destruct (H x (or_introl eq_refl)) as [Hlo Hhi].
    destruct IH as [IHlo IHhi]; [intros; apply H; right; assumption|].
    split; lra.
Qed.

Lemma series_mean_bounds (cells : list (option Q)) (lo hi : Q) :
  dropna cells <> [] ->
  (forall x, In x (dropna cells) -> lo <= x /\ x <= hi) ->
  exists a, series_mean cells = Some a /\ lo <= a /\ a <= hi.
Proof.
  intros Hsome Hall. unfold series_mean.
  destruct (series_sum_bounds _ _ _ Hall) as [Hlo Hhi].
  destruct (dropna cells) as [|x xs] eqn:E; [congruence|].
  eexists. split; [reflexivity|].
  assert (Hn : 0 < inject_Z (Z.of_nat (List.length (x :: xs)))).
  { change 0 with (inject_Z 0). rewrite <- Zlt_Qlt. simpl. lia. }
  split.
  - apply Qle_shift_div_l; [exact Hn|]. rewrite Qmult_comm. exact Hlo.
  - apply Qle_shift_div_r; [exact Hn|]. rewrite Qmult_comm. exact Hhi.
Qed.

(** X14: the average price of the overview is taken over the rows that
    count for the mode only (a positive [quantity_sold] in sales mode, a
    positive [stock_revenue] otherwise).  When no row counts it is 0; when
    some do and their prices lie between two bounds, so does the average. *)
Theorem average_price_between_prices
  (filtered_df : list ProductRow) (display_mode : DisplayMode) (lo hi : Q) :
  (forall r, In r filtered_df -> counted_for_average display_mode r = true ->
             exists p, price r = Some p /\ lo <= p /\ p <= hi) ->
  match filter (counted_for_average display_mode) filtered_df with
  | [] => k_avg_price (kpi_metrics filtered_df display_mode) = Some 0
  | _ => exists a, k_avg_price (kpi_metrics filtered_df display_mode) = Some a
                   /\ lo <= a /\ a <= hi
  end.
Proof.
  intros Hprices. unfold kpi_metrics.
  destruct filtered_df as [|r0 rest]; [reflexivity|].
  cbn [k_avg_price].
  destruct (filter (counted_for_average display_mode) (r0 :: rest)) as [|c counted] eqn:E;
    [reflexivity|].
  assert (Hc : forall r, In r (c :: counted) ->
                         exists p, price r = Some p /\ lo <= p /\ p <= hi).
  { intros r Hr. rewrite <- E in Hr. apply filter_In in Hr. apply Hprices; tauto. }
  apply series_mean_bounds.
  - destruct (Hc c (or_introl eq_refl)) as (p & Hp & _).
    simpl. rewrite Hp. discriminate.
  - intros x Hx. apply dropna_In in Hx. apply in_map_iff in Hx.
    destruct Hx as (r & Hr & Hin). destruct (Hc r Hin) as (p & Hp & Hb).
    rewrite Hp in Hr. injection Hr as <-. exact Hb.
Qed.

Lemma categorize_keeps_columns (f : ProductRow -> Q) (df : list ProductRow) :
  (forall seg r, f (with_segment seg r) = f r) ->
  map f (categorize_price_segment df) = map f df.
Proof.
  intros Hf. rewrite categorize_price_segment_rows, map_map.
  apply map_ext. intros r. apply Hf.
Qed.

Lemma series_sum_nonneg (A : Type) (f : A -> Q) (rows : list A) :
  (forall r, In r rows -> 0 <= f r) -> 0 <= series_sum (map f rows).
Proof.
  induction rows as [|r rows IH]; intros H; simpl; [apply Qle_refl|].
  assert (0 <= f r) by (apply H; left; reflexivity).
  assert (0 <= series_sum (map f rows)) by (apply IH; intros; apply H; right; assumption).
  lra.
Qed.

Lemma series_sum_filter_le (A : Type) (f : A -> Q) (keep : A -> bool)
  (rows : list A) :
  (forall r, In r rows -> 0 <= f r) ->
  series_sum (map f (filter keep rows)) <= series_sum (map f rows).
Proof.
  induction rows as [|r rows IH]; intros H; simpl; [apply Qle_refl|].
  assert (0 <= f r) by (apply H; left; reflexivity).
  assert (series_sum (map f (filter keep rows)) <= series_sum (map f rows))
    by (apply IH; intros; apply H; right; assumption).
  destruct (keep r); simpl; lra.
Qed.

Lemma series_sum_map_eq (A : Type) (f g : A -> Q) (l : list A) :
  (forall k, In k l -> f k == g k) ->
  series_sum (map f l) == series_sum (map g l).
Proof.
  induction l as [|k l IH]; intros H; simpl; [reflexivity|].
  rewrite (H k (or_introl eq_refl)), IH; [reflexivity|].
  intros k' Hk'. apply H. right. exact Hk'.
Qed.

Lemma whole_series_sum (xs : list Q) :
  Forall (fun x => whole_amount x) xs -> whole_amount (series_sum xs).
Proof.
  induction 1 as [|x xs [Hw Hx] _ [IHw IH0]]; simpl.
  - split; [apply (whole_inject 0) | apply Qle_refl].
  - split; [apply whole_plus; assumption | lra].
Qed.

(** A column of non-negative whole numbers whose sum stays within
    [max_exact]: the sums of the groups and the sum of these sums, all
    accumulated in doubles, are the exact ones. *)
Lemma group_sums_double_exact (f : ProductRow -> Q) (df : list ProductRow) :
  (forall r, In r df -> whole_amount (f r)) ->
  series_sum (map f df) <= max_exact ->
  (forall seg,
     series_sum_double (map f (group_of seg df)) == series_sum (map f (group_of seg df)))
  /\ series_sum_double
       (map (fun seg => series_sum_double (map f (group_of seg df))) (tiers_present df))
     == series_sum (map f df)
  /\ series_sum_double (map f df) == series_sum (map f df).
Proof.
  intros Hw Hmax.
  assert (Hpos : forall r, In r df -> 0 <= f r) by (intros r Hr; apply Hw; exact Hr).
  assert (Hall : Forall (fun x => whole x /\ 0 <= x) (map f df)).
  { apply Forall_map, Forall_forall. intros r Hr. apply Hw. exact Hr. }
  assert (Hgroup : forall seg,
             series_sum_double (map f (group_of seg df))
             == series_sum (map f (group_of seg df))).
  { intros seg. apply series_sum_double_exact.
    - apply Forall_map, Forall_forall. intros r Hr. apply filter_In in Hr.
      apply Hw. tauto.
    - eapply Qle_trans; [apply series_sum_filter_le; exact Hpos | exact Hmax]. }
  split; [exact Hgroup|]. split; [|apply series_sum_double_exact; assumption].
  assert (Hsums : series_sum
                    (map (fun seg => series_sum_double (map f (group_of seg df)))
                         (tiers_present df))
                  == series_sum (map f df)).
  { rewrite <- (tiers_present_total f df).
    apply series_sum_map_eq. intros seg _. apply Hgroup. }
  rewrite series_sum_double_exact; [exact Hsums | | rewrite Hsums; exact Hmax].
  apply Forall_map, Forall_forall. intros seg _.
  assert (Hg : whole_amount (series_sum (map f (group_of seg df)))).
  { apply whole_series_sum. apply Forall_map, Forall_forall. intros r Hr.
    apply filter_In in Hr. apply Hw. tauto. }
  destruct Hg as [Hg0 Hg1].
  split; [apply (whole_comp _ _ (Qeq_sym _ _ (Hgroup seg))); exact Hg0|].
  rewrite Hgroup. exact Hg1.
Qed.

Lemma categorize_keeps_values (f : ProductRow -> Q) (P : Q -> Prop)
  (df : list ProductRow) :
  (forall seg r, f (with_segment seg r) = f r) ->
  (forall r, In r df -> P (f r)) ->
  forall r, In r (categorize_price_segment df) -> P (f r).
Proof.
  intros Hf HP r Hr. rewrite categorize_price_segment_rows in Hr.
  apply in_map_iff in Hr. destruct Hr as (r0 & <- & Hr0).
  rewrite Hf. apply HP. exact Hr0.
Qed.

(** X15: the totals of the segment rollup agree with the overview figures,
    although the rollup is computed after the rows were classified again.
    For a frame whose two columns of the mode hold non-negative whole
    numbers with sums up to [2^53], where no addition of doubles rounds, the
    revenues of the rollup rows add up to the overview's total revenue
    (total stock revenue in inventory mode) and their quantities to its
    total quantity (total stock); both are the exact sums over the rows. *)
Theorem rollup_totals_match_overview
  (df : list ProductRow) (display_mode : DisplayMode) :
  (forall r, In r df ->
             whole_amount (mode_revenue display_mode r)
             /\ whole_amount (mode_quantity display_mode r)) ->
  series_sum (map (mode_revenue display_mode) df) <= max_exact ->
  series_sum (map (mode_quantity display_mode) df) <= max_exact ->
  let rollup :=
    calculate_segment_analysis_double (categorize_price_segment df) display_mode in
  let overview := kpi_metrics_double df display_mode in
  let total_revenue :=
    match display_mode with
    | Ban_hang => k_total_revenue overview
    | Ton_kho => k_total_stock_revenue overview
    end in
  let total_quantity :=
    match display_mode with
    | Ban_hang => k_total_quantity overview
    | Ton_kho => k_total_stock overview
    end in
  series_sum_double (map s_revenue rollup) == total_revenue
  /\ series_sum_double (map s_quantity_sold rollup) == total_quantity
  /\ total_revenue == series_sum (map (mode_revenue display_mode) df)
  /\ total_quantity == series_sum (map (mode_quantity display_mode) df).
Proof.
  intros Hw Hrmax Hqmax rollup overview total_revenue total_quantity.
  assert (Er : map (mode_revenue display_mode) (categorize_price_segment df)
               = map (mode_revenue display_mode) df)
    by (apply categorize_keeps_columns; intros; destruct display_mode; reflexivity).
  assert (Eq : map (mode_quantity display_mode) (categorize_price_segment df)
               = map (mode_quantity display_mode) df)
    by (apply categorize_keeps_columns; intros; destruct display_mode; reflexivity).
  destruct (group_sums_double_exact (mode_revenue display_mode)
              (categorize_price_segment df)) as (_ & Hr & _).
  { apply categorize_keeps_values;
      [intros; destruct display_mode; reflexivity | intros r Hr; apply Hw; exact Hr]. }
  { rewrite Er. exact Hrmax. }
  destruct (group_sums_double_exact (mode_quantity display_mode)
              (categorize_price_segment df)) as (_ & Hq & _).
  { apply categorize_keeps_values;
      [intros; destruct display_mode; reflexivity | intros r Hr'; apply Hw; exact Hr']. }
  { rewrite Eq. exact Hqmax. }
  destruct (group_sums_double_exact (mode_revenue display_mode) df) as (_ & _ & Kr);
    [intros r Hr'; apply Hw; exact Hr' | exact Hrmax |].
  destruct (group_sums_double_exact (mode_quantity display_mode) df) as (_ & _ & Kq);
    [intros r Hr'; apply Hw; exact Hr' | exact Hqmax |].
  rewrite Er in Hr. rewrite Eq in Hq.
  assert (Tr : total_revenue == series_sum (map (mode_revenue display_mode) df)).
  { subst total_revenue overview. unfold kpi_metrics_double.
    destruct df as [|r0 rest]; [destruct display_mode; reflexivity|].
    destruct display_mode; exact Kr. }
  assert (Tq : total_quantity == series_sum (map (mode_quantity display_mode) df)).
  { subst total_quantity overview. unfold kpi_metrics_double.
    destruct df as [|r0 rest]; [destruct display_mode; reflexivity|].
    destruct display_mode; exact Kq. }
  subst rollup.
  rewrite calculate_segment_analysis_double_spec, !map_map.
  cbn [s_revenue s_quantity_sold summary_of_double].
  unfold group_revenue_double, group_quantity_double.
  split; [rewrite Hr, Tr; reflexivity|].
  split; [rewrite Hq, Tq; reflexivity|].
  split; assumption.
Qed.



(** ** The daily chart *)

Lemma date_eqb_eq (a b : date) : date_eqb a b = true <-> a = b.
Proof.
  unfold date_eqb. destruct a, b. cbn [year month day].
  rewrite !andb_true_iff, !Z.eqb_eq. split.
  - intros [[-> ->] ->]. reflexivity.
  - intros [= -> -> ->]. auto.
Qed.

Lemma date_lt_trans (a b c : date) : date_lt a b -> date_lt b c -> date_lt a c.
Proof.
  intros [Hab Nab] [Hbc Nbc]. split.
  - eapply date_leb_trans; eassumption.
  - intros ->. apply Nab. apply date_leb_antisym; assumption.
Qed.

Lemma insert_date_In (d x : date) (l : list date) :
  StronglySorted date_lt l -> (In x (insert_date d l) <-> x = d \/ In x l).
Proof.
  induction 1 as [|y l Hl IH Hy]; simpl; [intuition|].
  destruct (date_leb d y) eqn:Hdy.
  - destruct (date_eqb d y) eqn:E; simpl; [|intuition].
    apply date_eqb_eq in E. subst y. intuition.
  - simpl. rewrite IH. intuition.
Qed.

Lemma insert_date_sorted (d : date) (l : list date) :
  StronglySorted date_lt l -> StronglySorted date_lt (insert_date d l).
Proof.
  induction 1 as [|y l Hl IH Hy]; simpl.
  - constructor; constructor.
  - destruct (date_leb d y) eqn:Hdy.
    + destruct (date_eqb d y) eqn:E; [constructor; assumption|].
      assert (Hlt : date_lt d y).
      { split; [exact Hdy|]. intros ->.
        rewrite (proj2 (date_eqb_eq y y) eq_refl) in E. discriminate. }
      constructor; [constructor; assumption|].
      constructor; [exact Hlt|].
      rewrite Forall_forall in *. intros z Hz. eapply date_lt_trans; [exact Hlt | auto].
    + assert (Hlt : date_lt y d).
      { split; [apply date_leb_total; exact Hdy|]. intros ->.
        rewrite date_leb_refl in Hdy. discriminate. }
      constructor; [exact IH|].
      rewrite Forall_forall in *. intros z Hz.
      apply (insert_date_In d z l Hl) in Hz. destruct Hz as [->|Hz]; auto.
Qed.

Lemma sorted_dates_sorted (ds : list date) : StronglySorted date_lt (sorted_dates ds).
Proof.
  induction ds as [|d ds IH]; simpl; [constructor | apply insert_date_sorted; exact IH].
Qed.

Lemma sorted_dates_In (x : date) (ds : list date) : In x (sorted_dates ds) <-> In x ds.
Proof.
  induction ds as [|d ds IH]; simpl; [tauto|].
  rewrite (insert_date_In d x _ (sorted_dates_sorted ds)), IH. intuition.
Qed.

Lemma daily_record_in_window (start_date end_date : date) (row : ProductRow)
  (entry : pyval) (record : DailyRecord) :
  daily_record start_date end_date row entry = Some record ->
  date_leb start_date (d_date record) = true
  /\ date_leb (d_date record) end_date = true
  /\ daily_entry_date entry = Some (d_date record)
  /\ 0 <= d_quantity_sold record /\ 0 <= d_stock_remaining record
  /\ d_name record = name row.
Proof.
  unfold daily_record. destruct entry as [| | | | |d]; try discriminate.
  destruct (daily_entry_date (PDict d)) as [entry_date|]; [|discriminate].
  destruct (date_leb start_date entry_date && date_leb entry_date end_date)%bool eqn:Hw;
    [|discriminate].
  destruct (py_float (get_or_zero "stock_decreased" d)) as [dec|]; [|discriminate].
  destruct (py_float (get_or_zero "stock_increased" d)) as [inc|]; [|discriminate].
  intros [= <-]. cbn. apply andb_true_iff in Hw.
  repeat split; try tauto; apply Q.le_max_l.
Qed.

Lemma daily_of_history_In (start_date end_date : date) (row : ProductRow)
  (h : list pyval) (record : DailyRecord) :
  In record (daily_of_history start_date end_date row h)
  <-> exists entry, In entry h /\ daily_record start_date end_date row entry = Some record.
Proof.
  induction h as [|entry rest IH]; simpl.
  - split; [tauto | intros (? & [] & _)].
  - destruct (daily_record start_date end_date row entry) as [rec|] eqn:E; simpl;
      rewrite IH; split.
    + intros [<-|(e' & ? & ?)]; [exists entry | exists e']; auto.
    + intros (e' & [<-|Hin] & He'); [left; congruence | right; exists e'; auto].
    + intros (e' & ? & ?). exists e'. auto.
    + intros (e' & [<-|Hin] & He'); [congruence | exists e'; auto].
Qed.

Lemma daily_data_In (start_date end_date : date) (df : list ProductRow)
  (record : DailyRecord) :
  In record (daily_data start_date end_date df)
  <-> exists row entry,
        In row df /\ In entry (stock_history row)
        /\ daily_record start_date end_date row entry = Some record.
Proof.
  unfold daily_data. rewrite in_flat_map. split.
  - intros (row & Hrow & Hrec). apply daily_of_history_In in Hrec.
    destruct Hrec as (entry & He & Hr). exists row, entry. auto.
  - intros (row & entry & Hrow & He & Hr). exists row. split; [exact Hrow|].
    apply daily_of_history_In. exists entry. auto.
Qed.

(** X17: the rows of the daily chart are in strictly ascending order of
    date, one row per date; every date of the chart lies in the window and
    is the date of a movement entry of a row of the frame (of the selected
    product when one is selected); and no quantity of the chart is negative. *)
Theorem daily_chart_dates_sorted_in_window
  (start_date end_date : date) (filtered_df : list ProductRow)
  (selected_product : option string) (display_mode : DisplayMode) :
  StronglySorted date_lt
    (map a_date (daily_chart start_date end_date filtered_df selected_product display_mode))
  /\ Forall (fun agg =>
               date_leb start_date (a_date agg) = true
               /\ date_leb (a_date agg) end_date = true
               /\ 0 <= a_quantity agg
               /\ exists row entry,
                    In row filtered_df /\ In entry (stock_history row)
                    /\ daily_entry_date entry = Some (a_date agg)
                    /\ match selected_product with
                       | Some v => name row = v
                       | None => True
                       end)
            (daily_chart start_date end_date filtered_df selected_product display_mode).
Proof.
  unfold daily_chart, daily_agg.
  set (daily_df := match selected_product with
                   | None => daily_data start_date end_date filtered_df
                   | Some v => filter _ (daily_data start_date end_date filtered_df)
                   end).
  assert (Hdf : forall record, In record daily_df ->
                  exists row entry,
                    In row filtered_df /\ In entry (stock_history row)
                    /\ daily_record start_date end_date row entry = Some record
                    /\ match selected_product with
                       | Some v => name row = v
                       | None => True
                       end).
  { intros record Hin. subst daily_df. destruct selected_product as [v|].
    - apply filter_In in Hin. destruct Hin as [Hin Hv].
      apply daily_data_In in Hin. destruct Hin as (row & entry & Hrow & He & Hr).
      exists row, entry. repeat split; auto.
      destruct (daily_record_in_window _ _ _ _ _ Hr) as (_ & _ & _ & _ & _ & Hn).
      rewrite <- Hn. apply String.eqb_eq. exact Hv.
    - apply daily_data_In in Hin. destruct Hin as (row & entry & Hrow & He & Hr).
      exists row, entry. auto. }
  split.
  - rewrite map_map. cbn [a_date]. rewrite map_id. apply sorted_dates_sorted.
  - apply Forall_forall. intros agg Hin. apply in_map_iff in Hin.
    destruct Hin as (key & <- & Hkey). cbn [a_date a_quantity].
    apply (proj1 (sorted_dates_In _ _)) in Hkey. apply in_map_iff in Hkey.
    destruct Hkey as (record & <- & Hrec).
    destruct (Hdf record Hrec) as (row & entry & Hrow & He & Hr & Hsel).
    destruct (daily_record_in_window _ _ _ _ _ Hr) as (H1 & H2 & H3 & _).
    split; [exact H1|]. split; [exact H2|]. split.
    + clear - Hdf. induction daily_df as [|rec rest IH]; simpl; [apply Qle_refl|].
      assert (IH' : 0 <= series_sum
                           (map (daily_quantity display_mode)
                                (filter (fun r0 => date_eqb (d_date r0) (d_date record)) rest)))
        by (apply IH; intros; apply Hdf; right; assumption).
      destruct (date_eqb (d_date rec) (d_date record)); [|exact IH'].
      simpl. destruct (Hdf rec (or_introl eq_refl)) as (row & entry & _ & _ & Hr & _).
      destruct (daily_record_in_window _ _ _ _ _ Hr) as (_ & _ & _ & Hq & Hs & _).
      destruct display_mode; simpl; lra.
    + exists row, entry. auto.
Qed.

Lemma series_sum_app (xs ys : list Q) :
  series_sum (xs ++ ys) == series_sum xs + series_sum ys.
Proof.
  induction xs as [|x xs IH]; simpl; [ring | rewrite IH; ring].
Qed.

Lemma series_sum_map_plus (A : Type) (f g : A -> Q) (l : list A) :
  series_sum (map (fun k => f k + g k) l)
  == series_sum (map f l) + series_sum (map g l).
Proof.
  induction l as [|k l IH]; simpl; [ring | rewrite IH; ring].
Qed.

Lemma sorted_dates_NoDup (keys : list date) :
  StronglySorted date_lt keys -> NoDup keys.
Proof.
  induction 1 as [|k keys Hs IH Hk]; constructor; [|exact IH].
  intros Hin. rewrite Forall_forall in Hk. destruct (Hk k Hin) as [_ Hne].
  apply Hne. reflexivity.
Qed.

Lemma key_sum_absent (d : date) (v : Q) (keys : list date) :
  ~ In d keys ->
  series_sum (map (fun k => if date_eqb d k then v else 0) keys) == 0.
Proof.
  induction keys as [|k keys IH]; intros Hnot; simpl; [reflexivity|].
  destruct (date_eqb d k) eqn:E.
  - apply date_eqb_eq in E. exfalso. apply Hnot. left. congruence.
  - rewrite IH; [ring|]. intros Hin. apply Hnot. right. exact Hin.
Qed.

Lemma key_sum_present (d : date) (v : Q) (keys : list date) :
  NoDup keys -> In d keys ->
  series_sum (map (fun k => if date_eqb d k then v else 0) keys) == v.
Proof.
  induction 1 as [|k keys Hk Hnd IH]; intros Hin; [destruct Hin|]. simpl.
  destruct (date_eqb d k) eqn:E.
  - apply date_eqb_eq in E. subst k. rewrite key_sum_absent; [ring | exact Hk].
  - destruct Hin as [->|Hin].
    + rewrite (proj2 (date_eqb_eq d d) eq_refl) in E. discriminate.
    + rewrite (IH Hin). ring.
Qed.

Lemma groups_by_date_partition (f : DailyRecord -> Q) (keys : list date)
  (records : list DailyRecord) :
  NoDup keys -> (forall record, In record records -> In (d_date record) keys) ->
  series_sum
    (map (fun key =>
            series_sum (map f (filter (fun record => date_eqb (d_date record) key) records)))
         keys)
  == series_sum (map f records).
Proof.
  intros Hnd. induction records as [|rec rest IH]; intros Hkeys.
  - simpl. clear. induction keys as [|k keys IH]; simpl; [reflexivity | rewrite IH; ring].
  - assert (IH' := IH (fun record Hin => Hkeys record (or_intror Hin))).
    pose proof (key_sum_present (d_date rec) (f rec) keys Hnd
                  (Hkeys rec (or_introl eq_refl))) as Hk.
    transitivity
      (series_sum
         (map (fun key =>
                 (if date_eqb (d_date rec) key then f rec else 0)
                 + series_sum
                     (map f (filter (fun record => date_eqb (d_date record) key) rest)))
              keys)).
    + apply series_sum_map_eq. intros k _. simpl.
      destruct (date_eqb (d_date rec) k); simpl; ring.
    + rewrite series_sum_map_plus, Hk, IH'. reflexivity.
Qed.

Lemma in_window_daily_date (start_date end_date : date) (d : list (string * pyval)) :
  in_window start_date end_date (PDict d) = true ->
  exists entry_date,
    daily_entry_date (PDict d) = Some entry_date
    /\ (date_leb start_date entry_date && date_leb entry_date end_date)%bool = true.
Proof.
  unfold in_window, parse_entry_date, daily_entry_date, entry_date_field.
  destruct (dict_get "date" d) as [[| | |s| |]|]; try discriminate.
  destruct (strptime_ymd s) as [entry_date|]; [|discriminate].
  intros H. exists entry_date. auto.
Qed.

Lemma filter_in_window (start_date end_date : date) (h : list pyval) :
  forallb (in_window start_date end_date) (filter_stock_history start_date end_date h)
  = true.
Proof.
  apply forallb_forall. intros entry Hin. apply filter_In in Hin. tauto.
Qed.

Lemma in_window_is_dict (start_date end_date : date) (entry : pyval) :
  in_window start_date end_date entry = true -> exists d, entry = PDict d.
Proof.
  destruct entry as [| | | | |d]; try discriminate. intros _. exists d. reflexivity.
Qed.

Lemma daily_record_double_of_window_entry (start_date end_date : date)
  (row : ProductRow) (d : list (string * pyval)) (dec inc : Q) :
  in_window start_date end_date (PDict d) = true ->
  py_float_double (get_or_zero "stock_decreased" d) = Some dec ->
  py_float_double (get_or_zero "stock_increased" d) = Some inc ->
  exists record,
    daily_record_double start_date end_date row (PDict d) = Some record
    /\ d_quantity_sold record = Qmax 0 dec
    /\ d_stock_remaining record = Qmax 0 inc.
Proof.
  intros He Hdec Hinc.
  destruct (in_window_daily_date _ _ _ He) as (entry_date & Hd & Hin).
  unfold daily_record_double. rewrite Hd, Hin, Hdec, Hinc.
  eexists. split; [reflexivity|]. split; reflexivity.
Qed.

(** The records of one row whose movement list lies in the window and holds
    whole quantities: their quantities are whole, and they add up to the
    totals of the movement list. *)
Lemma daily_of_history_double_whole (start_date end_date : date) (row : ProductRow)
  (h : list pyval) :
  forallb (in_window start_date end_date) h = true ->
  forallb whole_entry h = true ->
  mongo_total "stock_decreased" h <= max_exact ->
  mongo_total "stock_increased" h <= max_exact ->
  Forall (fun record => whole_amount (d_quantity_sold record)
                        /\ whole_amount (d_stock_remaining record))
         (daily_of_history_double start_date end_date row h)
  /\ series_sum (map d_quantity_sold (daily_of_history_double start_date end_date row h))
     == mongo_total "stock_decreased" h
  /\ series_sum (map d_stock_remaining (daily_of_history_double start_date end_date row h))
     == mongo_total "stock_increased" h.
Proof.
  induction h as [|entry rest IH]; intros Hin Hw Hd Hi.
  - simpl. split; [constructor|]. split; reflexivity.
  - simpl in Hin, Hw.
    apply andb_true_iff in Hin. destruct Hin as [He Hin].
    apply andb_true_iff in Hw. destruct Hw as [Hwe Hw].
    destruct (in_window_is_dict _ _ _ He) as [d ->].
    simpl in Hwe. apply andb_true_iff in Hwe. destruct Hwe as [Hdec Hinc].
    pose proof (mongo_total_split "stock_decreased" (PDict d) rest) as Sd.
    pose proof (mongo_total_split "stock_increased" (PDict d) rest) as Si.
    pose proof (mongo_total_nonneg "stock_decreased" rest) as Pd.
    pose proof (mongo_total_nonneg "stock_increased" rest) as Pi.
    pose proof (mongo_total_nonneg "stock_decreased" [PDict d]) as Cd.
    pose proof (mongo_total_nonneg "stock_increased" [PDict d]) as Ci.
    rewrite Sd in Hd. rewrite Si in Hi.
    destruct (float_quantity_whole "stock_decreased" d Hdec) as (dec & Fd & Ed); [lra|].
    destruct (float_quantity_whole "stock_increased" d Hinc) as (inc & Fi & Ei); [lra|].
    destruct (daily_record_double_of_window_entry _ _ row _ _ _ He Fd Fi)
      as (record & Hrec & Hq & Hs).
    change (daily_of_history_double start_date end_date row (PDict d :: rest))
      with (match daily_record_double start_date end_date row (PDict d) with
            | Some record =>
                record :: daily_of_history_double start_date end_date row rest
            | None => daily_of_history_double start_date end_date row rest
            end).
    rewrite Hrec.
    destruct (IH Hin Hw) as (IHw & IHq & IHs); [lra | lra |].
    split; [|split].
    + constructor; [|exact IHw]. rewrite Hq, Hs. split; split.
      * apply (whole_comp _ _ (Qeq_sym _ _ Ed)). apply mongo_total_whole_quantity.
        exact Hdec.
      * apply Q.le_max_l.
      * apply (whole_comp _ _ (Qeq_sym _ _ Ei)). apply mongo_total_whole_quantity.
        exact Hinc.
      * apply Q.le_max_l.
    + simpl. rewrite IHq, Hq, Ed, Sd. reflexivity.
    + simpl. rewrite IHs, Hs, Ei, Si. reflexivity.
Qed.

Lemma window_total_cons (key : string) (start_date end_date : date) (r : ProductRow)
  (df : list ProductRow) :
  window_total key start_date end_date (r :: df)
  = mongo_total key (filter_stock_history start_date end_date (stock_history r))
    + window_total key start_date end_date df.
Proof. reflexivity. Qed.

Lemma window_total_nonneg (key : string) (start_date end_date : date)
  (df : list ProductRow) :
  0 <= window_total key start_date end_date df.
Proof.
  unfold window_total. apply series_sum_nonneg. intros r _. apply mongo_total_nonneg.
Qed.

(** The window on a frame of whole quantities whose totals in the window
    stay within [max_exact]: no [float] raises, every row holds its
    filtered movement list, and its two quantities are the totals of that
    list. *)
Lemma filter_by_date_double_whole (start_date end_date : date) (df : list ProductRow) :
  Forall (fun r => forallb whole_entry (stock_history r) = true) df ->
  window_total "stock_decreased" start_date end_date df <= max_exact ->
  window_total "stock_increased" start_date end_date df <= max_exact ->
  Forall2 (fun r r' =>
             stock_history r' = filter_stock_history start_date end_date (stock_history r)
             /\ quantity_sold r' == mongo_total "stock_decreased" (stock_history r')
             /\ stock_remaining r' == mongo_total "stock_increased" (stock_history r'))
          df (filter_by_date_range_optimized_double df start_date end_date).
Proof.
  intros Hw Hd Hi.
  assert (Hres : exists result,
             apply_recalculate_double
               (map (fun r => with_stock_history
                                (filter_stock_history start_date end_date (stock_history r)) r)
                    df)
             = Some result
             /\ Forall2 (fun r r' =>
                           stock_history r'
                           = filter_stock_history start_date end_date (stock_history r)
                           /\ quantity_sold r'
                              == mongo_total "stock_decreased" (stock_history r')
                           /\ stock_remaining r'
                              == mongo_total "stock_increased" (stock_history r'))
                        df result).
  { induction Hw as [|r df Hr _ IH].
    - exists []. split; [reflexivity | constructor].
    - rewrite window_total_cons in Hd, Hi.
      pose proof (window_total_nonneg "stock_decreased" start_date end_date df) as Pd.
      pose proof (window_total_nonneg "stock_increased" start_date end_date df) as Pi.
      pose proof (mongo_total_nonneg "stock_decreased"
                    (filter_stock_history start_date end_date (stock_history r))) as Cd.
      pose proof (mongo_total_nonneg "stock_increased"
                    (filter_stock_history start_date end_date (stock_history r))) as Ci.
      destruct IH as (result & Hres & Hrows); [lra | lra |].
      destruct (sum_movements_double_whole
                  (filter_stock_history start_date end_date (stock_history r))
                  (forallb_filter _ _ _ _ Hr) 0 0
                  (whole_inject 0) (whole_inject 0) (Qle_refl 0) (Qle_refl 0))
        as (x & y & Hs & Hx & Hy); [lra | lra |].
      simpl. unfold recalculate_metrics_double.
      cbn [stock_history with_stock_history]. rewrite Hs, Hres.
      eexists. split; [reflexivity|].
      constructor; [|exact Hrows].
      cbn [stock_history quantity_sold stock_remaining with_metrics_double
           with_stock_history].
      split; [reflexivity|]. rewrite Hx, Hy. split; ring. }
  destruct Hres as (result & Hres & Hrows).
  unfold filter_by_date_range_optimized_double.
  destruct df as [|r0 rest]; [constructor|].
  rewrite Hres. exact Hrows.
Qed.

(** The quantities of such rows, and those of their daily records, are whole
    numbers that add up to the totals of the window. *)
Lemma windowed_double_totals (start_date end_date : date)
  (df rows : list ProductRow) :
  Forall (fun r => forallb whole_entry (stock_history r) = true) df ->
  window_total "stock_decreased" start_date end_date df <= max_exact ->
  window_total "stock_increased" start_date end_date df <= max_exact ->
  Forall2 (fun r r' =>
             stock_history r' = filter_stock_history start_date end_date (stock_history r)
             /\ quantity_sold r' == mongo_total "stock_decreased" (stock_history r')
             /\ stock_remaining r' == mongo_total "stock_increased" (stock_history r'))
          df rows ->
  (Forall (fun r' => whole_amount (quantity_sold r') /\ whole_amount (stock_remaining r'))
          rows
   /\ series_sum (map quantity_sold rows)
      == window_total "stock_decreased" start_date end_date df
   /\ series_sum (map stock_remaining rows)
      == window_total "stock_increased" start_date end_date df)
  /\ (Forall (fun record => whole_amount (d_quantity_sold record)
                            /\ whole_amount (d_stock_remaining record))
             (daily_data_double start_date end_date rows)
      /\ series_sum (map d_quantity_sold (daily_data_double start_date end_date rows))
         == window_total "stock_decreased" start_date end_date df
      /\ series_sum (map d_stock_remaining (daily_data_double start_date end_date rows))
         == window_total "stock_increased" start_date end_date df).
Proof.
  intros Hw Hd Hi Hrows. revert Hw Hd Hi.
  induction Hrows as [|r r' df rows (Hh & Hq & Hs) _ IH]; intros Hw Hd Hi.
  - split; (split; [constructor|]; split; reflexivity).
  - inversion Hw as [|? ? Hr Hw']; subst.
    rewrite window_total_cons in Hd, Hi.
    pose proof (window_total_nonneg "stock_decreased" start_date end_date df) as Pd.
    pose proof (window_total_nonneg "stock_increased" start_date end_date df) as Pi.
    pose proof (mongo_total_nonneg "stock_decreased"
                  (filter_stock_history start_date end_date (stock_history r))) as Cd.
    pose proof (mongo_total_nonneg "stock_increased"
                  (filter_stock_history start_date end_date (stock_history r))) as Ci.
    destruct (IH Hw') as ((Rw & Rq & Rs) & (Dw & Dq & Ds)); [lra | lra |].
    assert (Hwh : forallb whole_entry
                          (filter_stock_history start_date end_date (stock_history r))
                  = true) by (apply forallb_filter; exact Hr).
    rewrite Hh in Hq, Hs.
    split; (split; [|split]).
    + constructor; [|exact Rw]. split; split.
      * apply (whole_comp _ _ (Qeq_sym _ _ Hq)). apply mongo_total_whole_entries; auto.
      * rewrite Hq. exact Cd.
      * apply (whole_comp _ _ (Qeq_sym _ _ Hs)). apply mongo_total_whole_entries; auto.
      * rewrite Hs. exact Ci.
    + simpl. rewrite window_total_cons, Rq, Hq. reflexivity.
    + simpl. rewrite window_total_cons, Rs, Hs. reflexivity.
    + unfold daily_data_double. simpl. apply Forall_app. split; [|exact Dw].
      rewrite Hh.
      apply daily_of_history_double_whole;
        [apply filter_in_window | exact Hwh | lra | lra].
    + unfold daily_data_double. simpl. rewrite map_app, series_sum_app.
      fold (daily_data_double start_date end_date rows).
      rewrite Dq, window_total_cons, Hh.
      destruct (daily_of_history_double_whole start_date end_date r'
                  (filter_stock_history start_date end_date (stock_history r))
                  (filter_in_window _ _ _) Hwh) as (_ & E & _); [lra | lra |].
      rewrite E. reflexivity.
    + unfold daily_data_double. simpl. rewrite map_app, series_sum_app.
      fold (daily_data_double start_date end_date rows).
      rewrite Ds, window_total_cons, Hh.
      destruct (daily_of_history_double_whole start_date end_date r'
                  (filter_stock_history start_date end_date (stock_history r))
                  (filter_in_window _ _ _) Hwh) as (_ & _ & E); [lra | lra |].
      rewrite E. reflexivity.
Qed.

(** A column of non-negative whole numbers whose sum stays within
    [max_exact], grouped by date: the sums of the dates and the sum of
    these sums, accumulated in doubles, are the exact ones. *)
Lemma date_sums_double_exact (f : DailyRecord -> Q) (records : list DailyRecord) :
  (forall record, In record records -> whole_amount (f record)) ->
  series_sum (map f records) <= max_exact ->
  series_sum_double
    (map (fun key =>
            series_sum_double
              (map f (filter (fun record => date_eqb (d_date record) key) records)))
         (sorted_dates (map d_date records)))
  == series_sum (map f records).
Proof.
  intros Hw Hmax.
  assert (Hpos : forall record, In record records -> 0 <= f record)
    by (intros record Hr; apply Hw; exact Hr).
  assert (Hgroup : forall key,
             series_sum_double
               (map f (filter (fun record => date_eqb (d_date record) key) records))
             == series_sum
                  (map f (filter (fun record => date_eqb (d_date record) key) records))).
  { intros key. apply series_sum_double_exact.
    - apply Forall_map, Forall_forall. intros record Hr. apply filter_In in Hr.
      apply Hw. tauto.
    - eapply Qle_trans; [apply series_sum_filter_le; exact Hpos | exact Hmax]. }
  assert (Hsums : series_sum
                    (map (fun key =>
                            series_sum_double
                              (map f (filter (fun record => date_eqb (d_date record) key)
                                             records)))
                         (sorted_dates (map d_date records)))
                  == series_sum (map f records)).
  { rewrite <- (groups_by_date_partition f (sorted_dates (map d_date records)) records).
    - apply series_sum_map_eq. intros key _. apply Hgroup.
    - apply sorted_dates_NoDup. apply sorted_dates_sorted.
    - intros record Hin. apply sorted_dates_In. apply in_map. exact Hin. }
  rewrite series_sum_double_exact; [exact Hsums | | rewrite Hsums; exact Hmax].
  apply Forall_map, Forall_forall. intros key _.
  assert (Hg : whole_amount
                 (series_sum
                    (map f (filter (fun record => date_eqb (d_date record) key) records)))).
  { apply whole_series_sum. apply Forall_map, Forall_forall. intros record Hr.
    apply filter_In in Hr. apply Hw. tauto. }
  destruct Hg as [Hg0 Hg1].
  split; [apply (whole_comp _ _ (Qeq_sym _ _ (Hgroup key))); exact Hg0|].
  rewrite Hgroup. exact Hg1.
Qed.

(** X18: for a frame whose dict entries hold whole quantities (or none) and
    whose quantities in the window add up to at most [2^53] under either
    key, where no double rounds: the window is applied, and the quantities
    of the daily chart (no product selected) add up to the overview's total
    quantity in sales mode and to its total stock in inventory mode, which
    is what the entries of the window add up to. *)
Theorem daily_chart_total_matches_overview
  (df : list ProductRow) (start_date end_date : date) (display_mode : DisplayMode) :
  Forall (fun r => forallb whole_entry (stock_history r) = true) df ->
  window_total "stock_decreased" start_date end_date df <= max_exact ->
  window_total "stock_increased" start_date end_date df <= max_exact ->
  let rows := filter_by_date_range_optimized_double df start_date end_date in
  let overview := kpi_metrics_double rows display_mode in
  let total :=
    match display_mode with
    | Ban_hang => k_total_quantity overview
    | Ton_kho => k_total_stock overview
    end in
  series_sum_double
    (map a_quantity (daily_chart_double start_date end_date rows None display_mode))
  == total
  /\ total == window_total
                (match display_mode with
                 | Ban_hang => "stock_decreased"
                 | Ton_kho => "stock_increased"
                 end) start_date end_date df.
Proof.
  intros Hw Hd Hi rows overview total.
  pose proof (filter_by_date_double_whole start_date end_date df Hw Hd Hi) as Hrows.
  fold rows in Hrows.
  destruct (windowed_double_totals _ _ _ _ Hw Hd Hi Hrows)
    as ((Rw & Rq & Rs) & (Dw & Dq & Ds)).
  rewrite Forall_forall in Rw, Dw.
  assert (Hchart : series_sum_double
                     (map a_quantity
                          (daily_chart_double start_date end_date rows None display_mode))
                   == series_sum (map (daily_quantity display_mode)
                                      (daily_data_double start_date end_date rows))).
  { unfold daily_chart_double, daily_agg_double. rewrite map_map. cbn [a_quantity].
    apply date_sums_double_exact.
    - intros record Hin. destruct display_mode; apply (Dw record Hin).
    - destruct display_mode; cbn [daily_quantity];
        [change (fun record => d_quantity_sold record) with d_quantity_sold; rewrite Dq
        |change (fun record => d_stock_remaining record) with d_stock_remaining;
         rewrite Ds]; assumption. }
  assert (Htotal : total == series_sum (map (mode_quantity display_mode) rows)).
  { subst total overview. unfold kpi_metrics_double.
    destruct rows as [|r0 rest] eqn:E; [destruct display_mode; reflexivity|].
    rewrite <- E in *.
    destruct display_mode; cbn [k_total_quantity k_total_stock mode_quantity];
      apply series_sum_double_exact.
    - apply Forall_map, Forall_forall. intros r Hr. apply (Rw r Hr).
    - change (fun r => quantity_sold r) with quantity_sold. rewrite Rq. exact Hd.
    - apply Forall_map, Forall_forall. intros r Hr. apply (Rw r Hr).
    - change (fun r => stock_remaining r) with stock_remaining. rewrite Rs. exact Hi. }
  rewrite Hchart, Htotal.
  destruct display_mode; cbn [daily_quantity mode_quantity].
  - change (fun record => d_quantity_sold record) with d_quantity_sold.
    change (fun r => quantity_sold r) with quantity_sold.
    rewrite Dq, Rq. split; reflexivity.
  - change (fun record => d_stock_remaining record) with d_stock_remaining.
    change (fun r => stock_remaining r) with stock_remaining.
    rewrite Ds, Rs. split; reflexivity.
Qed.

(** ** [format_number] *)

Lemma string_of_uint_plain (d : Decimal.uint) :
  forallb plain_char (list_ascii_of_string (NilEmpty.string_of_uint d)) = true.
Proof.
  induction d; simpl; auto.
Qed.

Lemma dec_digits_plain (n : N) : forallb plain_char (dec_digits n) = true.
Proof.
  unfold dec_digits, NilZero.string_of_uint.
  destruct (N.to_uint n) eqn:E; try (rewrite <- E; apply string_of_uint_plain).
  reflexivity.
Qed.

Lemma filter_plain (cs : list ascii) :
  forallb plain_char cs = true ->
  filter (fun c => negb (Ascii.eqb c ".")) cs = cs.
Proof.
  induction cs as [|c cs IH]; simpl; [reflexivity|].
  intros H. apply andb_true_iff in H. destruct H as [Hc Hcs].
  unfold plain_char in Hc. apply andb_true_iff in Hc. destruct Hc as [Hc _].
  rewrite Hc, (IH Hcs). reflexivity.
Qed.

Lemma group3_step (a b c d : ascii) (rest : list ascii) :
  group3 (a :: b :: c :: d :: rest) = a :: b :: c :: "."%char :: group3 (d :: rest).
Proof. reflexivity. Qed.

Lemma group3_spec (n : nat) :
  forall cs, (List.length cs <= n)%nat ->
    (forallb plain_char cs = true ->
     filter (fun c => negb (Ascii.eqb c ".")) (group3 cs) = cs)
    /\ List.length (group3 cs) = (List.length cs + (List.length cs - 1) / 3)%nat
    /\ forallb (fun c => plain_char c || Ascii.eqb c ".") (group3 cs)
       = forallb (fun c => plain_char c || Ascii.eqb c ".") cs.
Proof.
  induction n as [|n IH]; intros cs Hlen.
  - destruct cs; [|simpl in Hlen; lia].
    split; [reflexivity | split; reflexivity].
  - destruct cs as [|a [|b [|c [|d rest]]]];
      try (split; [apply filter_plain | split; reflexivity]).
    rewrite group3_step.
    destruct (IH (d :: rest)) as (Hf & Hl & Hc); [simpl in *; lia|].
    split; [|split].
    + intros Hp.
      change (forallb plain_char (a :: b :: c :: d :: rest))
        with (plain_char a && (plain_char b && (plain_char c
                && forallb plain_char (d :: rest)))) in Hp.
      apply andb_true_iff in Hp. destruct Hp as [Ha Hp].
      apply andb_true_iff in Hp. destruct Hp as [Hb Hp].
      apply andb_true_iff in Hp. destruct Hp as [Hc' Hp].
      unfold plain_char in Ha, Hb, Hc'.
      apply andb_true_iff in Ha. destruct Ha as [Ha _].
      apply andb_true_iff in Hb. destruct Hb as [Hb _].
      apply andb_true_iff in Hc'. destruct Hc' as [Hc' _].
      cbn [filter]. rewrite Ha, Hb, Hc'.
      change (negb (Ascii.eqb "." ".")) with false. cbv iota.
      rewrite (Hf Hp). reflexivity.
    + cbn [List.length]. cbn [List.length] in Hl. rewrite Hl.
      replace (S (S (S (S (List.length rest)))) - 1)%nat
        with (S (List.length rest) - 1 + 1 * 3)%nat by lia.
      rewrite Nat.div_add by discriminate. lia.
    + cbn [forallb]. cbn [forallb] in Hc. rewrite Hc.
      change (plain_char "." || Ascii.eqb "." ".")%bool with true.
      reflexivity.
Qed.

Lemma round_half_even_sign (q : Q) :
  (q < 0 -> (round_half_even q <= 0)%Z) /\ (0 <= q -> (0 <= round_half_even q)%Z).
Proof.
  split; intros H.
  - pose proof (round_half_even_le_ceil q).
    assert (Qfloor q < 0)%Z; [|lia].
    rewrite Zlt_Qlt. eapply Qle_lt_trans; [apply Qfloor_le | exact H].
  - pose proof (round0_nonneg q H) as Hr. unfold round0 in Hr.
    change 0 with (inject_Z 0) in Hr. rewrite <- Zle_Qle in Hr. exact Hr.
Qed.

Lemma to_uint_nonnil (n : N) : N.to_uint n <> Decimal.Nil.
Proof.
  destruct n; simpl; [discriminate | apply Unsigned.to_uint_nonnil].
Qed.

Lemma parse_unsigned_grouped (n : N) :
  parse_unsigned (rev (group3 (rev (dec_digits n)))) = Some (Z.of_N n).
Proof.
  unfold parse_unsigned.
  rewrite filter_rev.
  destruct (group3_spec (List.length (rev (dec_digits n))) (rev (dec_digits n))
              (Nat.le_refl _)) as (Hf & _ & _).
  rewrite Hf.
  - rewrite rev_involutive. unfold dec_digits.
    rewrite string_of_list_ascii_of_string.
    rewrite (NilZero.usu _ (to_uint_nonnil n)). simpl.
    rewrite DecimalN.Unsigned.of_to. reflexivity.
  - apply forallb_forall. intros c Hc. apply in_rev in Hc.
    pose proof (dec_digits_plain n) as Hp. rewrite forallb_forall in Hp. auto.
Qed.

Lemma grouped_head_plain (n : N) :
  match rev (group3 (rev (dec_digits n))) with
  | c :: _ => Ascii.eqb c "-" = false
  | [] => True
  end.
Proof.
  destruct (group3_spec (List.length (rev (dec_digits n))) (rev (dec_digits n))
              (Nat.le_refl _)) as (_ & _ & Hc).
  assert (Hall : forallb (fun c => plain_char c || Ascii.eqb c ".")
                         (group3 (rev (dec_digits n))) = true).
  { rewrite Hc. apply forallb_forall. intros c Hin. apply in_rev in Hin.
    pose proof (dec_digits_plain n) as Hp. rewrite forallb_forall in Hp.
    rewrite (Hp c Hin). reflexivity. }
  destruct (rev (group3 (rev (dec_digits n)))) as [|c rest] eqn:E; [exact I|].
  rewrite forallb_forall in Hall.
  assert (Hin : In c (group3 (rev (dec_digits n)))).
  { apply in_rev. rewrite E. left. reflexivity. }
  specialize (Hall c Hin). apply orb_true_iff in Hall. destruct Hall as [Hp|Hdot].
  - unfold plain_char in Hp. apply andb_true_iff in Hp. destruct Hp as [_ Hp].
    apply negb_true_iff in Hp. exact Hp.
  - apply Ascii.eqb_eq in Hdot. subst c. reflexivity.
Qed.

Lemma format_float_round_trip (x : Q) :
  parse_formatted (format_float x) = Some (round_half_even x)
  /\ String.length (format_float x)
     = ((if Qlt_le_dec x 0 then 1 else 0)
        + List.length (dec_digits (Z.abs_N (round_half_even x)))
        + (List.length (dec_digits (Z.abs_N (round_half_even x))) - 1) / 3)%nat.
Proof.
  unfold format_float, parse_formatted.
  rewrite list_ascii_of_string_of_list_ascii.
  set (n := Z.abs_N (round_half_even x)).
  pose proof (parse_unsigned_grouped n) as Hparse.
  pose proof (grouped_head_plain n) as Hhead.
  destruct (round_half_even_sign x) as [Hneg Hpos].
  split.
  - destruct (Qlt_le_dec x 0) as [Hlt|Hge].
    + cbn [app]. change (Ascii.eqb "-" "-") with true. cbv iota.
      rewrite Hparse. simpl. f_equal. subst n. specialize (Hneg Hlt). lia.
    + cbn [app]. destruct (rev (group3 (rev (dec_digits n)))) as [|c rest] eqn:E.
      * rewrite Hparse. f_equal. subst n. specialize (Hpos Hge). lia.
      * rewrite Hhead, Hparse. f_equal. subst n. specialize (Hpos Hge). lia.
  - destruct (group3_spec (List.length (rev (dec_digits n))) (rev (dec_digits n))
                (Nat.le_refl _)) as (_ & Hl & _).
    assert (Hlen : forall cs, String.length (string_of_list_ascii cs) = List.length cs).
    { induction cs as [|c cs IH]; simpl; [reflexivity | rewrite IH; reflexivity]. }
    rewrite Hlen, length_app, length_rev, Hl, length_rev.
    destruct (Qlt_le_dec x 0); simpl; lia.
Qed.

Lemma round_half_even_inject (z : Z) : round_half_even (inject_Z z) = z.
Proof.
  pose proof (round0_whole (inject_Z z) (whole_inject z)) as H. unfold round0 in H.
  unfold Qeq in H. simpl in H. lia.
Qed.

(** X19: [format_number] prints the double nearest to its argument.
    Reading the text back (the sign, then the digits with the separators
    taken out) gives that double rounded half to even; the text starts with
    '-' exactly when the double is below 0; and for [n] digits it holds
    [(n - 1) / 3] separators.  For a whole number up to [2^53] in absolute
    value the text reads back as the number itself. *)
Theorem format_number_round_trip (num : Q) :
  let x := round_double num in
  parse_formatted (format_number num) = Some (round_half_even x)
  /\ String.length (format_number num)
     = ((if Qlt_le_dec x 0 then 1 else 0)
        + List.length (dec_digits (Z.abs_N (round_half_even x)))
        + (List.length (dec_digits (Z.abs_N (round_half_even x))) - 1) / 3)%nat
  /\ (forall z : Z, num == inject_Z z -> Qabs num <= max_exact ->
                    parse_formatted (format_number num) = Some z).
Proof.
  intros x. destruct (format_float_round_trip x) as [Hparse Hlen].
  split; [exact Hparse|]. split; [exact Hlen|].
  intros z Hz Hmax. unfold format_number. fold x. rewrite Hparse. f_equal.
  assert (Ex : x == inject_Z z).
  { subst x. rewrite round_double_exact; [exact Hz | exists z; exact Hz | exact Hmax]. }
  rewrite (round_half_even_comp _ _ Ex). apply round_half_even_inject.
Qed.

(** ** The sidebar selection and the second classification *)

Lemma Forall2_In_left (A B : Type) (R : A -> B -> Prop) (l : list A) (l' : list B) (a : A) :
  Forall2 R l l' -> In a l -> exists b, In b l' /\ R a b.
Proof.
  induction 1 as [|x y l l' Hxy _ IH]; intros Hin; [destruct Hin|].
  destruct Hin as [<-|Hin].
  - exists y. split; [left; reflexivity | exact Hxy].
  - destruct (IH Hin) as (b & Hb & Hab). exists b. split; [right; exact Hb | exact Hab].
Qed.

(** X20: whatever is selected in the sidebar, a tier included, the table
    the script shows is classified again among the selected rows: if two
    selected rows have the lowest and the highest price of the selection and
    these differ, the table shows the first as 'Thấp' and the second as
    'Trung bình' or 'Cao'. *)
Theorem selection_is_classified_again
  (df : list LoadedRow) (selected_category : option string)
  (selected_segment : option Segment) (selected_product : option string)
  (display_mode : DisplayMode) (start_date end_date : date)
  (r_lo r_hi : ProductRow) (x y : Q) :
  let selected :=
    selected_rows (apply_clustering_improved df)
                  selected_category selected_segment selected_product in
  In r_lo selected -> In r_hi selected ->
  price r_lo = Some x -> price r_hi = Some y ->
  (forall r z, In r selected -> price r = Some z -> x <= z /\ z <= y) ->
  x < y ->
  exists rows rollup lo hi,
    dashboard df selected_category selected_segment selected_product
              display_mode start_date end_date = Some (rows, rollup)
    /\ In lo rows /\ id lo = id r_lo /\ price lo = Some x /\ segment lo = Thap
    /\ In hi rows /\ id hi = id r_hi /\ price hi = Some y
    /\ (segment hi = Trung_binh \/ segment hi = Cao).
Proof.
  intros selected Hlo Hhi Hx Hy Hall Hxy.
  unfold dashboard. destruct df as [|l0 rest];
    [subst selected; apply selected_rows_incl in Hlo; destruct Hlo|].
  fold selected.
  set (windowed := filter_by_date_range_optimized selected start_date end_date).
  pose proof (filter_by_date_same_product selected start_date end_date) as Hsame.
  fold windowed in Hsame.
  destruct (same_product_columns _ _ Hsame) as [_ Hprices].
  destruct (Forall2_In_left _ _ _ _ _ _ Hsame Hlo) as (w_lo & Hwlo & Slo).
  destruct (Forall2_In_left _ _ _ _ _ _ Hsame Hhi) as (w_hi & Hwhi & Shi).
  destruct Slo as (_ & Plo & Ilo & _). destruct Shi as (_ & Phi & Ihi & _).
  assert (Hallp : forall z, In z (dropna (map price windowed)) -> x <= z /\ z <= y).
  { rewrite Hprices. intros z Hz. apply dropna_In in Hz. apply in_map_iff in Hz.
    destruct Hz as (r & Hr & Hin). apply (Hall r z Hin Hr). }
  assert (Hxin : In x (dropna (map price windowed))).
  { apply dropna_In. rewrite <- Hx, <- Plo. apply in_map. exact Hwlo. }
  assert (Hyin : In y (dropna (map price windowed))).
  { apply dropna_In. rewrite <- Hy, <- Phi. apply in_map. exact Hwhi. }
  destruct (extreme_price_tiers _ x y Hxin Hyin Hallp Hxy) as [Tlo Thi].
  eexists. eexists.
  exists (with_segment (tier_of_price (map price windowed) (price w_lo)) w_lo).
  exists (with_segment (tier_of_price (map price windowed) (price w_hi)) w_hi).
  split; [reflexivity|].
  rewrite categorize_price_segment_rows.
  cbn [id price segment with_segment].
  rewrite Plo, Phi, Hx, Hy, Tlo.
  split; [apply in_map_iff; exists w_lo; rewrite Plo, Hx, Tlo; auto|].
  split; [exact Ilo|]. split; [reflexivity|]. split; [reflexivity|].
  split; [apply in_map_iff; exists w_hi; rewrite Phi, Hy; auto|].
  split; [exact Ihi|]. split; [reflexivity|]. exact Thi.
Qed.

End Engine.

(** ** The engine on concrete inputs

    The library parsers are the ASCII models from here on. *)

(** The group keys are in the ascending order of their labels, the order
    [groupby] sorts them in. *)
Lemma groupby_keys_sorted :
  map (fun pair => String.compare (segment_label (fst pair)) (segment_label (snd pair)))
      [(Cao, Khong_xac_dinh); (Khong_xac_dinh, Thap); (Thap, Trung_binh)]
  = [Lt; Lt; Lt].
Proof. vm_compute. reflexivity. Qed.

(** [round_double] on known numbers: 0.1 and 1/3 are the doubles
    3602879701896397 / 2^55 and 6004799503160661 / 2^54; [2^53 + 1] rounds
    to [2^53] and [2^53 + 3] to [2^53 + 4], the even significand; a double
    is left as it is. *)
Example round_double_values :
  round_double (1 # 10) = 3602879701896397 # 36028797018963968
  /\ round_double (1 # 3) = 6004799503160661 # 18014398509481984
  /\ round_double 9007199254740993 = 9007199254740992
  /\ round_double 9007199254740995 = 9007199254740996
  /\ round_double (-9007199254740993) = -9007199254740992
  /\ round_double (round_double (1 # 10)) = round_double (1 # 10)
  /\ round_double (3 # 2) = 3 # 2.
Proof. vm_compute. repeat split. Qed.

(** The worked example: lifetime totals 5 and 3; the window
    [2025-04-01, 2025-04-01] leaves 0 and 3. *)
Example worked_example_window :
  let df := fst (fst (load_data_optimized AsciiLib.strptime_ymd
                        [Examples.product_1; Examples.product_2])) in
  map l_total_sold df = [5; 3]
  /\ map quantity_sold
         (windowed_rows AsciiLib.strptime_ymd AsciiLib.float_of_str df None None None
                        Examples.april_1 Examples.april_1)
     = [0; 3].
Proof. vm_compute. split; reflexivity. Qed.

(** Two products priced 1000 and 1000 are both 'Trung bình'. *)
Example identical_prices_are_medium :
  option_map (fun result => map segment (fst result))
    (dashboard AsciiLib.strptime_ymd AsciiLib.float_of_str
       (fst (fst (load_data_optimized AsciiLib.strptime_ymd
                    [Examples.product "x" 1000 []; Examples.product "y" 1000 []])))
       None None None Ban_hang Examples.march_10 Examples.march_14)
  = Some [Trung_binh; Trung_binh].
Proof. vm_compute. reflexivity. Qed.

(** C1 fails as stated: a product with 51 one-unit sales, all on 2025-03-10.
    The window [2025-03-10, 2025-03-10] covers every movement date, the
    lifetime [total_sold] is 51 (summed over the fetched list) and the
    recomputed [quantity_sold] is 50 (summed over the 50 stored entries). *)
Lemma covering_window_misses_entries_beyond_50 :
  let df := fst (fst (load_data_optimized AsciiLib.strptime_ymd [Examples.product_long])) in
  let rows := filter_by_date_range_optimized_double
                AsciiLib.strptime_ymd AsciiLib.float_of_str
                (apply_clustering_improved df) Examples.march_10 Examples.march_10 in
  forallb (in_window AsciiLib.strptime_ymd Examples.march_10 Examples.march_10)
          (history_of Examples.product_long) = true
  /\ exists row, rows = [row]
                 /\ total_sold row == 51 /\ quantity_sold row == 50
                 /\ ~ quantity_sold row == total_sold row.
Proof.
  vm_compute. split; [reflexivity|].
  eexists. split; [reflexivity|].
  split; [reflexivity|]. split; [reflexivity|]. discriminate.
Qed.

(** The bound of C1 is needed: one sale of [2^53 + 1] units, in the window.
    The lifetime [total_sold] is [2^53 + 1], and the recomputed
    [quantity_sold] is the double [float] returns for it, [2^53]. *)
Example covering_window_rounds_beyond_2_53 :
  let df := fst (fst (load_data_optimized AsciiLib.strptime_ymd [Examples.product_huge])) in
  let rows := filter_by_date_range_optimized_double
                AsciiLib.strptime_ymd AsciiLib.float_of_str
                (apply_clustering_improved df) Examples.march_10 Examples.march_10 in
  map total_sold rows = [9007199254740993]
  /\ map quantity_sold rows = [9007199254740992].
Proof. vm_compute. split; reflexivity. Qed.


(** C2 fails as stated: five products priced 1000 to 5000, nothing selected
    in the sidebar.  The initial pass gives the product priced 4000 the tier
    'Cao'; in the table the script shows and rolls up it is 'Trung bình'. *)
Lemma final_tiers_differ_from_initial_pass :
  let df := fst (fst (load_data_optimized AsciiLib.strptime_ymd Examples.five_products)) in
  map segment (apply_clustering_improved df) = [Thap; Thap; Trung_binh; Cao; Cao]
  /\ option_map (fun result => map segment (fst result))
       (dashboard AsciiLib.strptime_ymd AsciiLib.float_of_str df None None None Ban_hang
                  Examples.march_10 Examples.march_14)
     = Some [Thap; Thap; Trung_binh; Trung_binh; Cao].
Proof. vm_compute. split; reflexivity. Qed.

(** C3 fails as stated: for a single product, tier 'Trung bình', the rollup
    has one row, not three. *)
Lemma rollup_of_single_product_has_one_row :
  exists rows rollup,
    dashboard AsciiLib.strptime_ymd AsciiLib.float_of_str
      (fst (fst (load_data_optimized AsciiLib.strptime_ymd [Examples.product_1])))
      None None None Ban_hang Examples.march_10 Examples.march_14
    = Some (rows, rollup)
    /\ map segment rows = [Trung_binh]
    /\ map s_segment rollup = [Trung_binh]
    /\ List.length rollup = 1%nat
    /\ List.length rollup <> 3%nat.
Proof.
  eexists. eexists. split; [vm_compute; reflexivity|].
  repeat split. discriminate.
Qed.


(** C1 at work: product 1 of the worked example, window
    [2025-03-10, 2025-04-01]. *)
Lemma covering_window_witness :
  let df := apply_clustering_improved
              (fst (fst (load_data_optimized AsciiLib.strptime_ymd
                           [Examples.product_1; Examples.product_2]))) in
  let row := with_clustering Thap (load_row (mongo_project Examples.product_1 1000)) in
  nth_error df 0 = Some row
  /\ (List.length (history_of Examples.product_1) <= 50)%nat
  /\ forallb (covered_entry AsciiLib.strptime_ymd Examples.march_10 Examples.april_1)
             (history_of Examples.product_1) = true
  /\ num_le (revenue row) (Some max_exact)
  /\ num_le (stock_revenue row) (Some max_exact)
  /\ exists row',
       nth_error (filter_by_date_range_optimized_double AsciiLib.strptime_ymd
                    AsciiLib.float_of_str df Examples.march_10 Examples.april_1) 0
       = Some row'
       /\ quantity_sold row' == total_sold row
       /\ stock_remaining row' == total_stock_increased row
       /\ num_eq (revenue row') (revenue row)
       /\ num_eq (stock_revenue row') (stock_revenue row).
Proof.
  intros df row.
  assert (H1 : nth_error df 0 = Some row) by (vm_compute; reflexivity).
  assert (H2 : (List.length (history_of Examples.product_1) <= 50)%nat)
    by (simpl; lia).
  assert (H3 : forallb (covered_entry AsciiLib.strptime_ymd Examples.march_10
                                      Examples.april_1)
                       (history_of Examples.product_1) = true)
    by (vm_compute; reflexivity).
  assert (H4 : num_le (revenue row) (Some max_exact)) by (vm_compute; discriminate).
  assert (H5 : num_le (stock_revenue row) (Some max_exact))
    by (vm_compute; discriminate).
  split; [exact H1|]. split; [exact H2|]. split; [exact H3|].
  split; [exact H4|]. split; [exact H5|].
  exact (covering_window_recovers_lifetime_totals
           AsciiLib.strptime_ymd AsciiLib.float_of_str
           Examples.product_1 1000 Thap df 0 Examples.march_10 Examples.april_1
           H1 H2 H3 H4 H5).
Defined.

(** C8 at work: the two products of the worked example and the window
    [2025-05-01, 2025-05-01], which holds none of their dates. *)
Lemma empty_window_witness :
  let df := apply_clustering_improved
              (fst (fst (load_data_optimized AsciiLib.strptime_ymd
                           [Examples.product_1; Examples.product_2]))) in
  forallb has_price df = true
  /\ (date_leb Examples.may_1 Examples.may_1 = false
      \/ disjoint_window AsciiLib.strptime_ymd Examples.may_1 Examples.may_1 df = true)
  /\ filter_by_date_range_optimized AsciiLib.strptime_ymd AsciiLib.float_of_str
       df Examples.may_1 Examples.may_1 = map zeroed df.
Proof.
  intros df.
  assert (H1 : forallb has_price df = true) by (vm_compute; reflexivity).
  assert (H2 : date_leb Examples.may_1 Examples.may_1 = false
               \/ disjoint_window AsciiLib.strptime_ymd Examples.may_1 Examples.may_1 df
                  = true)
    by (right; vm_compute; reflexivity).
  split; [exact H1|]. split; [exact H2|].
  exact (proj1 (empty_window_gives_zero_metrics
                  AsciiLib.strptime_ymd AsciiLib.float_of_str
                  df Examples.may_1 Examples.may_1 H1 H2)).
Defined.


(** C5 at work: on the five products priced 1000 to 5000 the percentiles
    exist and differ, so the three price bands apply; and one priced product
    alone is 'Trung bình'. *)
Lemma categorize_price_segment_witness :
  let df := apply_clustering_improved
              (fst (fst (load_data_optimized AsciiLib.strptime_ymd
                           Examples.five_products))) in
  let r := with_clustering Cao (load_row (mongo_project Examples.product_2 5000)) in
  dropna (map price df) <> []
  /\ (exists p25 p75,
         quantile (1 # 4) (map price df) = Some p25
         /\ quantile (3 # 4) (map price df) = Some p75
         /\ ~ p25 == p75
         /\ Forall (fun r' =>
                      match price r' with
                      | Some x =>
                          (x <= p25 -> segment r' = Thap)
                          /\ (p25 < x -> x <= p75 -> segment r' = Trung_binh)
                          /\ (p25 < x -> p75 < x -> segment r' = Cao)
                      | None => segment r' = Khong_xac_dinh
                      end) (categorize_price_segment df))
  /\ price r = Some 5000
  /\ map segment (categorize_price_segment [r]) = [Trung_binh].
Proof.
  intros df r.
  assert (Hsome : dropna (map price df) <> []) by (vm_compute; discriminate).
  assert (H : price r = Some 5000) by (vm_compute; reflexivity).
  split; [exact Hsome|]. split.
  - destruct (proj1 (proj2 (proj2 (categorize_price_segment_tiers_by_percentile df))) Hsome)
      as (p25 & p75 & lo & hi & H25 & H75 & _ & _ & Hdistinct & _).
    exists p25, p75.
    assert (Hne : ~ p25 == p75).
    { pose proof H25 as E25. pose proof H75 as E75.
      vm_compute in E25. vm_compute in E75.
      injection E25 as <-. injection E75 as <-.
      intros Heq. vm_compute in Heq. discriminate Heq. }
    split; [exact H25|]. split; [exact H75|]. split; [exact Hne|].
    exact (Hdistinct Hne).
  - split; [exact H|].
    exact (proj2 (proj2 (proj2 (proj2 (categorize_price_segment_tiers_by_percentile [r]))))
             r 5000 H).
Defined.


(** ** The further properties on concrete inputs *)

(** X4 at work: the range 2025-03-10 to 2025-04-01. *)
Lemma default_window_witness :
  date_leb Examples.march_10 Examples.april_1 = true
  /\ date_leb Examples.march_10
              (fst (default_window Examples.march_10 Examples.april_1)) = true
  /\ date_leb (snd (default_window Examples.march_10 Examples.april_1))
              Examples.april_1 = true.
Proof.
  assert (H : date_leb Examples.march_10 Examples.april_1 = true) by reflexivity.
  split; [exact H|].
  destruct (default_window_within_range Examples.march_10 Examples.april_1 H)
    as (H1 & H2 & _).
  split; [exact H1 | exact H2].
Defined.

(** X5 at work: a frame of one row. *)
Lemma first_pass_single_witness :
  let df := fst (fst (load_data_optimized AsciiLib.strptime_ymd [Examples.product_2])) in
  ((List.length df <= 1)%nat \/ Forall (fun x => x == 0) (dropna (map l_price df)))
  /\ Forall (fun r => segment r = Trung_binh) (apply_clustering_improved df).
Proof.
  intros df.
  assert (H : (List.length df <= 1)%nat
              \/ Forall (fun x => x == 0) (dropna (map l_price df)))
    by (left; vm_compute; lia).
  split; [exact H|].
  exact (first_pass_single_or_identical_is_medium df 0 H).
Defined.

(** X6 at work: the products priced 1000 and 5000 among the five. *)
Lemma first_pass_monotone_witness :
  let df := fst (fst (load_data_optimized AsciiLib.strptime_ymd Examples.five_products)) in
  let r1 := nth 0 (apply_clustering_improved df) (with_clustering Cao (load_row
              (mongo_project Examples.product_1 1000))) in
  let r2 := nth 4 (apply_clustering_improved df) r1 in
  In r1 (apply_clustering_improved df) /\ In r2 (apply_clustering_improved df)
  /\ price r1 = Some 1000 /\ price r2 = Some 5000 /\ 1000 <= 5000
  /\ (tier_rank (segment r1) <= tier_rank (segment r2))%nat.
Proof.
  intros df r1 r2.
  assert (H1 : In r1 (apply_clustering_improved df))
    by (apply nth_In; vm_compute; lia).
  assert (H2 : In r2 (apply_clustering_improved df))
    by (apply nth_In; vm_compute; lia).
  assert (P1 : price r1 = Some 1000) by (vm_compute; reflexivity).
  assert (P2 : price r2 = Some 5000) by (vm_compute; reflexivity).
  assert (L : 1000 <= 5000) by discriminate.
  repeat (split; [assumption|]).
  exact (proj1 (apply_clustering_improved_monotone df r1 r2 1000 5000 H1 H2 P1 P2) L).
Defined.

(** X7 at work: the same two products after the second classification. *)
Lemma categorize_monotone_witness :
  let df := apply_clustering_improved
              (fst (fst (load_data_optimized AsciiLib.strptime_ymd
                           Examples.five_products))) in
  let r1 := nth 0 (categorize_price_segment df)
                (with_clustering Cao (load_row (mongo_project Examples.product_1 1000))) in
  let r2 := nth 4 (categorize_price_segment df) r1 in
  In r1 (categorize_price_segment df) /\ In r2 (categorize_price_segment df)
  /\ price r1 = Some 1000 /\ price r2 = Some 5000 /\ 1000 <= 5000
  /\ (tier_rank (segment r1) <= tier_rank (segment r2))%nat.
Proof.
  intros df r1 r2.
  assert (H1 : In r1 (categorize_price_segment df))
    by (apply nth_In; vm_compute; lia).
  assert (H2 : In r2 (categorize_price_segment df))
    by (apply nth_In; vm_compute; lia).
  assert (P1 : price r1 = Some 1000) by (vm_compute; reflexivity).
  assert (P2 : price r2 = Some 5000) by (vm_compute; reflexivity).
  assert (L : 1000 <= 5000) by discriminate.
  repeat (split; [assumption|]).
  exact (proj1 (categorize_price_segment_monotone df r1 r2 1000 5000 H1 H2 P1 P2) L).
Defined.

(** X9 at work: the two products of the worked example, priced 1000 and
    5000. *)
Lemma cheapest_and_priciest_witness :
  let df := apply_clustering_improved
              (fst (fst (load_data_optimized AsciiLib.strptime_ymd
                           [Examples.product_1; Examples.product_2]))) in
  let r_lo := nth 0 df (with_clustering Cao (load_row
                (mongo_project Examples.product_1 1000))) in
  let r_hi := nth 1 df r_lo in
  In r_lo df /\ In r_hi df /\ price r_lo = Some 1000 /\ price r_hi = Some 5000
  /\ (forall r z, In r df -> price r = Some z -> 1000 <= z /\ z <= 5000)
  /\ 1000 < 5000
  /\ In (with_segment Thap r_lo) (categorize_price_segment df).
Proof.
  intros df r_lo r_hi.
  assert (H1 : In r_lo df) by (apply nth_In; vm_compute; lia).
  assert (H2 : In r_hi df) by (apply nth_In; vm_compute; lia).
  assert (P1 : price r_lo = Some 1000) by (vm_compute; reflexivity).
  assert (P2 : price r_hi = Some 5000) by (vm_compute; reflexivity).
  assert (Hall : forall r z, In r df -> price r = Some z -> 1000 <= z /\ z <= 5000).
  { intros r z Hin Hp. vm_compute in Hin.
    destruct Hin as [<-|[<-|[]]]; vm_compute in Hp; injection Hp as <-;
      split; discriminate. }
  assert (L : 1000 < 5000) by reflexivity.
  repeat (split; [assumption|]).
  exact (proj1 (cheapest_is_low_and_priciest_is_not df r_lo r_hi 1000 5000
                  H1 H2 P1 P2 Hall L)).
Defined.

(** X10 at work: a product with a null quantity on 2025-03-10 next to
    product 1; the window that holds that day returns the frame as it is. *)
Lemma window_fallback_witness :
  let df := apply_clustering_improved
              (fst (fst (load_data_optimized AsciiLib.strptime_ymd
                           [Examples.product_1; Examples.product_unconvertible]))) in
  window_convertible AsciiLib.strptime_ymd AsciiLib.float_of_str
                     Examples.march_10 Examples.march_14 df = false
  /\ filter_by_date_range_optimized AsciiLib.strptime_ymd AsciiLib.float_of_str
       df Examples.march_10 Examples.march_14 = df.
Proof.
  intros df.
  assert (H : window_convertible AsciiLib.strptime_ymd AsciiLib.float_of_str
                                 Examples.march_10 Examples.march_14 df = false)
    by (vm_compute; reflexivity).
  split; [exact H|].
  exact (proj1 (window_falls_back_on_unconvertible_quantity
                  AsciiLib.strptime_ymd AsciiLib.float_of_str
                  df Examples.march_10 Examples.march_14) H).
Defined.

(** X12 at work: product 2 of the worked example and a window that misses
    its only movement. *)
Lemma windowed_bounded_witness :
  let df := apply_clustering_improved
              (fst (fst (load_data_optimized AsciiLib.strptime_ymd
                           [Examples.product_1; Examples.product_2]))) in
  let row := with_clustering Cao (load_row (mongo_project Examples.product_2 5000)) in
  nth_error df 1 = Some row
  /\ forallb whole_entry (history_of Examples.product_2) = true
  /\ num_le (revenue row) (Some max_exact)
  /\ num_le (stock_revenue row) (Some max_exact)
  /\ exists row',
       nth_error (filter_by_date_range_optimized_double AsciiLib.strptime_ymd
                    AsciiLib.float_of_str df Examples.march_10 Examples.march_14) 1
       = Some row'
       /\ quantity_sold row' <= total_sold row
       /\ stock_remaining row' <= total_stock_increased row
       /\ num_le (revenue row') (revenue row)
       /\ num_le (stock_revenue row') (stock_revenue row).
Proof.
  intros df row.
  assert (H1 : nth_error df 1 = Some row) by (vm_compute; reflexivity).
  assert (H2 : forallb whole_entry (history_of Examples.product_2) = true)
    by (vm_compute; reflexivity).
  assert (H3 : num_le (revenue row) (Some max_exact)) by (vm_compute; discriminate).
  assert (H4 : num_le (stock_revenue row) (Some max_exact))
    by (vm_compute; discriminate).
  split; [exact H1|]. split; [exact H2|]. split; [exact H3|]. split; [exact H4|].
  exact (windowed_metrics_bounded_by_lifetime
           AsciiLib.strptime_ymd AsciiLib.float_of_str
           Examples.product_2 5000 Cao df 1 Examples.march_10 Examples.march_14
           H1 H2 H3 H4).
Defined.

(** X13 at work: the two products of the worked example in sales mode,
    totals 5 and 3. *)
Lemma top_product_witness :
  let df := apply_clustering_improved
              (fst (fst (load_data_optimized AsciiLib.strptime_ymd
                           [Examples.product_1; Examples.product_2]))) in
  0 < series_sum (map (mode_quantity Ban_hang) df)
  /\ exists r,
       In r df /\ top_product df Ban_hang = name r
       /\ 0 < mode_quantity Ban_hang r
       /\ forall r', In r' df -> mode_quantity Ban_hang r' <= mode_quantity Ban_hang r.
Proof.
  intros df.
  assert (H : 0 < series_sum (map (mode_quantity Ban_hang) df)) by (vm_compute; reflexivity).
  split; [exact H|].
  exact (proj1 (top_product_has_largest_quantity df Ban_hang) H).
Defined.

(** X14 at work: the same frame; both products sold, prices 1000 and 5000. *)
Lemma average_price_witness :
  let df := apply_clustering_improved
              (fst (fst (load_data_optimized AsciiLib.strptime_ymd
                           [Examples.product_1; Examples.product_2]))) in
  (forall r, In r df -> counted_for_average Ban_hang r = true ->
             exists p, price r = Some p /\ 1000 <= p /\ p <= 5000)
  /\ exists a, k_avg_price (kpi_metrics df Ban_hang) = Some a /\ 1000 <= a /\ a <= 5000.
Proof.
  intros df.
  assert (H : forall r, In r df -> counted_for_average Ban_hang r = true ->
                        exists p, price r = Some p /\ 1000 <= p /\ p <= 5000).
  { intros r Hin _. vm_compute in Hin.
    destruct Hin as [<-|[<-|[]]]; eexists; (split; [reflexivity|]); split; discriminate. }
  split; [exact H|].
  exact (average_price_between_prices df Ban_hang 1000 5000 H).
Defined.


(** X18 at work: the worked example over the window 2025-03-10 to
    2025-04-01. *)
Lemma daily_chart_total_witness :
  let df := apply_clustering_improved
              (fst (fst (load_data_optimized AsciiLib.strptime_ymd
                           [Examples.product_1; Examples.product_2]))) in
  let rows := filter_by_date_range_optimized_double
                AsciiLib.strptime_ymd AsciiLib.float_of_str
                df Examples.march_10 Examples.april_1 in
  Forall (fun r => forallb whole_entry (stock_history r) = true) df
  /\ window_total AsciiLib.strptime_ymd "stock_decreased"
                  Examples.march_10 Examples.april_1 df <= max_exact
  /\ window_total AsciiLib.strptime_ymd "stock_increased"
                  Examples.march_10 Examples.april_1 df <= max_exact
  /\ series_sum_double
       (map a_quantity
            (daily_chart_double AsciiLib.strptime_ymd AsciiLib.float_of_str
               Examples.march_10 Examples.april_1 rows None Ban_hang))
     == k_total_quantity (kpi_metrics_double rows Ban_hang).
Proof.
  intros df rows.
  assert (H1 : Forall (fun r => forallb whole_entry (stock_history r) = true) df)
    by (vm_compute; repeat constructor).
  assert (H2 : window_total AsciiLib.strptime_ymd "stock_decreased"
                            Examples.march_10 Examples.april_1 df <= max_exact)
    by (vm_compute; discriminate).
  assert (H3 : window_total AsciiLib.strptime_ymd "stock_increased"
                            Examples.march_10 Examples.april_1 df <= max_exact)
    by (vm_compute; discriminate).
  split; [exact H1|]. split; [exact H2|]. split; [exact H3|].
  exact (proj1 (daily_chart_total_matches_overview
                  AsciiLib.strptime_ymd AsciiLib.float_of_str
                  df Examples.march_10 Examples.april_1 Ban_hang H1 H2 H3)).
Defined.

(** X15 at work: the worked example in sales mode, window 2025-03-10 to
    2025-04-01. *)
Lemma rollup_totals_witness :
  let df := filter_by_date_range_optimized_double
              AsciiLib.strptime_ymd AsciiLib.float_of_str
              (apply_clustering_improved
                 (fst (fst (load_data_optimized AsciiLib.strptime_ymd
                              [Examples.product_1; Examples.product_2]))))
              Examples.march_10 Examples.april_1 in
  (forall r, In r df ->
             whole_amount (mode_revenue Ban_hang r)
             /\ whole_amount (mode_quantity Ban_hang r))
  /\ series_sum (map (mode_revenue Ban_hang) df) <= max_exact
  /\ series_sum (map (mode_quantity Ban_hang) df) <= max_exact
  /\ series_sum_double
       (map s_revenue
            (calculate_segment_analysis_double (categorize_price_segment df) Ban_hang))
     == k_total_revenue (kpi_metrics_double df Ban_hang).
Proof.
  intros df.
  assert (H1 : forall r, In r df ->
                         whole_amount (mode_revenue Ban_hang r)
                         /\ whole_amount (mode_quantity Ban_hang r)).
  { intros r Hr. vm_compute in Hr.
    destruct Hr as [<-|[<-|[]]];
      (split; (split; [apply is_integer_whole; vm_compute; reflexivity
                      | vm_compute; discriminate])). }
  assert (H2 : series_sum (map (mode_revenue Ban_hang) df) <= max_exact)
    by (vm_compute; discriminate).
  assert (H3 : series_sum (map (mode_quantity Ban_hang) df) <= max_exact)
    by (vm_compute; discriminate).
  split; [exact H1|]. split; [exact H2|]. split; [exact H3|].
  exact (proj1 (rollup_totals_match_overview df Ban_hang H1 H2 H3)).
Defined.

(** X19 at work: 1234567 reads back from "1.234.567"; and [2^53 + 1], which
    is not a double, is printed as [2^53]. *)
Lemma format_number_witness :
  1234567 == inject_Z 1234567
  /\ Qabs 1234567 <= max_exact
  /\ parse_formatted (format_number 1234567) = Some 1234567%Z.
Proof.
  assert (H1 : 1234567 == inject_Z 1234567) by reflexivity.
  assert (H2 : Qabs 1234567 <= max_exact) by (vm_compute; discriminate).
  split; [exact H1|]. split; [exact H2|].
  exact (proj2 (proj2 (format_number_round_trip 1234567)) 1234567%Z H1 H2).
Defined.

Example format_number_prints_the_double :
  format_number 1234567 = "1.234.567"%string
  /\ format_number 9007199254740993 = "9.007.199.254.740.992"%string
  /\ format_number (-(1 # 4)) = "-0"%string.
Proof. vm_compute. repeat split. Qed.

(** X20 at work: the five products with the tier 'Cao' selected, which
    leaves the products priced 4000 and 5000. *)
Lemma selection_classified_again_witness :
  let df := fst (fst (load_data_optimized AsciiLib.strptime_ymd Examples.five_products)) in
  let selected := selected_rows (apply_clustering_improved df) None (Some Cao) None in
  let r_lo := nth 0 selected (with_clustering Cao (load_row
                (mongo_project Examples.product_1 1000))) in
  let r_hi := nth 1 selected r_lo in
  In r_lo selected /\ In r_hi selected
  /\ segment r_lo = Cao /\ price r_lo = Some 4000 /\ price r_hi = Some 5000
  /\ (forall r z, In r selected -> price r = Some z -> 4000 <= z /\ z <= 5000)
  /\ 4000 < 5000
  /\ exists rows rollup lo hi,
       dashboard AsciiLib.strptime_ymd AsciiLib.float_of_str df None (Some Cao) None
                 Ban_hang Examples.march_10 Examples.march_14 = Some (rows, rollup)
       /\ In lo rows /\ id lo = id r_lo /\ price lo = Some 4000 /\ segment lo = Thap
       /\ In hi rows /\ id hi = id r_hi /\ price hi = Some 5000
       /\ (segment hi = Trung_binh \/ segment hi = Cao).
Proof.
  intros df selected r_lo r_hi.
  assert (H1 : In r_lo selected) by (apply nth_In; vm_compute; lia).
  assert (H2 : In r_hi selected) by (apply nth_In; vm_compute; lia).
  assert (S1 : segment r_lo = Cao) by (vm_compute; reflexivity).
  assert (P1 : price r_lo = Some 4000) by (vm_compute; reflexivity).
  assert (P2 : price r_hi = Some 5000) by (vm_compute; reflexivity).
  assert (Hall : forall r z, In r selected -> price r = Some z -> 4000 <= z /\ z <= 5000).
  { intros r z Hin Hp. vm_compute in Hin.
    destruct Hin as [<-|[<-|[]]]; vm_compute in Hp; injection Hp as <-;
      split; discriminate. }
  assert (L : 4000 < 5000) by reflexivity.
  repeat (split; [assumption|]).
  exact (selection_is_classified_again
           AsciiLib.strptime_ymd AsciiLib.float_of_str
           df None (Some Cao) None Ban_hang Examples.march_10 Examples.march_14
           r_lo r_hi 4000 5000 H1 H2 P1 P2 Hall L).
Defined.

(** X3 at work: the movement of product 1 on 2025-03-10 lies in the range
    returned for the two products of the worked example. *)
Lemma date_range_witness :
  let collection := [Examples.product_1; Examples.product_2] in
  let row := load_row (mongo_project Examples.product_1 1000) in
  let entry := Examples.movement "2025-03-10" 5 2 in
  In row (fst (fst (load_data_optimized AsciiLib.strptime_ymd collection)))
  /\ In entry (l_stock_history row)
  /\ parse_entry_date AsciiLib.strptime_ymd entry = Some Examples.march_10
  /\ date_leb (snd (fst (load_data_optimized AsciiLib.strptime_ymd collection)))
              Examples.march_10 = true
  /\ date_leb Examples.march_10
              (snd (load_data_optimized AsciiLib.strptime_ymd collection)) = true.
Proof.
  intros collection row entry.
  assert (H1 : In row (fst (fst (load_data_optimized AsciiLib.strptime_ymd collection))))
    by (left; reflexivity).
  assert (H2 : In entry (l_stock_history row)) by (left; reflexivity).
  assert (H3 : parse_entry_date AsciiLib.strptime_ymd entry = Some Examples.march_10)
    by (vm_compute; reflexivity).
  split; [exact H1|]. split; [exact H2|]. split; [exact H3|].
  exact (proj1 (date_range_covers_stored_dates AsciiLib.strptime_ymd collection)
               row entry Examples.march_10 H1 H2 H3).
Defined.

(** X8 at work: the five products with every tier overwritten by 'Cao'
    have the same price column, hence the same tiers. *)
Lemma categorize_reads_prices_witness :
  let df := apply_clustering_improved
              (fst (fst (load_data_optimized AsciiLib.strptime_ymd
                           Examples.five_products))) in
  let df' := map (with_segment Cao) df in
  map price df = map price df'
  /\ map segment (categorize_price_segment df)
     = map segment (categorize_price_segment df').
Proof.
  intros df df'.
  assert (H : map price df = map price df') by (vm_compute; reflexivity).
  split; [exact H|].
  exact (proj2 (proj2 categorize_price_segment_idempotent) df df' H).
Defined.
